(** * Recipe catalog service: the authentication layer of [backend/server.py]

    A shallow embedding of the request handlers of [backend/server.py] and of
    the parts of the libraries they call (bson's ObjectId, passlib's bcrypt
    context, PyJWT, FastAPI's dependency resolution), followed by the
    properties of the authentication and authorization layer.

    Conventions.
    - A Python [str] is a [string]: the bytes of its UTF-8 encoding.
    - An instant (a reading of [datetime.utcnow()], a [datetime]) is a number
      of microseconds since the epoch, the resolution of a [datetime]. The
      [exp] claim of a token is a number of whole seconds, and a datetime kept
      in the store has whole milliseconds.
    - A handler is a computation over the document store: it returns or raises,
      and leaves a store behind in both cases. *)

From Stdlib Require Import ZArith NArith String Ascii List Lia.
From stdpp Require Import gmap strings list fin_maps.

Local Open Scope string_scope.
Local Open Scope Z_scope.

(** ** Python values, exceptions and outcomes *)

(** The JSON values a token's claims carry, as the handlers tell them apart:
    a string, a number, or [None] (JSON null). *)
Inductive value : Type :=
  | VStr (s : string)
  | VInt (n : Z)
  | VNone.

(** [d.get(k)]: the value under [k], [None] when the key is absent. *)
Definition dict_get (d : gmap string value) (k : string) : value :=
  match d !! k with
  | Some v => v
  | None => VNone
  end.

(** The exceptions that can travel through the handlers, by class. *)
Inductive exn : Type :=
  (* fastapi.HTTPException(status_code, detail) *)
  | HTTPException (status_code : Z) (detail : string)
  (* jwt.exceptions: subclasses of InvalidTokenError *)
  | ExpiredSignatureError
  | InvalidSignatureError
  | InvalidAlgorithmError
  | DecodeError
  | ImmatureSignatureError
  | InvalidIssuedAtError
  | InvalidAudienceError
  | InvalidSubjectError
  | InvalidJTIError
  (* bson.errors.InvalidId *)
  | InvalidId
  (* Python's own TypeError: int(None), ObjectId(5) *)
  | TypeError
  (* passlib.exc *)
  | UnknownHashError
  | MalformedHashError
  | MissingDigestError
  | PasswordValueError
  | PasswordSizeError.

(** [isinstance(e, jwt.ExpiredSignatureError)]. *)
Definition is_ExpiredSignatureError (e : exn) : bool :=
  match e with
  | ExpiredSignatureError => true
  | _ => false
  end.

(** [isinstance(e, jwt.InvalidTokenError)]: the base class of every PyJWT
    validation error, [ExpiredSignatureError] included. *)
Definition is_InvalidTokenError (e : exn) : bool :=
  match e with
  | ExpiredSignatureError | InvalidSignatureError
  | InvalidAlgorithmError | DecodeError
  | ImmatureSignatureError | InvalidIssuedAtError | InvalidAudienceError
  | InvalidSubjectError | InvalidJTIError => true
  | _ => false
  end.

(** What a call does: it returns a value or raises. *)
Inductive outcome (A : Type) : Type :=
  | Returns (a : A)
  | Raises (e : exn).
Arguments Returns {A} a.
Arguments Raises {A} e.

Definition outcome_bind {A B} (o : outcome A) (k : A -> outcome B) : outcome B :=
  match o with
  | Returns a => k a
  | Raises e => Raises e
  end.

(** ** Strings *)

(** [s.startswith(p)], returning what follows the prefix. *)
Fixpoint strip_prefix (p s : string) : option string :=
  match p, s with
  | EmptyString, _ => Some s
  | String a p', String b s' => if Ascii.eqb a b then strip_prefix p' s' else None
  | String _ _, EmptyString => None
  end.

(** [(s[:n], s[n:])] when [s] has at least [n] bytes. *)
Fixpoint split_at (n : nat) (s : string) : option (string * string) :=
  match n, s with
  | O, _ => Some (EmptyString, s)
  | S n', String a s' =>
      match split_at n' s' with
      | Some (l, r) => Some (String a l, r)
      | None => None
      end
  | S _, EmptyString => None
  end.

(** [s[:n]] (the whole of [s] when it is shorter). *)
Fixpoint take_bytes (n : nat) (s : string) : string :=
  match n, s with
  | O, _ => EmptyString
  | S n', String a s' => String a (take_bytes n' s')
  | S _, EmptyString => EmptyString
  end.

(** [c in s]. *)
Fixpoint contains_byte (c : ascii) (s : string) : bool :=
  match s with
  | EmptyString => false
  | String a s' => Ascii.eqb a c || contains_byte c s'
  end.

(** [len(s)] of the Python [str]: its code points, which are the bytes of the
    UTF-8 encoding that are not continuation bytes (0x80 to 0xBF). *)
Fixpoint py_len (s : string) : nat :=
  match s with
  | EmptyString => O
  | String a s' =>
      let c := nat_of_ascii a in
      if (Nat.leb 128 c && Nat.ltb c 192)%bool then py_len s' else S (py_len s')
  end.

(** ** bson: ObjectId *)

Module bson.

(** An ObjectId holds the bytes [bytes.fromhex] read from its text: twelve
    for the identifier of a stored document and for every text of 24
    hexadecimal digits, fewer for a text with white space among its digits.
    It is kept as a number. Twelve bytes are the number below [2 ^ 96] that
    their 24 digits write; [k] bytes, [k] below twelve, are numbered by
    [short] above all of those and apart from one another. *)
Definition ObjectId : Type := N.

Definition short (k : nat) (n : N) : ObjectId := (2 ^ 96 + 256 ^ N.of_nat k + n)%N.

Definition hex_digit (d : N) : ascii :=
  if (d <? 10)%N then ascii_of_N (48 + d) else ascii_of_N (87 + d).

Fixpoint hex_digits (k : nat) (n : N) (acc : string) : string :=
  match k with
  | O => acc
  | S k' => hex_digits k' (n / 16)%N (String (hex_digit (n mod 16)%N) acc)
  end.

(** [str(oid)] for an ObjectId of twelve bytes: 24 lower-case hexadecimal
    digits. *)
Definition str (oid : ObjectId) : string := hex_digits 24 oid EmptyString.
Arguments str : simpl never.

Definition hex_value (a : ascii) : option N :=
  let c := N_of_ascii a in
  if ((48 <=? c) && (c <=? 57))%N then Some (c - 48)%N
  else if ((97 <=? c) && (c <=? 102))%N then Some (c - 87)%N
  else if ((65 <=? c) && (c <=? 70))%N then Some (c - 55)%N
  else None.

(** ASCII white space: the space and the characters 9 to 13. *)
Definition is_space (a : ascii) : bool :=
  let c := N_of_ascii a in
  ((c =? 32) || ((9 <=? c) && (c <=? 13)))%N.

(** [bytes.fromhex(s)]: pairs of hexadecimal digits, with white space allowed
    before a pair and after the last one, not between the two digits of a
    pair. [high] is the first digit of a pair whose second digit is awaited;
    the result is how many bytes were read and the number they write. *)
Fixpoint fromhex (s : string) (high : option N) (k : nat) (acc : N)
  : option (nat * N) :=
  match s, high with
  | EmptyString, None => Some (k, acc)
  | EmptyString, Some _ => None
  | String a s', None =>
      if is_space a then fromhex s' None k acc
      else
        match hex_value a with
        | Some d => fromhex s' (Some d) k acc
        | None => None
        end
  | String a s', Some h =>
      match hex_value a with
      | Some d => fromhex s' None (S k) (256 * acc + 16 * h + d)%N
      | None => None
      end
  end.

(** [ObjectId(oid)] for a value taken from JSON that is not [None] (the
    callers test for [None] first). A string must have 24 characters and be
    read by [bytes.fromhex], or [InvalidId] is raised; the ObjectId holds the
    bytes read, twelve when the 24 characters are digits. (A character that
    is not ASCII is neither a digit nor white space, so counting the bytes of
    the string decides as counting its characters does.) A value that is not
    a string raises [TypeError]. *)
Definition ObjectId_of_str (s : string) : outcome ObjectId :=
  if Nat.eqb (String.length s) 24 then
    match fromhex s None 0 0%N with
    | Some (k, n) => Returns (if Nat.eqb k 12 then n else short k n)
    | None => Raises InvalidId
    end
  else Raises InvalidId.

Definition ObjectId_of (v : value) : outcome ObjectId :=
  match v with
  | VStr s => ObjectId_of_str s
  | _ => Raises TypeError
  end.

(** A datetime as BSON keeps it: whole milliseconds, the microseconds
    beyond them dropped. *)
Definition datetime (t : Z) : Z := t / 1000 * 1000.

End bson.

(** ** passlib: [CryptContext(schemes=["bcrypt"], deprecated="auto")] *)

Module passlib.

(** bcrypt's base-64 alphabet. *)
Definition bcrypt64 : string :=
  "./ABCDEFGHIJKLMNOPQRSTUVWXYZabcdefghijklmnopqrstuvwxyz0123456789".

Definition b64_digit (d : N) : ascii :=
  match String.get (N.to_nat d) bcrypt64 with
  | Some a => a
  | None => "."%char
  end.

(** [k] base-64 digits of [n], most significant first. *)
Fixpoint b64_digits (k : nat) (n : N) (acc : string) : string :=
  match k with
  | O => acc
  | S k' => b64_digits k' (n / 64)%N (String (b64_digit (n mod 64)%N) acc)
  end.

Definition b64 (k : nat) (n : N) : string := b64_digits k n EmptyString.
Arguments b64 : simpl never.

(** The place of a character in an alphabet. *)
Fixpoint index_of (c : ascii) (alphabet : string) (i : N) : option N :=
  match alphabet with
  | EmptyString => None
  | String a rest => if Ascii.eqb a c then Some i else index_of c rest (N.succ i)
  end.

Definition b64_index (c : ascii) : option N := index_of c bcrypt64 0%N.

(** Every character of the string is of the alphabet. *)
Fixpoint all_bcrypt64 (s : string) : bool :=
  match s with
  | EmptyString => true
  | String c s' =>
      match b64_index c with
      | Some _ => all_bcrypt64 s'
      | None => false
      end
  end.

(** [bcrypt64.check_repair_unused]: the last character of a salt or of a
    checksum carries padding bits ([mask]); a string in which they are set is
    read as the string in which they are clear. *)
Fixpoint repair_unused (mask : N) (s : string) : string :=
  match s with
  | EmptyString => EmptyString
  | String c EmptyString =>
      match b64_index c with
      | Some d => String (b64_digit (N.ldiff d mask)) EmptyString
      | None => String c EmptyString
      end
  | String c s' => String c (repair_unused mask s')
  end.

(** The 16 bytes of a salt in 22 characters (4 padding bits) and the 23 bytes
    of a digest in 31 characters (2 padding bits). *)
Definition salt_str (salt_bits : N) : string := b64 22 (16 * salt_bits).
Definition checksum_str (digest : N) : string := b64 31 (4 * digest).

(** PASSLIB_MAX_PASSWORD_SIZE. *)
Definition MAX_PASSWORD_SIZE : nat := 4096.

(** bcrypt reads at most this many bytes of a password. *)
Definition truncate_size : nat := 72.

(** The prefixes by which the bcrypt handler identifies a hash. *)
Definition ident_values : list string :=
  ["$2$"; "$2a$"; "$2x$"; "$2y$"; "$2b$"].

Definition default_ident : string := "$2b$".
Definition default_rounds : nat := 12.
Definition min_rounds : nat := 4.
Definition max_rounds : nat := 31.

Fixpoint parse_ident (ids : list string) (hash : string) : option (string * string) :=
  match ids with
  | [] => None
  | id :: ids' =>
      match strip_prefix id hash with
      | Some tail => Some (id, tail)
      | None => parse_ident ids' hash
      end
  end.

(** [handler.identify(hash)]: the hash starts with one of the prefixes. *)
Definition identify (hash : string) : bool :=
  match parse_ident ident_values hash with
  | Some _ => true
  | None => false
  end.

Definition digit_value (a : ascii) : option nat :=
  let c := nat_of_ascii a in
  if (Nat.leb 48 c && Nat.leb c 57)%bool then Some (c - 48)%nat else None.

(** The cost field: two decimal digits. *)
Definition parse_rounds (s : string) : option nat :=
  match s with
  | String a (String b EmptyString) =>
      match digit_value a, digit_value b with
      | Some x, Some y => Some (10 * x + y)%nat
      | _, _ => None
      end
  | _ => None
  end.

Definition rounds_str (r : nat) : string :=
  String (ascii_of_nat (48 + r / 10)) (String (ascii_of_nat (48 + r mod 10)) EmptyString).

(** A parsed bcrypt hash. *)
Record bcrypt_hash : Type := {
  ident : string;
  rounds : nat;
  salt : string;
  checksum : option string
}.

(** [bcrypt.from_string(hash)]: prefix, two-digit cost, [$], 22 characters of
    salt and, when the string goes on, 31 characters of checksum (a string
    that ends with the salt parses to a hash without checksum). The cost must
    lie between 4 and 31 and the salt and checksum be written in the bcrypt
    alphabet; their padding bits are read as clear. On any other string a
    [ValueError] is raised, shown here as [MalformedHashError]. *)
Definition from_string (hash : string) : outcome bcrypt_hash :=
  match parse_ident ident_values hash with
  | None => Raises UnknownHashError
  | Some (id, tail) =>
      if String.eqb id "$2x$" then Raises MalformedHashError
      else
        match split_at 2 tail with
        | None => Raises MalformedHashError
        | Some (cost, rest) =>
            match parse_rounds cost, strip_prefix "$" rest with
            | Some r, Some data =>
                match split_at 22 data with
                | Some (s, chk) =>
                    if (Nat.leb min_rounds r && Nat.leb r max_rounds)
                       && all_bcrypt64 s
                       && (String.eqb chk EmptyString
                           || (Nat.eqb (String.length chk) 31 && all_bcrypt64 chk))
                    then Returns {| ident := id; rounds := r;
                                    salt := repair_unused 15 s;
                                    checksum :=
                                      if String.eqb chk EmptyString then None
                                      else Some (repair_unused 3 chk) |}
                    else Raises MalformedHashError
                | None => Raises MalformedHashError
                end
            | _, _ => Raises MalformedHashError
            end
        end
  end.

(** [validate_secret(secret)] on the [str]: the size limit, in characters. *)
Definition validate_secret (secret : string) : outcome unit :=
  if Nat.ltb MAX_PASSWORD_SIZE (py_len secret) then Raises PasswordSizeError
  else Returns tt.

Section Bcrypt.

(** The bcrypt key derivation itself: from the variant, the cost, the salt
    and the (truncated) password to the 184-bit digest. It is left
    abstract; nothing is assumed of it. *)
Variable bcrypt_digest : string -> nat -> string -> string -> N.

(** The checksum of a password under a variant, cost and salt. The size
    limit is checked again on the bytes of the password, NUL bytes are
    refused, and bytes after the 72nd are not read. *)
Definition calc_checksum (id : string) (r : nat) (s : string) (secret : string)
  : outcome string :=
  if Nat.ltb MAX_PASSWORD_SIZE (String.length secret) then Raises PasswordSizeError
  else if contains_byte Ascii.zero secret then Raises PasswordValueError
  else Returns (checksum_str (bcrypt_digest id r s (take_bytes truncate_size secret))).

(** [pwd_context.hash(secret)], with the salt the library draws. *)
Definition hash (salt_bits : N) (secret : string) : outcome string :=
  outcome_bind (validate_secret secret) (fun _ =>
  let s := salt_str salt_bits in
  outcome_bind (calc_checksum default_ident default_rounds s secret) (fun chk =>
  Returns (default_ident ++ rounds_str default_rounds ++ "$" ++ s ++ chk))).

(** [pwd_context.verify(secret, hash)]: the hash is identified first (a
    string no scheme of the context recognises is an error, not a
    mismatch), then parsed; a hash without checksum is an error; the checksum
    of [secret] under the parsed salt is compared with the stored one. *)
Definition verify (secret : string) (hash : string) : outcome bool :=
  if negb (identify hash) then Raises UnknownHashError
  else
    outcome_bind (validate_secret secret) (fun _ =>
    outcome_bind (from_string hash) (fun h =>
    match checksum h with
    | None => Raises MissingDigestError
    | Some stored =>
        outcome_bind (calc_checksum (ident h) (rounds h) (salt h) secret) (fun chk =>
        Returns (String.eqb chk stored))
    end)).

End Bcrypt.

End passlib.

(** ** PyJWT: [jwt.encode] and [jwt.decode] *)

Module jwt.

(** A bearer token as PyJWT's parser sees it. The compact serialization
    (base64url segments of JSON) is not modelled: a token is either a string
    that does not split into a header, a JSON object of claims and a
    signature, or the three of them. *)
Inductive token : Type :=
  | Garbage (raw : string)
  | Compact (alg : string) (claims : gmap string value) (signature : string).

(** [not v]: the values Python holds false. *)
Definition falsy (v : value) : bool :=
  match v with
  | VNone => true
  | VStr EmptyString => true
  | VInt 0 => true
  | _ => false
  end.

(** [isinstance(v, str)]. *)
Definition is_str (v : value) : bool :=
  match v with
  | VStr _ => true
  | _ => false
  end.

(** The claim written under [exp] for a datetime: [jwt.encode] writes
    [timegm(t.utctimetuple())], the whole seconds of the instant. *)
Definition numeric_date (t : Z) : value := VInt (t / 1000000).

Section Signing.

(** The signing primitive: algorithm, key and claims to signature. It is left
    abstract; nothing is assumed of it. *)
Variable sign : string -> string -> gmap string value -> string.

(** Python's [int(s)] for a string: the whole number the text writes, [None]
    when [int] raises [ValueError]. It is left abstract; nothing is assumed
    of it. *)
Variable int_of_str : string -> option Z.

(** [int(v)] under [except ValueError: raise error]: a number is itself, a
    string is read by [int], and [None] makes [int] raise a [TypeError],
    which the [except] clause does not name. *)
Definition int_of (v : value) (error : exn) : outcome Z :=
  match v with
  | VInt n => Returns n
  | VStr s =>
      match int_of_str s with
      | Some n => Returns n
      | None => Raises error
      end
  | VNone => Raises TypeError
  end.

(** The checks of the registered claims at the instant [now]. A date claim
    [d], in seconds, is compared with the clock read in seconds and
    fractions: [d <= now] is [d * 1000000 <= now] on the microseconds. *)
Definition validate_iat (claims : gmap string value) (now : Z) : outcome unit :=
  match claims !! "iat" with
  | None => Returns tt
  | Some v =>
      outcome_bind (int_of v InvalidIssuedAtError) (fun iat =>
      if now <? iat * 1000000 then Raises ImmatureSignatureError else Returns tt)
  end.

Definition validate_nbf (claims : gmap string value) (now : Z) : outcome unit :=
  match claims !! "nbf" with
  | None => Returns tt
  | Some v =>
      outcome_bind (int_of v DecodeError) (fun nbf =>
      if now <? nbf * 1000000 then Raises ImmatureSignatureError else Returns tt)
  end.

Definition validate_exp (claims : gmap string value) (now : Z) : outcome unit :=
  match claims !! "exp" with
  | None => Returns tt
  | Some v =>
      outcome_bind (int_of v DecodeError) (fun exp =>
      if exp * 1000000 <=? now then Raises ExpiredSignatureError else Returns tt)
  end.

(** No audience is expected by the server: a token that names one is
    refused. *)
Definition validate_aud (claims : gmap string value) : outcome unit :=
  match claims !! "aud" with
  | None => Returns tt
  | Some v => if falsy v then Returns tt else Raises InvalidAudienceError
  end.

Definition validate_sub (claims : gmap string value) : outcome unit :=
  match claims !! "sub" with
  | None => Returns tt
  | Some v => if is_str v then Returns tt else Raises InvalidSubjectError
  end.

Definition validate_jti (claims : gmap string value) : outcome unit :=
  match claims !! "jti" with
  | None => Returns tt
  | Some v => if is_str v then Returns tt else Raises InvalidJTIError
  end.

(** [_validate_claims(payload, options)] with the default options, in the
    order PyJWT runs the checks; no issuer is expected, so [iss] is not
    looked at. *)
Definition validate_claims (claims : gmap string value) (now : Z) : outcome unit :=
  outcome_bind (validate_iat claims now) (fun _ =>
  outcome_bind (validate_nbf claims now) (fun _ =>
  outcome_bind (validate_exp claims now) (fun _ =>
  outcome_bind (validate_aud claims) (fun _ =>
  outcome_bind (validate_sub claims) (fun _ =>
  validate_jti claims))))).

(** [jwt.encode(payload, key, algorithm=alg)]. *)
Definition encode (payload : gmap string value) (key : string) (alg : string) : token :=
  Compact alg payload (sign alg key payload).

(** [jwt.decode(tok, key, algorithms=algs)] at the instant [now]: the
    structure, the algorithm and the signature are checked, then the
    registered claims. *)
Definition decode (tok : token) (key : string) (algs : list string) (now : Z)
  : outcome (gmap string value) :=
  match tok with
  | Garbage _ => Raises DecodeError
  | Compact alg claims sig =>
      if negb (existsb (String.eqb alg) algs) then Raises InvalidAlgorithmError
      else if negb (String.eqb sig (sign alg key claims)) then Raises InvalidSignatureError
      else outcome_bind (validate_claims claims now) (fun _ => Returns claims)
  end.

End Signing.

End jwt.

(** ** The document store *)

(** A document of [db.users], as [register] writes it. *)
Record user_doc : Type := {
  user__id : bson.ObjectId;
  user_email : string;
  user_password : string;
  user_name : string;
  user_created_at : Z
}.

(** A document of [db.recipes]; the seeded recipes have no [created_by]. *)
Record recipe_doc : Type := {
  recipe__id : bson.ObjectId;
  recipe_name : string;
  recipe_category : string;
  recipe_ingredients : list string;
  recipe_steps : list string;
  recipe_cooking_time : string;
  recipe_difficulty : string;
  recipe_image : string;
  recipe_created_by : option string;
  recipe_created_at : option Z
}.

(** A document of [db.favorites]. *)
Record favorite_doc : Type := {
  favorite__id : bson.ObjectId;
  favorite_user_id : string;
  favorite_recipe_id : string;
  favorite_created_at : Z
}.

(** The database: three collections in insertion order, and the next
    identifier the driver gives to an inserted document. *)
Record db : Type := {
  users : list user_doc;
  recipes : list recipe_doc;
  favorites : list favorite_doc;
  next_id : bson.ObjectId
}.

(** ** Handlers: computations over the store that return or raise *)

Definition M (A : Type) : Type := db -> outcome A * db.

Definition ret {A} (a : A) : M A := fun s => (Returns a, s).

Definition raise {A} (e : exn) : M A := fun s => (Raises e, s).

Definition bind {A B} (m : M A) (k : A -> M B) : M B :=
  fun s =>
    match m s with
    | (Returns a, s') => k a s'
    | (Raises e, s') => (Raises e, s')
    end.

(** A library call that touches no collection. *)
Definition lift {A} (o : outcome A) : M A := fun s => (o, s).

(** [try: body / except ...: handler]: the handler sees every exception of the
    body and re-raises those no [except] clause names. *)
Definition try_except {A} (body : M A) (handler : exn -> M A) : M A :=
  fun s =>
    match body s with
    | (Returns a, s') => (Returns a, s')
    | (Raises e, s') => handler e s'
    end.

Notation "'do' x <- m ; k" := (bind m (fun x => k))
  (at level 10, x name, m at level 100, k at level 200).
Notation "'exec' m ; k" := (bind m (fun _ => k))
  (at level 10, m at level 100, k at level 200).

(** [collection.find_one(filter)]: the first document that matches. *)
Definition find_one_user (filter : user_doc -> bool) : M (option user_doc) :=
  fun s => (Returns (List.find filter (users s)), s).

Definition find_one_recipe (filter : recipe_doc -> bool) : M (option recipe_doc) :=
  fun s => (Returns (List.find filter (recipes s)), s).

Definition find_one_favorite (filter : favorite_doc -> bool) : M (option favorite_doc) :=
  fun s => (Returns (List.find filter (favorites s)), s).

(** What the collection keeps of a recipe: its datetime in milliseconds. *)
Definition stored_recipe (r : recipe_doc) : recipe_doc :=
  {| recipe__id := recipe__id r;
     recipe_name := recipe_name r;
     recipe_category := recipe_category r;
     recipe_ingredients := recipe_ingredients r;
     recipe_steps := recipe_steps r;
     recipe_cooking_time := recipe_cooking_time r;
     recipe_difficulty := recipe_difficulty r;
     recipe_image := recipe_image r;
     recipe_created_by := recipe_created_by r;
     recipe_created_at := option_map bson.datetime (recipe_created_at r) |}.

(** [collection.insert_one(doc)]: the document is stored under a new
    identifier, which is returned as [result.inserted_id]; its datetime is
    kept as BSON keeps it. *)
Definition insert_one_user (email password name : string) (created_at : Z)
  : M bson.ObjectId :=
  fun s =>
    let oid := next_id s in
    (Returns oid,
     {| users := users s ++ [ {| user__id := oid; user_email := email;
                                  user_password := password; user_name := name;
                                  user_created_at := bson.datetime created_at |} ];
        recipes := recipes s;
        favorites := favorites s;
        next_id := N.succ oid |}).

Definition insert_one_recipe (mk : bson.ObjectId -> recipe_doc) : M bson.ObjectId :=
  fun s =>
    let oid := next_id s in
    (Returns oid,
     {| users := users s;
        recipes := recipes s ++ [stored_recipe (mk oid)];
        favorites := favorites s;
        next_id := N.succ oid |}).

Definition insert_one_favorite (user_id recipe_id : string) (created_at : Z)
  : M bson.ObjectId :=
  fun s =>
    let oid := next_id s in
    (Returns oid,
     {| users := users s;
        recipes := recipes s;
        favorites := favorites s ++ [ {| favorite__id := oid;
                                          favorite_user_id := user_id;
                                          favorite_recipe_id := recipe_id;
                                          favorite_created_at :=
                                            bson.datetime created_at |} ];
        next_id := N.succ oid |}).

(** The list without its first element that matches, and how many were
    removed (0 or 1). *)
Fixpoint remove_first {A} (p : A -> bool) (l : list A) : list A * Z :=
  match l with
  | [] => ([], 0)
  | x :: l' =>
      if p x then (l', 1)
      else let '(r, n) := remove_first p l' in (x :: r, n)
  end.

(** [db.favorites.delete_one(filter)], returning [result.deleted_count]. *)
Definition delete_one_favorite (filter : favorite_doc -> bool) : M Z :=
  fun s =>
    let '(favs, n) := remove_first filter (favorites s) in
    (Returns n,
     {| users := users s; recipes := recipes s; favorites := favs;
        next_id := next_id s |}).

(** ** FastAPI: requests, models and responses *)

(** What a request carries for the bearer scheme: its Authorization header. *)
Record request : Type := {
  authorization : option string
}.

(** [HTTPAuthorizationCredentials]: what the bearer scheme extracts. *)
Record HTTPAuthorizationCredentials : Type := {
  scheme : string;
  credentials : jwt.token
}.

Record UserRegister : Type := {
  register_email : string;
  register_password : string;
  register_name : string
}.

Record UserLogin : Type := {
  login_email : string;
  login_password : string
}.

(** The dictionary [register] and [login] return under [response_model=Token];
    its [user] entry is itself a dictionary. *)
Record Token : Type := {
  access_token : jwt.token;
  token_type : string;
  user : gmap string value
}.

Record Recipe : Type := {
  id : option string;
  name : string;
  category : string;
  ingredients : list string;
  steps : list string;
  cooking_time : string;
  difficulty : string;
  image : string;
  created_by : option string;
  created_at : option Z
}.

Record RecipeCreate : Type := {
  create_name : string;
  create_category : string;
  create_ingredients : list string;
  create_steps : list string;
  create_cooking_time : string;
  create_difficulty : string;
  create_image : string
}.

Record FavoriteCreate : Type := {
  recipe_id : string
}.

(** The [{"message": ...}] dictionary of the favorites routes. *)
Record Message : Type := {
  message : string
}.

(** What the caller receives: FastAPI answers an [HTTPException] with its
    status code and detail, and any other exception with a generic 500. *)
Record response : Type := {
  status : Z;
  error_detail : option string
}.

Definition respond {A} (o : outcome A) : response :=
  match o with
  | Returns _ => {| status := 200; error_detail := None |}
  | Raises (HTTPException code detail) => {| status := code; error_detail := Some detail |}
  | Raises _ => {| status := 500; error_detail := Some "Internal Server Error" |}
  end.

(** ** Concrete instances, for the examples

    Stand-ins for the cryptographic primitives and for the bearer scheme, and
    a small store. They are used to evaluate the handlers on concrete
    requests; no property below is proved of them alone. *)

Module Sample.

Fixpoint mix (s : string) (acc : N) : N :=
  match s with
  | EmptyString => acc
  | String a s' => mix s' (acc * 257 + N_of_ascii a)%N
  end.

Definition digest (id : string) (r : nat) (s secret : string) : N :=
  mix secret (mix s (N.of_nat r)).

Definition sign (alg key : string) (claims : gmap string value) : string :=
  alg ++ "/" ++ key ++ "/" ++
  match dict_get claims "user_id" with
  | VStr u => u
  | _ => EmptyString
  end.

Definition SECRET_KEY : string := "sample-secret".

(** A reading of decimal texts: digits, with a sign before them or not. *)
Fixpoint digits_value (s : string) (acc : Z) : option Z :=
  match s with
  | EmptyString => Some acc
  | String a s' =>
      let c := Z.of_nat (nat_of_ascii a) in
      if (48 <=? c) && (c <=? 57) then digits_value s' (10 * acc + (c - 48))
      else None
  end.

Definition int_of_str (s : string) : option Z :=
  match s with
  | EmptyString => None
  | String a EmptyString => digits_value s 0
  | String a s' =>
      if Ascii.eqb a "-" then option_map Z.opp (digits_value s' 0)
      else if Ascii.eqb a "+" then digits_value s' 0
      else digits_value s 0
  end.

(** The hash [pwd_context.hash] gives a password under a drawn salt. *)
Definition hash_of (salt_bits : N) (password : string) : string :=
  match passlib.hash digest salt_bits password with
  | Returns h => h
  | Raises _ => EmptyString
  end.

(** A token signed with the sample key. *)
Definition token_for (user_id : value) (exp : Z) : jwt.token :=
  jwt.encode sign (<["exp" := VInt exp]> {[ "user_id" := user_id ]}) SECRET_KEY "HS256".

Definition alice : user_doc :=
  {| user__id := 1%N;
     user_email := "a@x.com";
     user_password := hash_of 7 "pw123";
     user_name := "A";
     user_created_at := 1000900000 |}.

Definition alice_id : string := "000000000000000000000001".

Definition empty_store : db :=
  {| users := []; recipes := []; favorites := []; next_id := 1%N |}.

Definition store : db :=
  {| users := [alice]; recipes := []; favorites := []; next_id := 2%N |}.

(** A bearer scheme over a two-entry table of tokens: [alice-token] is a
    token of [alice] whose [exp] is 605800 seconds, any other string is no
    token. *)
Definition wire (t : string) : jwt.token :=
  if String.eqb t "alice-token" then token_for (VStr alice_id) 605800
  else jwt.Garbage t.

Definition security (req : request) : outcome HTTPAuthorizationCredentials :=
  match authorization req with
  | None => Raises (HTTPException 403 "Not authenticated")
  | Some header =>
      match strip_prefix "Bearer " header with
      | Some t => Returns {| scheme := "Bearer"; credentials := wire t |}
      | None => Raises (HTTPException 403 "Invalid authentication credentials")
      end
  end.

Definition bearer (t : jwt.token) : HTTPAuthorizationCredentials :=
  {| scheme := "Bearer"; credentials := t |}.

Definition pasta : RecipeCreate :=
  {| create_name := "Pasta";
     create_category := "veg";
     create_ingredients := ["Pasta"; "Salt"];
     create_steps := ["Boil"];
     create_cooking_time := "10 minutes";
     create_difficulty := "easy";
     create_image := "pasta.png" |}.

(** Two passwords of 73 bytes that differ in the last one only. *)
Definition seventy_two_bytes : string :=
  "aaaaaaaaaaaaaaaaaaaaaaaaaaaaaaaaaaaaaaaaaaaaaaaaaaaaaaaaaaaaaaaaaaaaaaaa".

Definition long_x : string := seventy_two_bytes ++ "x".
Definition long_y : string := seventy_two_bytes ++ "y".

Definition register_alice : UserRegister :=
  {| register_email := "a@x.com"; register_password := "pw123"; register_name := "A" |}.

Definition register_again : UserRegister :=
  {| register_email := "a@x.com"; register_password := "other"; register_name := "B" |}.

Definition login_unknown : UserLogin :=
  {| login_email := "nobody@x.com"; login_password := "pw123" |}.

Definition login_wrong : UserLogin :=
  {| login_email := "a@x.com"; login_password := "wrong" |}.

(** A password with a NUL byte in it: [a\0b]. *)
Definition nul_password : string :=
  String "a" (String Ascii.zero (String "b" EmptyString)).

Definition login_nul : UserLogin :=
  {| login_email := "a@x.com"; login_password := nul_password |}.

Definition login_unknown_nul : UserLogin :=
  {| login_email := "nobody@x.com"; login_password := nul_password |}.

Definition no_header : request := {| authorization := None |}.

(** The response of [register] and of [login] for [alice] at 1000.9 seconds,
    the instant 1000900000. *)
Definition alice_response : Token :=
  {| access_token := token_for (VStr alice_id) 605800;
     token_type := "bearer";
     user := <["id" := VStr alice_id]>
               (<["email" := VStr "a@x.com"]> (<["name" := VStr "A"]> ∅)) |}.

Definition login_alice : UserLogin :=
  {| login_email := "a@x.com"; login_password := "pw123" |}.

Definition with_token : request := {| authorization := Some "Bearer alice-token" |}.


Definition not_before (nbf : Z) : gmap string value :=
  <["nbf" := VInt nbf]> {[ "user_id" := VStr alice_id ]}.

Definition pasta_doc : recipe_doc :=
  {| recipe__id := 2%N;
     recipe_name := "Pasta";
     recipe_category := "veg";
     recipe_ingredients := ["Pasta"; "Salt"];
     recipe_steps := ["Boil"];
     recipe_cooking_time := "10 minutes";
     recipe_difficulty := "easy";
     recipe_image := "pasta.png";
     recipe_created_by := Some alice_id;
     recipe_created_at := Some 1000900000 |}.

(** A store in which [alice] has one recipe and has it as a favorite. *)
Definition kitchen : db :=
  {| users := [alice];
     recipes := [pasta_doc];
     favorites := [ {| favorite__id := 3%N;
                       favorite_user_id := alice_id;
                       favorite_recipe_id := "000000000000000000000002";
                       favorite_created_at := 1000900000 |} ];
     next_id := 4%N |}.

End Sample.

(** ** [backend/server.py] *)

Definition ALGORITHM : string := "HS256".

Definition ACCESS_TOKEN_EXPIRE_MINUTES : Z := 60 * 24 * 7.

(** [timedelta(minutes=m)], in microseconds. *)
Definition timedelta_minutes (m : Z) : Z := m * 60 * 1000000.

(** [Recipe(id=str(recipe["_id"]), name=recipe["name"], ...)]. *)
Definition Recipe_of_doc (recipe : recipe_doc) : Recipe :=
  {| id := Some (bson.str (recipe__id recipe));
     name := recipe_name recipe;
     category := recipe_category recipe;
     ingredients := recipe_ingredients recipe;
     steps := recipe_steps recipe;
     cooking_time := recipe_cooking_time recipe;
     difficulty := recipe_difficulty recipe;
     image := recipe_image recipe;
     created_by := recipe_created_by recipe;
     created_at := recipe_created_at recipe |}.

Section Server.

(** The signing secret of the process environment. *)
Variable SECRET_KEY : string.

(** The cryptographic primitives of the two libraries. *)
Variable bcrypt_digest : string -> nat -> string -> string -> N.
Variable sign : string -> string -> gmap string value -> string.

(** Python's [int] on a string, which PyJWT applies to the dates of a token. *)
Variable int_of_str : string -> option Z.

(** [security = HTTPBearer()]: FastAPI's bearer scheme, which reads the
    Authorization header and either extracts the credentials or raises. *)
Variable security : request -> outcome HTTPAuthorizationCredentials.

(** [hash_password]; [salt_bits] is the salt the library draws. *)
Definition hash_password (salt_bits : N) (password : string) : outcome string :=
  passlib.hash bcrypt_digest salt_bits password.

Definition verify_password (plain_password hashed_password : string) : outcome bool :=
  passlib.verify bcrypt_digest plain_password hashed_password.

(** [create_access_token(data)] when [datetime.utcnow()] reads [now]. The
    datetime [expire] is shown under [exp] as [jwt.encode] writes it: in whole
    seconds. *)
Definition create_access_token (data : gmap string value) (now : Z) : jwt.token :=
  let to_encode := data in
  let expire := now + timedelta_minutes ACCESS_TOKEN_EXPIRE_MINUTES in
  let to_encode := <["exp" := jwt.numeric_date expire]> to_encode in
  jwt.encode sign to_encode SECRET_KEY ALGORITHM.

(** [get_current_user(credentials)], the token being decoded at [now]. *)
Definition get_current_user (creds : HTTPAuthorizationCredentials) (now : Z)
  : M user_doc :=
  try_except
    (let token := credentials creds in
     do payload <- lift (jwt.decode sign int_of_str token SECRET_KEY [ALGORITHM] now);
     let user_id := dict_get payload "user_id" in
     match user_id with
     | VNone => raise (HTTPException 401 "Invalid authentication credentials")
     | _ =>
         do oid <- lift (bson.ObjectId_of user_id);
         do found <- find_one_user (fun u => N.eqb (user__id u) oid);
         match found with
         | None => raise (HTTPException 401 "User not found")
         | Some u => ret u
         end
     end)
    (fun e =>
       if is_ExpiredSignatureError e
       then raise (HTTPException 401 "Token has expired")
       else if is_InvalidTokenError e
       then raise (HTTPException 401 "Could not validate credentials")
       else raise e).

(** The [user] dictionary of a [Token] response. *)
Definition user_view (oid : bson.ObjectId) (email name : string) : gmap string value :=
  <["id" := VStr (bson.str oid)]>
    (<["email" := VStr email]> (<["name" := VStr name]> ∅)).

(** [register(user_data)]; [now] and [now'] are the two readings of the clock
    (the [created_at] field, then the token). *)
Definition register (user_data : UserRegister) (salt_bits : N) (now now' : Z)
  : M Token :=
  do existing_user <-
    find_one_user (fun u => String.eqb (user_email u) (register_email user_data));
  match existing_user with
  | Some _ => raise (HTTPException 400 "Email already registered")
  | None =>
      do hashed <- lift (hash_password salt_bits (register_password user_data));
      do inserted_id <-
        insert_one_user (register_email user_data) hashed (register_name user_data) now;
      let token :=
        create_access_token {[ "user_id" := VStr (bson.str inserted_id) ]} now' in
      ret {| access_token := token;
             token_type := "bearer";
             user := user_view inserted_id (register_email user_data)
                       (register_name user_data) |}
  end.


(** [login(credentials)]. *)
Definition login (creds : UserLogin) (now : Z) : M Token :=
  do found <- find_one_user (fun u => String.eqb (user_email u) (login_email creds));
  match found with
  | None => raise (HTTPException 401 "Incorrect email or password")
  | Some u =>
      do verified <- lift (verify_password (login_password creds) (user_password u));
      if negb verified
      then raise (HTTPException 401 "Incorrect email or password")
      else
        let token :=
          create_access_token {[ "user_id" := VStr (bson.str (user__id u)) ]} now in
        ret {| access_token := token;
               token_type := "bearer";
               user := user_view (user__id u) (user_email u) (user_name u) |}
  end.

(** [get_recipe(recipe_id)]: [except Exception] turns whatever the body raises
    into the same 404. *)
Definition get_recipe (rid : string) : M Recipe :=
  try_except
    (do oid <- lift (bson.ObjectId_of_str rid);
     do found <- find_one_recipe (fun r => N.eqb (recipe__id r) oid);
     match found with
     | None => raise (HTTPException 404 "Recipe not found")
     | Some recipe => ret (Recipe_of_doc recipe)
     end)
    (fun _ => raise (HTTPException 404 "Recipe not found")).

(** [create_recipe(recipe_data, current_user)]. *)
Definition create_recipe (recipe_data : RecipeCreate) (current_user : user_doc)
    (now : Z) : M Recipe :=
  let owner := bson.str (user__id current_user) in
  do inserted_id <-
    insert_one_recipe (fun oid =>
      {| recipe__id := oid;
         recipe_name := create_name recipe_data;
         recipe_category := create_category recipe_data;
         recipe_ingredients := create_ingredients recipe_data;
         recipe_steps := create_steps recipe_data;
         recipe_cooking_time := create_cooking_time recipe_data;
         recipe_difficulty := create_difficulty recipe_data;
         recipe_image := create_image recipe_data;
         recipe_created_by := Some owner;
         recipe_created_at := Some now |});
  ret {| id := Some (bson.str inserted_id);
         name := create_name recipe_data;
         category := create_category recipe_data;
         ingredients := create_ingredients recipe_data;
         steps := create_steps recipe_data;
         cooking_time := create_cooking_time recipe_data;
         difficulty := create_difficulty recipe_data;
         image := create_image recipe_data;
         created_by := Some owner;
         created_at := Some now |}.

(** The filter [{"user_id": str(current_user["_id"]), "recipe_id": rid}]. *)
Definition favorite_filter (current_user : user_doc) (rid : string)
  : favorite_doc -> bool :=
  fun f =>
    String.eqb (favorite_user_id f) (bson.str (user__id current_user))
    && String.eqb (favorite_recipe_id f) rid.

(** [add_favorite(favorite, current_user)]. *)
Definition add_favorite (favorite : FavoriteCreate) (current_user : user_doc)
    (now : Z) : M Message :=
  do existing <- find_one_favorite (favorite_filter current_user (recipe_id favorite));
  match existing with
  | Some _ => ret {| message := "Already in favorites" |}
  | None =>
      exec insert_one_favorite (bson.str (user__id current_user))
             (recipe_id favorite) now;
      ret {| message := "Added to favorites" |}
  end.


(** [remove_favorite(recipe_id, current_user)]. *)
Definition remove_favorite (rid : string) (current_user : user_doc) : M Message :=
  do deleted_count <- delete_one_favorite (favorite_filter current_user rid);
  if deleted_count =? 0
  then raise (HTTPException 404 "Favorite not found")
  else ret {| message := "Removed from favorites" |}.

(** [[ObjectId(fav["recipe_id"]) for fav in favorites]]. *)
Fixpoint recipe_ids_of (favs : list favorite_doc) : outcome (list bson.ObjectId) :=
  match favs with
  | [] => Returns []
  | f :: favs' =>
      outcome_bind (bson.ObjectId_of_str (favorite_recipe_id f)) (fun oid =>
      outcome_bind (recipe_ids_of favs') (fun oids => Returns (oid :: oids)))
  end.

(** [get_favorites(current_user)]; [to_list(1000)] keeps the first 1000
    documents of a cursor. *)
Definition get_favorites (current_user : user_doc) : M (list Recipe) :=
  fun s =>
    let favs :=
      firstn 1000
        (List.filter
           (fun f => String.eqb (favorite_user_id f) (bson.str (user__id current_user)))
           (favorites s)) in
    match recipe_ids_of favs with
    | Raises e => (Raises e, s)
    | Returns oids =>
        (Returns
           (List.map Recipe_of_doc
              (firstn 1000
                 (List.filter (fun r => existsb (N.eqb (recipe__id r)) oids)
                    (recipes s)))),
         s)
    end.

(** [Depends(get_current_user)], itself depending on [security]: FastAPI
    resolves the dependencies of a route before it calls the route's function,
    and answers with the exception of a dependency that raises. *)
Definition Depends_current_user {A} (req : request) (now : Z)
    (endpoint : user_doc -> M A) : M A :=
  do creds <- lift (security req);
  do current_user <- get_current_user creds now;
  endpoint current_user.

(** The four routes that declare [current_user: dict = Depends(get_current_user)];
    [now] is the instant of the token check, [now'] the route's own reading. *)
Definition post_recipes (req : request) (recipe_data : RecipeCreate) (now now' : Z)
  : M Recipe :=
  Depends_current_user req now (fun u => create_recipe recipe_data u now').

Definition get_favorites_route (req : request) (now : Z) : M (list Recipe) :=
  Depends_current_user req now get_favorites.

Definition post_favorites (req : request) (favorite : FavoriteCreate) (now now' : Z)
  : M Message :=
  Depends_current_user req now (fun u => add_favorite favorite u now').

Definition delete_favorites (req : request) (rid : string) (now : Z) : M Message :=
  Depends_current_user req now (remove_favorite rid).

(** *** The public recipe listing and the seeding at startup *)

(** The filter of a [find] whose query is either empty or
    [{"category": c}]. *)
Definition query_matches (query : gmap string string) (recipe : recipe_doc) : bool :=
  match query !! "category" with
  | Some c => String.eqb (recipe_category recipe) c
  | None => true
  end.

(** [db.recipes.find(query).to_list(1000)]. *)
Definition find_recipes (query : gmap string string) : M (list recipe_doc) :=
  fun s => (Returns (firstn 1000 (List.filter (query_matches query) (recipes s))), s).

(** [get_recipes(category)]: [if category:] holds for a string that is
    neither absent nor empty. *)
Definition get_recipes (category : option string) : M (list Recipe) :=
  let query : gmap string string :=
    match category with
    | Some c => if String.eqb c "" then ∅ else <["category" := c]> ∅
    | None => ∅
    end in
  do found <- find_recipes query;
  ret (List.map Recipe_of_doc found).

(** [db.recipes.count_documents({})]. *)
Definition count_documents_recipes : M nat :=
  fun s => (Returns (length (recipes s)), s).

(** [db.recipes.insert_many(docs)]: each document is stored, in order, under
    a new identifier. *)
Fixpoint insert_many_recipes (docs : list (bson.ObjectId -> recipe_doc)) : M unit :=
  match docs with
  | [] => ret tt
  | doc :: docs' => exec insert_one_recipe doc; insert_many_recipes docs'
  end.

(** The [recipe_images] dictionary of [startup_db]. *)
Definition recipe_images : list (string * string) :=
  [ ("veg_biryani", "https://images.unsplash.com/photo-1563379091339-03b21ab4a4f8?w=800&h=600&fit=crop");
    ("paneer", "https://images.unsplash.com/photo-1567188040759-fb8a883dc6d8?w=800&h=600&fit=crop");
    ("chicken", "https://images.unsplash.com/photo-1532550907401-a500c9a57435?w=800&h=600&fit=crop");
    ("butter_chicken", "https://images.unsplash.com/photo-1603894584373-5ac82b2ae398?w=800&h=600&fit=crop");
    ("chocolate_cake", "https://images.unsplash.com/photo-1578985545062-69928b1d9587?w=800&h=600&fit=crop");
    ("ice_cream", "https://images.unsplash.com/photo-1563805042-7684c019e1cb?w=800&h=600&fit=crop");
    ("fries", "https://images.unsplash.com/photo-1576107232684-1279f390859f?w=800&h=600&fit=crop");
    ("burger", "https://images.unsplash.com/photo-1568901346375-23c9450c58cd?w=800&h=600&fit=crop");
    ("dal", "https://images.unsplash.com/photo-1546833998-877b37c2e5c6?w=800&h=600&fit=crop");
    ("fish", "https://images.unsplash.com/photo-1519708227418-c8fd9a32b7a2?w=800&h=600&fit=crop");
    ("pizza", "https://images.unsplash.com/photo-1513104890138-7c749659a591?w=800&h=600&fit=crop");
    ("fruit_salad", "https://images.unsplash.com/photo-1564093497595-593b96d80180?w=800&h=600&fit=crop");
    ("paratha", "https://images.unsplash.com/photo-1601050690597-df0568f70950?w=800&h=600&fit=crop");
    ("wings", "https://images.unsplash.com/photo-1608039755401-742074f0548d?w=800&h=600&fit=crop");
    ("tiramisu", "https://images.unsplash.com/photo-1571877227200-a0d98ea607e9?w=800&h=600&fit=crop") ].

(** [recipe_images[key]], for the keys of the dictionary. *)
Definition recipe_image_of (key : string) : string :=
  match List.find (fun kv => String.eqb (fst kv) key) recipe_images with
  | Some kv => snd kv
  | None => EmptyString
  end.

(** One dictionary of [sample_recipes]: it has no [created_by] entry. *)
Definition sample_recipe (name category : string) (ingredients steps : list string)
    (cooking_time difficulty image_key : string) (created_at : Z)
  : bson.ObjectId -> recipe_doc :=
  fun oid =>
    {| recipe__id := oid;
       recipe_name := name;
       recipe_category := category;
       recipe_ingredients := ingredients;
       recipe_steps := steps;
       recipe_cooking_time := cooking_time;
       recipe_difficulty := difficulty;
       recipe_image := recipe_image_of image_key;
       recipe_created_by := None;
       recipe_created_at := Some created_at |}.

(** The [sample_recipes] list; [clock i] is the reading of
    [datetime.utcnow()] in its [i]-th dictionary. *)
Definition sample_recipes (clock : nat -> Z) : list (bson.ObjectId -> recipe_doc) :=
  [ sample_recipe "Vegetable Biryani" "veg"
      ["Basmati rice"; "Mixed vegetables"; "Onions"; "Tomatoes"; "Spices"; "Yogurt"]
      ["Wash and soak rice"; "Cook vegetables with spices"; "Layer rice and vegetables";
       "Cook on low heat"]
      "45 minutes" "medium" "veg_biryani" (clock 0%nat);
    sample_recipe "Paneer Tikka" "veg"
      ["Paneer cubes"; "Bell peppers"; "Onions"; "Yogurt"; "Tikka masala"; "Lemon juice"]
      ["Marinate paneer in yogurt and spices"; "Skewer with vegetables";
       "Grill until golden"; "Serve with chutney"]
      "30 minutes" "easy" "paneer" (clock 1%nat);
    sample_recipe "Grilled Chicken" "non-veg"
      ["Chicken breast"; "Olive oil"; "Garlic"; "Herbs"; "Lemon"; "Salt and pepper"]
      ["Marinate chicken with oil and herbs"; "Preheat grill";
       "Grill for 6-7 minutes each side"; "Rest before serving"]
      "25 minutes" "easy" "chicken" (clock 2%nat);
    sample_recipe "Butter Chicken" "non-veg"
      ["Chicken"; "Butter"; "Tomatoes"; "Cream"; "Spices"; "Kasuri methi"]
      ["Marinate and cook chicken"; "Prepare tomato gravy"; "Add cream and butter";
       "Simmer and serve"]
      "50 minutes" "medium" "butter_chicken" (clock 3%nat);
    sample_recipe "Chocolate Cake" "dessert"
      ["All-purpose flour"; "Cocoa powder"; "Sugar"; "Eggs"; "Butter"; "Milk"]
      ["Mix dry ingredients"; "Beat eggs and sugar"; "Combine all ingredients";
       "Bake at 180°C for 30 minutes"]
      "45 minutes" "medium" "chocolate_cake" (clock 4%nat);
    sample_recipe "Ice Cream Sundae" "dessert"
      ["Vanilla ice cream"; "Chocolate sauce"; "Whipped cream"; "Cherry"; "Nuts"]
      ["Scoop ice cream into bowl"; "Drizzle chocolate sauce"; "Add whipped cream";
       "Top with cherry and nuts"]
      "5 minutes" "easy" "ice_cream" (clock 5%nat);
    sample_recipe "French Fries" "fast-food"
      ["Potatoes"; "Oil"; "Salt"]
      ["Cut potatoes into strips"; "Soak in cold water"; "Deep fry until golden";
       "Season with salt"]
      "20 minutes" "easy" "fries" (clock 6%nat);
    sample_recipe "Veggie Burger" "fast-food"
      ["Burger bun"; "Veggie patty"; "Lettuce"; "Tomato"; "Onion"; "Cheese"; "Sauce"]
      ["Toast burger buns"; "Cook veggie patty"; "Assemble with vegetables";
       "Add sauce and serve"]
      "15 minutes" "easy" "burger" (clock 7%nat);
    sample_recipe "Dal Tadka" "veg"
      ["Yellow lentils"; "Onions"; "Tomatoes"; "Garlic"; "Cumin"; "Ghee"]
      ["Pressure cook lentils"; "Prepare tempering with spices"; "Add to cooked dal";
       "Simmer and serve"]
      "35 minutes" "easy" "dal" (clock 8%nat);
    sample_recipe "Fish Curry" "non-veg"
      ["Fish fillets"; "Coconut milk"; "Curry leaves"; "Tamarind"; "Spices"; "Onions"]
      ["Marinate fish"; "Prepare curry base"; "Add fish and simmer";
       "Garnish with curry leaves"]
      "40 minutes" "medium" "fish" (clock 9%nat);
    sample_recipe "Pizza Margherita" "fast-food"
      ["Pizza dough"; "Tomato sauce"; "Mozzarella cheese"; "Basil"; "Olive oil"]
      ["Roll out pizza dough"; "Spread tomato sauce"; "Add cheese and basil";
       "Bake at 220°C"]
      "25 minutes" "medium" "pizza" (clock 10%nat);
    sample_recipe "Fruit Salad" "dessert"
      ["Mixed fruits"; "Honey"; "Lemon juice"; "Mint leaves"]
      ["Chop all fruits"; "Mix in a bowl"; "Add honey and lemon"; "Garnish with mint"]
      "10 minutes" "easy" "fruit_salad" (clock 11%nat);
    sample_recipe "Aloo Paratha" "veg"
      ["Wheat flour"; "Potatoes"; "Spices"; "Butter"; "Coriander"]
      ["Make dough and potato filling"; "Stuff and roll parathas"; "Cook on griddle";
       "Serve with butter"]
      "30 minutes" "medium" "paratha" (clock 12%nat);
    sample_recipe "Chicken Wings" "fast-food"
      ["Chicken wings"; "Hot sauce"; "Butter"; "Garlic powder"; "Paprika"]
      ["Season wings"; "Bake until crispy"; "Toss in sauce"; "Serve hot"]
      "35 minutes" "easy" "wings" (clock 13%nat);
    sample_recipe "Tiramisu" "dessert"
      ["Ladyfinger biscuits"; "Mascarpone cheese"; "Coffee"; "Cocoa powder"; "Sugar";
       "Eggs"]
      ["Prepare coffee mixture"; "Layer soaked biscuits and cream";
       "Refrigerate overnight"; "Dust with cocoa"]
      "30 minutes + chilling" "hard" "tiramisu" (clock 14%nat) ].

(** [startup_db()]: the sample recipes are inserted when the collection is
    empty, and only then. *)
Definition startup_db (clock : nat -> Z) : M unit :=
  do count <- count_documents_recipes;
  if Nat.eqb count 0
  then insert_many_recipes (sample_recipes clock)
  else ret tt.

(** *** The notions the properties are stated with *)

(** Identity resolution for a request: the bearer scheme, then
    [get_current_user] on the credentials it extracts. *)
Definition resolve_identity (req : request) (now : Z) : M user_doc :=
  do creds <- lift (security req);
  get_current_user creds now.

Definition decoded (creds : HTTPAuthorizationCredentials) (now : Z)
  : outcome (gmap string value) :=
  jwt.decode sign int_of_str (credentials creds) SECRET_KEY [ALGORITHM] now.

(** The ways [get_current_user] can find no identity, each with the detail
    message the source gives it. [TokenInvalid] is the clause
    [except jwt.InvalidTokenError]. *)
Inductive resolution_failure (creds : HTTPAuthorizationCredentials) (now : Z) (s : db)
  : string -> Prop :=
  | TokenExpired :
      decoded creds now = Raises ExpiredSignatureError ->
      resolution_failure creds now s "Token has expired"
  | TokenInvalid (e : exn) :
      decoded creds now = Raises e ->
      is_InvalidTokenError e = true ->
      e <> ExpiredSignatureError ->
      resolution_failure creds now s "Could not validate credentials"
  | ClaimAbsent (payload : gmap string value) :
      decoded creds now = Returns payload ->
      dict_get payload "user_id" = VNone ->
      resolution_failure creds now s "Invalid authentication credentials"
  | UserNotFound (payload : gmap string value) (uid : string) (oid : bson.ObjectId) :
      decoded creds now = Returns payload ->
      dict_get payload "user_id" = VStr uid ->
      bson.ObjectId_of_str uid = Returns oid ->
      List.find (fun u => N.eqb (user__id u) oid) (users s) = None ->
      resolution_failure creds now s "User not found".

(** The identifier a token embeds, when it embeds one, is the text of an
    ObjectId of twelve bytes: 24 hexadecimal digits. *)
Definition identifier_well_formed (creds : HTTPAuthorizationCredentials) (now : Z)
  : Prop :=
  forall payload, decoded creds now = Returns payload ->
    dict_get payload "user_id" = VNone
    \/ exists uid oid, dict_get payload "user_id" = VStr uid
                     /\ bson.ObjectId_of_str uid = Returns oid
                     /\ (oid < 2 ^ 96)%N.

(** The dates a token embeds under [iat], [nbf] and [exp], when it embeds
    them, are numbers or texts, none is null. *)
Definition dates_not_null (creds : HTTPAuthorizationCredentials) : Prop :=
  match credentials creds with
  | jwt.Garbage _ => True
  | jwt.Compact _ claims _ =>
      Forall (fun k => claims !! k <> Some VNone) ["iat"; "nbf"; "exp"]
  end.

(** A claims set that names none of the registered claims, those PyJWT
    itself reads when it encodes or decodes a token. *)
Definition no_registered_claim (C : gmap string value) : Prop :=
  Forall (fun k => C !! k = None) ["exp"; "iat"; "nbf"; "iss"; "aud"; "sub"; "jti"].

(** The expiry a token issued at [T] embeds, in seconds: [T] cut to the whole
    second, plus 7 days. *)
Definition expiry (T : Z) : Z := T / 1000000 + 7 * 86400.

(** A login that must be refused: no user has the email, or the password does
    not verify against the stored hash. *)
Inductive login_rejected (s : db) (creds : UserLogin) : Prop :=
  | NoSuchEmail :
      List.find (fun u => String.eqb (user_email u) (login_email creds)) (users s) = None ->
      login_rejected s creds
  | WrongPassword (u : user_doc) :
      List.find (fun u => String.eqb (user_email u) (login_email creds)) (users s) = Some u ->
      verify_password (login_password creds) (user_password u) = Returns false ->
      login_rejected s creds.

(** The checksum [pwd_context.hash] stores for a password under a salt. *)
Definition checksum_of (salt_bits : N) (password : string) : string :=
  passlib.checksum_str
    (bcrypt_digest passlib.default_ident passlib.default_rounds
       (passlib.salt_str salt_bits) (take_bytes passlib.truncate_size password)).

(** The passwords the hasher takes: within the size limit, counted on the
    bytes (so on the characters too), and without NUL. *)
Definition accepted (password : string) : Prop :=
  (String.length password <= passlib.MAX_PASSWORD_SIZE)%nat
  /\ contains_byte Ascii.zero password = false.

(** A password matches a parsed hash when its checksum under the hash's
    variant, cost and salt is the stored one. *)
Definition matches (password : string) (h : passlib.bcrypt_hash) : Prop :=
  Some (passlib.checksum_str
          (bcrypt_digest (passlib.ident h) (passlib.rounds h) (passlib.salt h)
             (take_bytes passlib.truncate_size password)))
  = passlib.checksum h.

(** How many users have an email, and how many favorites a pair has. *)
Definition count_email (email : string) (s : db) : nat :=
  length (List.filter (fun u => String.eqb (user_email u) email) (users s)).

Definition count_favorite (uid rid : string) (s : db) : nat :=
  length
    (List.filter
       (fun f => String.eqb (favorite_user_id f) uid && String.eqb (favorite_recipe_id f) rid)
       (favorites s)).

Definition at_most_one_favorite (s : db) : Prop :=
  forall uid rid, (count_favorite uid rid s <= 1)%nat.

(** A [Token] response and the user it was issued for: by [register] for the
    user it created, by [login] for the user it found. *)
Inductive issued_for (s : db) : Token -> bson.ObjectId -> string -> string -> Prop :=
  | IssuedByRegister (d : UserRegister) (salt_bits : N) (t t' : Z) (s' : db) (r : Token) :
      register d salt_bits t t' s = (Returns r, s') ->
      issued_for s r (next_id s) (register_email d) (register_name d)
  | IssuedByLogin (c : UserLogin) (t : Z) (s' : db) (r : Token) (u : user_doc) :
      login c t s = (Returns r, s') ->
      List.find (fun u => String.eqb (user_email u) (login_email c)) (users s) = Some u ->
      issued_for s r (user__id u) (user_email u) (user_name u).

(** *** Requests served one after another *)

(** Every stored identifier was given out before [next_id]. *)
Definition ids_fresh (s : db) : Prop :=
  Forall (fun u => (user__id u < next_id s)%N) (users s)
  /\ Forall (fun r => (recipe__id r < next_id s)%N) (recipes s)
  /\ Forall (fun f => (favorite__id f < next_id s)%N) (favorites s).

(** No two documents of a collection share an identifier. *)
Definition ids_distinct (s : db) : Prop :=
  List.NoDup (List.map user__id (users s))
  /\ List.NoDup (List.map recipe__id (recipes s))
  /\ List.NoDup (List.map favorite__id (favorites s)).

(** No two users share an email. *)
Definition emails_unique (s : db) : Prop :=
  List.NoDup (List.map user_email (users s)).

Definition store_ok (s : db) : Prop :=
  ids_fresh s /\ ids_distinct s /\ emails_unique s.

(** A database with no document in it. *)
Definition empty_db (first_id : bson.ObjectId) : db :=
  {| users := []; recipes := []; favorites := []; next_id := first_id |}.

(** One request served from its start to its answer with no other request
    in between, or the startup hook run: the store before and the store
    after. ([search_recipes], which only reads, is not among them.) The
    service itself can serve a request between two [await]s of another; such
    runs are not runs of [step], and [register_after_find_one] and
    [add_favorite_after_find_one] are there to state what they do. *)
Inductive step (s : db) : db -> Prop :=
  | step_startup_db (clock : nat -> Z) :
      step s (snd (startup_db clock s))
  | step_register (d : UserRegister) (salt_bits : N) (t t' : Z) :
      step s (snd (register d salt_bits t t' s))
  | step_login (c : UserLogin) (t : Z) :
      step s (snd (login c t s))
  | step_get_recipes (category : option string) :
      step s (snd (get_recipes category s))
  | step_get_recipe (rid : string) :
      step s (snd (get_recipe rid s))
  | step_post_recipes (req : request) (recipe_data : RecipeCreate) (t t' : Z) :
      step s (snd (post_recipes req recipe_data t t' s))
  | step_get_favorites (req : request) (t : Z) :
      step s (snd (get_favorites_route req t s))
  | step_post_favorites (req : request) (favorite : FavoriteCreate) (t t' : Z) :
      step s (snd (post_favorites req favorite t t' s))
  | step_delete_favorites (req : request) (rid : string) (t : Z) :
      step s (snd (delete_favorites req rid t s)).

(** The stores reached from an empty database when the requests are served
    one after another. *)
Inductive reachable : db -> Prop :=
  | reachable_empty (first_id : bson.ObjectId) : reachable (empty_db first_id)
  | reachable_step (s s' : db) : reachable s -> step s s' -> reachable s'.

(** The favorites of a user, as [get_favorites] reads them. *)
Definition favorites_of (current_user : user_doc) (s : db) : list favorite_doc :=
  List.filter
    (fun f => String.eqb (favorite_user_id f) (bson.str (user__id current_user)))
    (favorites s).

(** *** Auxiliary facts *)

Lemma Returns_inj {A} (a b : A) : Returns a = Returns b -> a = b.
Proof. intros H. injection H as H. exact H. Qed.

Lemma strip_prefix_app (p t : string) : strip_prefix p (p ++ t) = Some t.
Proof.
  induction p as [|a p IH]; simpl; [reflexivity|].
  rewrite Ascii.eqb_refl. exact IH.
Qed.

Lemma split_at_app (n : nat) (a b : string) :
  String.length a = n -> split_at n (a ++ b) = Some (a, b).
Proof.
  intros <-. induction a as [|c a IH]; simpl; [reflexivity|].
  rewrite IH. reflexivity.
Qed.

Lemma take_bytes_app (a b c : string) :
  take_bytes (String.length a) (a ++ b) = take_bytes (String.length a) (a ++ c).
Proof.
  induction a as [|x a IH]; simpl; [reflexivity|].
  rewrite IH. reflexivity.
Qed.

Lemma b64_digits_length (k : nat) (n : N) (acc : string) :
  String.length (passlib.b64_digits k n acc) = (k + String.length acc)%nat.
Proof.
  revert n acc. induction k as [|k IH]; intros n acc; simpl; [reflexivity|].
  rewrite IH. simpl. lia.
Qed.

Lemma b64_length (k : nat) (n : N) : String.length (passlib.b64 k n) = k.
Proof. unfold passlib.b64. rewrite b64_digits_length. simpl. lia. Qed.

Lemma ObjectId_of_str_raises (t : string) (e : exn) :
  bson.ObjectId_of_str t = Raises e -> e = InvalidId.
Proof.
  unfold bson.ObjectId_of_str.
  destruct (Nat.eqb _ _); [destruct (bson.fromhex _ _ _ _) as [[k n]|]; [discriminate|]|];
    intros [= <-]; reflexivity.
Qed.

Lemma find_none_all {A} (p : A -> bool) (l : list A) (x : A) :
  List.find p l = None -> In x l -> p x = false.
Proof.
  intros Hfind Hin. destruct (p x) eqn:Hp; [|reflexivity].
  pose proof (List.find_none p l Hfind x Hin) as H. congruence.
Qed.

Lemma find_app_none {A} (p : A -> bool) (l : list A) (x : A) :
  List.find p l = None -> p x = true -> List.find p (l ++ [x])%list = Some x.
Proof.
  intros Hnone Hx. induction l as [|z l IH]; simpl in *.
  - rewrite Hx. reflexivity.
  - destruct (p z); [discriminate | auto].
Qed.

Lemma find_app_some {A} (p : A -> bool) (l l' : list A) (x : A) :
  List.find p l = Some x -> List.find p (l ++ l')%list = Some x.
Proof.
  induction l as [|z l IH]; simpl; [discriminate|].
  destruct (p z); auto.
Qed.

(** In a list without two elements of the same key, looking a key up finds
    the element that has it. *)
Lemma find_unique {A} (key : A -> N) (l : list A) (x : A) :
  List.NoDup (List.map key l) -> In x l ->
  List.find (fun y => N.eqb (key y) (key x)) l = Some x.
Proof.
  induction l as [|z l IH]; simpl; [contradiction|].
  intros Hnd Hin. inversion Hnd as [|? ? Hnotin Hnd']; subst.
  destruct Hin as [-> | Hin].
  - rewrite N.eqb_refl. reflexivity.
  - destruct (N.eqb_spec (key z) (key x)) as [Heq|Hne]; [|auto].
    exfalso. apply Hnotin. rewrite Heq. apply List.in_map. exact Hin.
Qed.

(** *** ObjectId and its text *)

Lemma hex_value_hex_digit (d : N) :
  (d < 16)%N -> bson.hex_value (bson.hex_digit d) = Some d.
Proof.
  intros H. rewrite <- (N2Nat.id d).
  assert (Hn : (N.to_nat d < 16)%nat) by lia.
  generalize dependent (N.to_nat d). clear. intros n Hn.
  do 16 (destruct n as [|n]; [vm_compute; reflexivity|]).
  lia.
Qed.

Lemma is_space_hex_digit (d : N) :
  (d < 16)%N -> bson.is_space (bson.hex_digit d) = false.
Proof.
  intros H. rewrite <- (N2Nat.id d).
  assert (Hn : (N.to_nat d < 16)%nat) by lia.
  generalize dependent (N.to_nat d). clear. intros n Hn.
  do 16 (destruct n as [|n]; [vm_compute; reflexivity|]).
  lia.
Qed.

Lemma hex_digits_length (k : nat) (n : N) (acc : string) :
  String.length (bson.hex_digits k n acc) = (k + String.length acc)%nat.
Proof.
  revert n acc. induction k as [|k IH]; intros n acc; cbn [bson.hex_digits];
    [reflexivity|].
  rewrite IH. cbn [String.length]. lia.
Qed.

(** Reading back [2 * k] digits: [k] bytes. *)
Lemma fromhex_hex_digits (k : nat) (n : N) (acc : string) (j : nat) (a : N) :
  bson.fromhex (bson.hex_digits (k + k) n acc) None j a
  = bson.fromhex acc None (k + j)
      (a * 256 ^ N.of_nat k + n mod 256 ^ N.of_nat k)%N.
Proof.
  revert n acc j a. induction k as [|k IH]; intros n acc j a.
  - cbn [bson.hex_digits Nat.add]. f_equal. change (256 ^ N.of_nat 0)%N with 1%N.
    rewrite N.mod_1_r. lia.
  - replace (S k + S k)%nat with (S (S (k + k))) by lia.
    cbn [bson.hex_digits]. rewrite IH. cbn [bson.fromhex].
    rewrite is_space_hex_digit by (apply N.mod_lt; lia).
    rewrite !hex_value_hex_digit by (apply N.mod_lt; lia).
    replace (k + S j)%nat with (S k + j)%nat by lia.
    f_equal. rewrite Nat2N.inj_succ, N.pow_succ_r'.
    assert (H1 : (n mod (256 * 256 ^ N.of_nat k)
                  = n mod 256 + 256 * ((n / 256) mod 256 ^ N.of_nat k))%N)
      by apply N.Div0.mod_mul_r.
    assert (H2 : (n mod 256 = n mod 16 + 16 * ((n / 16) mod 16))%N)
      by (change 256%N with (16 * 16)%N; apply N.Div0.mod_mul_r).
    assert (H3 : (n / 16 / 16 = n / 256)%N)
      by (rewrite N.Div0.div_div; reflexivity).
    rewrite H1, H2, H3. lia.
Qed.

(** The text of an ObjectId of twelve bytes reads back as the ObjectId. *)
Lemma ObjectId_of_str_str (oid : bson.ObjectId) :
  (oid < 2 ^ 96)%N -> bson.ObjectId_of_str (bson.str oid) = Returns oid.
Proof.
  intros H. unfold bson.ObjectId_of_str, bson.str.
  rewrite hex_digits_length. cbn [String.length Nat.add Nat.eqb].
  change 24%nat with (12 + 12)%nat.
  rewrite fromhex_hex_digits. cbn [bson.fromhex Nat.add Nat.eqb].
  change (256 ^ N.of_nat 12)%N with (2 ^ 96)%N.
  rewrite N.mod_small by exact H. f_equal.
Qed.

(** [get_current_user] only reads the store. *)
Lemma get_current_user_reads (creds : HTTPAuthorizationCredentials) (now : Z) (s : db) :
  snd (get_current_user creds now s) = s.
Proof.
  unfold get_current_user, try_except, bind, lift, find_one_user, raise, ret.
  destruct (jwt.decode _ _ _ _ _ _) as [payload|e]; simpl.
  - destruct (dict_get payload "user_id") as [uid|n|]; simpl.
    + destruct (bson.ObjectId_of_str uid) as [oid|e]; simpl.
      * destruct (List.find _ (users s)); reflexivity.
      * destruct e; reflexivity.
    + reflexivity.
    + reflexivity.
  - destruct e; reflexivity.
Qed.

(** *** Identity resolution *)

(** Each way of finding no identity is raised as a 401 carrying the detail of
    that way, and the store is left as it was. *)
Lemma resolution_failure_raises (creds : HTTPAuthorizationCredentials) (now : Z)
    (s : db) (detail : string) :
  resolution_failure creds now s detail ->
  get_current_user creds now s = (Raises (HTTPException 401 detail), s).
Proof.
  intros [Hd | e Hd Herr Hne | payload Hd Hget | payload uid oid Hd Hget Hoid Hfind];
    unfold decoded in Hd;
    unfold get_current_user, try_except, bind, lift, find_one_user, raise, ret;
    rewrite Hd; simpl.
  - reflexivity.
  - destruct e; try discriminate Herr; try congruence; reflexivity.
  - rewrite Hget. reflexivity.
  - rewrite Hget. simpl. rewrite Hoid. simpl. rewrite Hfind. reflexivity.
Qed.

(** The exceptions of [int] on a date that is not null. *)
Lemma int_of_raises (v : value) (error e : exn) :
  v <> VNone -> jwt.int_of int_of_str v error = Raises e -> e = error.
Proof.
  intros Hv. destruct v as [t|n|]; cbn [jwt.int_of]; [|discriminate|congruence].
  destruct (int_of_str t); [discriminate|]. intros [= <-]. reflexivity.
Qed.

(** On a token whose dates are not null, [jwt.decode] raises nothing but an
    [InvalidTokenError]. *)
Lemma decode_raises_token_error (creds : HTTPAuthorizationCredentials) (now : Z)
    (e : exn) :
  dates_not_null creds ->
  decoded creds now = Raises e ->
  is_InvalidTokenError e = true.
Proof.
  unfold dates_not_null, decoded, jwt.decode.
  destruct (credentials creds) as [raw|alg claims sg]; [intros _ [= <-]; reflexivity|].
  intros Hdates.
  apply List.Forall_cons_iff in Hdates as [Hiat Hdates].
  apply List.Forall_cons_iff in Hdates as [Hnbf Hdates].
  apply List.Forall_cons_iff in Hdates as [Hexp _].
  destruct (negb _); [intros [= <-]; reflexivity|].
  destruct (negb _); [intros [= <-]; reflexivity|].
  unfold jwt.validate_claims.
  destruct (jwt.validate_iat int_of_str claims now) as [[]|e1] eqn:H1; cbn [outcome_bind].
  2:{ intros [= <-]. revert H1. unfold jwt.validate_iat.
      destruct (claims !! "iat") as [v|]; [|discriminate].
      destruct (jwt.int_of int_of_str v InvalidIssuedAtError) as [x|e2] eqn:Hint;
        cbn [outcome_bind].
      - destruct (now <? x * 1000000); [intros [= <-]; reflexivity | discriminate].
      - intros [= <-]. apply int_of_raises in Hint; [subst e2; reflexivity | congruence]. }
  destruct (jwt.validate_nbf int_of_str claims now) as [[]|e1] eqn:H2; cbn [outcome_bind].
  2:{ intros [= <-]. revert H2. unfold jwt.validate_nbf.
      destruct (claims !! "nbf") as [v|]; [|discriminate].
      destruct (jwt.int_of int_of_str v DecodeError) as [x|e2] eqn:Hint;
        cbn [outcome_bind].
      - destruct (now <? x * 1000000); [intros [= <-]; reflexivity | discriminate].
      - intros [= <-]. apply int_of_raises in Hint; [subst e2; reflexivity | congruence]. }
  destruct (jwt.validate_exp int_of_str claims now) as [[]|e1] eqn:H3; cbn [outcome_bind].
  2:{ intros [= <-]. revert H3. unfold jwt.validate_exp.
      destruct (claims !! "exp") as [v|]; [|discriminate].
      destruct (jwt.int_of int_of_str v DecodeError) as [x|e2] eqn:Hint;
        cbn [outcome_bind].
      - destruct (x * 1000000 <=? now); [intros [= <-]; reflexivity | discriminate].
      - intros [= <-]. apply int_of_raises in Hint; [subst e2; reflexivity | congruence]. }
  unfold jwt.validate_aud, jwt.validate_sub, jwt.validate_jti.
  destruct (claims !! "aud") as [v|]; cbn [outcome_bind].
  1: destruct (jwt.falsy v); cbn [outcome_bind]; [|intros [= <-]; reflexivity].
  all: destruct (claims !! "sub") as [v1|]; cbn [outcome_bind].
  all: try (destruct (jwt.is_str v1); cbn [outcome_bind]; [|intros [= <-]; reflexivity]).
  all: destruct (claims !! "jti") as [v2|]; cbn [outcome_bind]; try discriminate.
  all: destruct (jwt.is_str v2); cbn [outcome_bind]; [discriminate|intros [= <-]; reflexivity].
Qed.

(** When the identifier a token embeds is not the text of an ObjectId, the
    exception of [ObjectId(user_id)] is none that [get_current_user] catches:
    it reaches the caller as it is. *)
Lemma malformed_identifier_raises (creds : HTTPAuthorizationCredentials) (now : Z)
    (s : db) (payload : gmap string value) (e : exn) :
  decoded creds now = Returns payload ->
  dict_get payload "user_id" <> VNone ->
  bson.ObjectId_of (dict_get payload "user_id") = Raises e ->
  get_current_user creds now s = (Raises e, s)
  /\ respond (A:=user_doc) (Raises e)
     = {| status := 500; error_detail := Some "Internal Server Error" |}.
Proof.
  intros Hd Hsome Hoid. unfold decoded in Hd.
  unfold get_current_user, try_except, bind, lift, find_one_user, raise, ret.
  rewrite Hd. cbn [fst].
  destruct (dict_get payload "user_id") as [uid|n|]; [| |congruence].
  - rewrite Hoid. cbn [bson.ObjectId_of] in Hoid.
    apply ObjectId_of_str_raises in Hoid. subst e. split; reflexivity.
  - rewrite Hoid. cbn in Hoid. injection Hoid as <-. split; reflexivity.
Qed.


(** C1 (as amended). When the dates a token embeds are not null and the
    identifier it embeds is absent or is the text of an ObjectId,
    [get_current_user] raises exactly in the four identity-resolution
    failures, and then raises an HTTPException with status 401 whose detail
    is the message of the failure ("Token has expired", "Could not validate
    credentials", "Invalid authentication credentials", "User not found");
    the store is unchanged. The messages differ from one failure to
    another. *)
Theorem identity_failures_are_401 (creds : HTTPAuthorizationCredentials) (now : Z)
    (s s' : db) (e : exn) :
  identifier_well_formed creds now ->
  dates_not_null creds ->
  get_current_user creds now s = (Raises e, s')
  <-> exists detail, resolution_failure creds now s detail
                     /\ e = HTTPException 401 detail /\ s' = s
                     /\ respond (A:=user_doc) (Raises e)
                        = {| status := 401; error_detail := Some detail |}.
Proof.
  intros Hwf Hdates. split.
  - intros Hrun.
    assert (Hs : s' = s).
    { pose proof (get_current_user_reads creds now s) as H. rewrite Hrun in H. exact H. }
    subst s'.
    destruct (decoded creds now) as [payload|d] eqn:Hd.
    + destruct (Hwf payload Hd) as [Hnone | (uid & oid & Hget & Hoid & _)].
      * pose proof (resolution_failure_raises _ _ s _ (ClaimAbsent creds now s payload Hd Hnone)) as H.
        rewrite Hrun in H. injection H as ->.
        eexists; repeat split; eauto using ClaimAbsent.
      * destruct (List.find (fun u => N.eqb (user__id u) oid) (users s)) as [u|] eqn:Hfind.
        -- exfalso. revert Hrun. unfold decoded in Hd.
           unfold get_current_user, try_except, bind, lift, find_one_user, raise, ret.
           rewrite Hd. simpl. rewrite Hget. simpl. rewrite Hoid. simpl.
           rewrite Hfind. discriminate.
        -- pose proof (resolution_failure_raises _ _ s _
                         (UserNotFound creds now s payload uid oid Hd Hget Hoid Hfind)) as H.
           rewrite Hrun in H. injection H as ->.
           eexists; repeat split; eauto using UserNotFound.
    + pose proof (decode_raises_token_error creds now d Hdates Hd) as Herr.
      destruct (is_ExpiredSignatureError d) eqn:Hexp.
      * destruct d; try discriminate.
        pose proof (resolution_failure_raises _ _ s _ (TokenExpired creds now s Hd)) as H.
        rewrite Hrun in H. injection H as ->.
        eexists; repeat split; eauto using TokenExpired.
      * assert (Hne : d <> ExpiredSignatureError) by (intros ->; discriminate).
        pose proof (resolution_failure_raises _ _ s _
                      (TokenInvalid creds now s d Hd Herr Hne)) as H.
        rewrite Hrun in H. injection H as ->.
        eexists; repeat split; eauto using TokenInvalid.
  - intros (detail & Hfail & -> & -> & _).
    apply resolution_failure_raises. exact Hfail.
Qed.

(** *** Password hashing *)

Lemma py_len_le_length (s : string) : (py_len s <= String.length s)%nat.
Proof.
  induction s as [|a s IH]; [reflexivity|].
  cbn [py_len String.length].
  destruct (Nat.leb 128 (nat_of_ascii a) && Nat.ltb (nat_of_ascii a) 192)%bool; lia.
Qed.

Lemma validate_secret_returns (secret : string) :
  (String.length secret <= passlib.MAX_PASSWORD_SIZE)%nat ->
  passlib.validate_secret secret = Returns tt.
Proof.
  intros H. unfold passlib.validate_secret.
  pose proof (py_len_le_length secret) as Hlen.
  destruct (Nat.ltb_spec passlib.MAX_PASSWORD_SIZE (py_len secret)); [lia | reflexivity].
Qed.

Lemma string_app_assoc (a b c : string) : (a ++ b) ++ c = a ++ b ++ c.
Proof.
  induction a as [|x a IH]; [reflexivity|]. exact (f_equal (String x) IH).
Qed.

Lemma string_length_app (a b : string) :
  String.length (a ++ b) = (String.length a + String.length b)%nat.
Proof. induction a as [|c a IH]; simpl; [reflexivity | f_equal; exact IH]. Qed.

(** The digits [b64] writes are of the alphabet, each at its own place. *)
Lemma b64_index_digit (d : N) :
  (d < 64)%N -> passlib.b64_index (passlib.b64_digit d) = Some d.
Proof.
  intros H. rewrite <- (N2Nat.id d).
  assert (Hn : (N.to_nat d < 64)%nat) by lia.
  generalize dependent (N.to_nat d). clear. intros n Hn.
  do 64 (destruct n as [|n]; [vm_compute; reflexivity|]).
  lia.
Qed.

Lemma b64_digits_alphabet (k : nat) (n : N) (acc : string) :
  passlib.all_bcrypt64 acc = true ->
  passlib.all_bcrypt64 (passlib.b64_digits k n acc) = true.
Proof.
  revert n acc. induction k as [|k IH]; intros n acc Hacc; cbn [passlib.b64_digits];
    [exact Hacc|].
  apply IH. cbn [passlib.all_bcrypt64].
  rewrite b64_index_digit by (apply N.mod_lt; lia). exact Hacc.
Qed.

Lemma b64_alphabet (k : nat) (n : N) : passlib.all_bcrypt64 (passlib.b64 k n) = true.
Proof. apply b64_digits_alphabet. reflexivity. Qed.

Lemma b64_digits_app (k : nat) (n : N) (acc : string) :
  passlib.b64_digits k n acc = passlib.b64_digits k n EmptyString ++ acc.
Proof.
  revert n acc. induction k as [|k IH]; intros n acc; cbn [passlib.b64_digits];
    [reflexivity|].
  rewrite IH. rewrite (IH _ (String _ EmptyString)).
  rewrite string_app_assoc. reflexivity.
Qed.

Lemma repair_unused_last (mask : N) (a : string) (c : ascii) :
  passlib.repair_unused mask (a ++ String c EmptyString)
  = a ++ passlib.repair_unused mask (String c EmptyString).
Proof.
  induction a as [|x a IH]; [reflexivity|].
  change (String x a ++ String c EmptyString) with (String x (a ++ String c EmptyString)).
  destruct a as [|y a].
  - reflexivity.
  - change (String x (String y a) ++ passlib.repair_unused mask (String c EmptyString))
      with (String x (String y a ++ passlib.repair_unused mask (String c EmptyString))).
    rewrite <- IH. reflexivity.
Qed.

(** A string of [S k] digits whose last digit has its padding bits clear is
    left as it is. *)
Lemma repair_unused_b64 (mask : N) (k : nat) (n : N) :
  N.ldiff (n mod 64) mask = (n mod 64)%N ->
  passlib.repair_unused mask (passlib.b64 (S k) n) = passlib.b64 (S k) n.
Proof.
  intros Hclear. unfold passlib.b64. cbn [passlib.b64_digits].
  rewrite b64_digits_app, repair_unused_last. f_equal.
  cbn [passlib.repair_unused].
  rewrite b64_index_digit by (apply N.mod_lt; lia).
  rewrite Hclear. reflexivity.
Qed.

Lemma salt_padding_clear (x : N) :
  N.ldiff ((16 * x) mod 64) 15 = ((16 * x) mod 64)%N.
Proof.
  change 64%N with (16 * 4)%N. rewrite N.Div0.mul_mod_distr_l.
  assert (H : (x mod 4 < 4)%N) by (apply N.mod_lt; lia).
  rewrite <- (N2Nat.id (x mod 4)).
  assert (Hn : (N.to_nat (x mod 4) < 4)%nat) by lia.
  generalize dependent (N.to_nat (x mod 4)). clear. intros n Hn.
  do 4 (destruct n as [|n]; [vm_compute; reflexivity|]).
  lia.
Qed.

Lemma checksum_padding_clear (x : N) :
  N.ldiff ((4 * x) mod 64) 3 = ((4 * x) mod 64)%N.
Proof.
  change 64%N with (4 * 16)%N. rewrite N.Div0.mul_mod_distr_l.
  assert (H : (x mod 16 < 16)%N) by (apply N.mod_lt; lia).
  rewrite <- (N2Nat.id (x mod 16)).
  assert (Hn : (N.to_nat (x mod 16) < 16)%nat) by lia.
  generalize dependent (N.to_nat (x mod 16)). clear. intros n Hn.
  do 16 (destruct n as [|n]; [vm_compute; reflexivity|]).
  lia.
Qed.

Lemma repair_salt_str (x : N) :
  passlib.repair_unused 15 (passlib.salt_str x) = passlib.salt_str x.
Proof. apply repair_unused_b64, salt_padding_clear. Qed.

Lemma repair_checksum_str (x : N) :
  passlib.repair_unused 3 (passlib.checksum_str x) = passlib.checksum_str x.
Proof. apply repair_unused_b64, checksum_padding_clear. Qed.

(** A string [from_string] parses is one the handler identifies. *)
Lemma from_string_identify (hashed : string) (h : passlib.bcrypt_hash) :
  passlib.from_string hashed = Returns h -> passlib.identify hashed = true.
Proof.
  unfold passlib.from_string, passlib.identify.
  destruct (passlib.parse_ident _ _); [reflexivity | discriminate].
Qed.

(** A string laid out as [hash] lays it out, with salt and checksum written
    in the alphabet, parses to them, their padding bits cleared. *)
Lemma from_string_layout (sl chk : string) :
  String.length sl = 22%nat ->
  String.length chk = 31%nat ->
  passlib.all_bcrypt64 sl = true ->
  passlib.all_bcrypt64 chk = true ->
  passlib.from_string
    (passlib.default_ident ++ passlib.rounds_str passlib.default_rounds ++ "$"
       ++ sl ++ chk)
  = Returns {| passlib.ident := passlib.default_ident;
               passlib.rounds := passlib.default_rounds;
               passlib.salt := passlib.repair_unused 15 sl;
               passlib.checksum := Some (passlib.repair_unused 3 chk) |}.
Proof.
  intros Hsl Hlen Hsalt Hchk.
  change (passlib.default_ident ++ passlib.rounds_str passlib.default_rounds ++ "$"
            ++ sl ++ chk)
    with (String "$" (String "2" (String "b" (String "$"
            (String "1" (String "2" (String "$" (sl ++ chk)))))))).
  assert (Hne : String.eqb chk EmptyString = false)
    by (destruct chk; [discriminate Hlen | reflexivity]).
  unfold passlib.from_string, passlib.ident_values.
  set (salt_and_checksum := split_at 22).
  set (repair := passlib.repair_unused).
  simpl. subst salt_and_checksum.
  rewrite (split_at_app 22 sl chk Hsl).
  rewrite Hlen, Hsalt, Hchk, Hne. reflexivity.
Qed.

Lemma from_string_hash (salt_bits digest : N) :
  passlib.from_string
    (passlib.default_ident ++ passlib.rounds_str passlib.default_rounds ++ "$"
       ++ passlib.salt_str salt_bits ++ passlib.checksum_str digest)
  = Returns {| passlib.ident := passlib.default_ident;
               passlib.rounds := passlib.default_rounds;
               passlib.salt := passlib.salt_str salt_bits;
               passlib.checksum := Some (passlib.checksum_str digest) |}.
Proof.
  rewrite from_string_layout by (apply b64_length || apply b64_alphabet).
  rewrite repair_salt_str, repair_checksum_str. reflexivity.
Qed.

(** What [hash_password] returns, and when. *)
Lemma hash_password_returns (salt_bits : N) (password h : string) :
  hash_password salt_bits password = Returns h
  <-> accepted password
      /\ h = passlib.default_ident ++ passlib.rounds_str passlib.default_rounds ++ "$"
               ++ passlib.salt_str salt_bits ++ checksum_of salt_bits password.
Proof.
  unfold hash_password, passlib.hash, passlib.calc_checksum, accepted, checksum_of.
  split.
  - destruct (passlib.validate_secret password) as [[]|e] eqn:Hv; cbn [outcome_bind];
      [|discriminate].
    destruct (Nat.ltb_spec passlib.MAX_PASSWORD_SIZE (String.length password));
      cbn [outcome_bind]; [discriminate|].
    destruct (contains_byte Ascii.zero password); cbn [outcome_bind]; [discriminate|].
    intros Hh. apply Returns_inj in Hh. subst h. auto.
  - intros [[Hsize Hnul] ->].
    rewrite (validate_secret_returns _ Hsize). cbn [outcome_bind].
    destruct (Nat.ltb_spec passlib.MAX_PASSWORD_SIZE (String.length password)); [lia|].
    rewrite Hnul. reflexivity.
Qed.

(** [verify_password] returns exactly on a string that parses as a bcrypt
    hash with a checksum and a password the hasher takes, and then tells
    whether the checksums agree. *)
Lemma verify_password_returns (plain hashed : string) (b : bool) :
  verify_password plain hashed = Returns b
  <-> exists h stored,
        passlib.from_string hashed = Returns h
        /\ passlib.checksum h = Some stored
        /\ accepted plain
        /\ b = String.eqb
                 (passlib.checksum_str
                    (bcrypt_digest (passlib.ident h) (passlib.rounds h)
                       (passlib.salt h)
                       (take_bytes passlib.truncate_size plain)))
                 stored.
Proof.
  unfold verify_password, passlib.verify, passlib.calc_checksum, accepted.
  split.
  - destruct (passlib.identify hashed); cbn [outcome_bind negb]; [|discriminate].
    destruct (passlib.validate_secret plain) as [[]|e] eqn:Hv; cbn [outcome_bind negb];
      [|discriminate].
    destruct (passlib.from_string hashed) as [h|e]; cbn [outcome_bind negb]; [|discriminate].
    destruct (passlib.checksum h) as [stored|] eqn:Hstored; [|discriminate].
    destruct (Nat.ltb_spec passlib.MAX_PASSWORD_SIZE (String.length plain));
      cbn [outcome_bind]; [discriminate|].
    destruct (contains_byte Ascii.zero plain); cbn [outcome_bind negb]; [discriminate|].
    intros Hb. apply Returns_inj in Hb. exists h, stored.
    split; [reflexivity|]. split; [exact Hstored|].
    split; [split; [assumption | reflexivity]|].
    symmetry. exact Hb.
  - intros (h & stored & Hparse & Hstored & [Hsize Hnul] & ->).
    rewrite (from_string_identify _ _ Hparse). cbn [outcome_bind negb].
    rewrite (validate_secret_returns _ Hsize). cbn [outcome_bind negb].
    rewrite Hparse. cbn [outcome_bind negb]. rewrite Hstored.
    destruct (Nat.ltb_spec passlib.MAX_PASSWORD_SIZE (String.length plain)); [lia|].
    rewrite Hnul. reflexivity.
Qed.

(** C2 (as amended). [verify_password] returns true exactly when the hash
    argument parses as a bcrypt hash and the plaintext matches it; it returns
    false only on a hash that parses and does not match. On a string that is
    not a hash it does not return false: a string no scheme identifies raises
    [UnknownHashError], one that does not parse raises as well, and so does
    one that parses to a hash without checksum. *)
Theorem verify_password_on_strings (plain hashed : string) :
  (verify_password plain hashed = Returns true
   <-> exists h, passlib.from_string hashed = Returns h
                 /\ accepted plain /\ matches plain h)
  /\ (verify_password plain hashed = Returns false
      -> exists h, passlib.from_string hashed = Returns h /\ ~ matches plain h)
  /\ (passlib.identify hashed = false
      -> verify_password plain hashed = Raises UnknownHashError)
  /\ (forall e, passlib.from_string hashed = Raises e
      -> exists e', verify_password plain hashed = Raises e')
  /\ (forall h, passlib.from_string hashed = Returns h
      -> passlib.checksum h = None
      -> exists e', verify_password plain hashed = Raises e').
Proof.
  refine (conj (conj _ _) (conj _ (conj _ (conj _ _)))).
  - intros H. apply verify_password_returns in H as (h & stored & Hp & Hs & Ha & Hb).
    exists h. split; [exact Hp|]. split; [exact Ha|].
    unfold matches. rewrite Hs. f_equal.
    symmetry in Hb. apply String.eqb_eq in Hb. exact Hb.
  - intros (h & Hp & Ha & Hm). apply verify_password_returns.
    unfold matches in Hm. exists h. eexists.
    split; [exact Hp|]. split; [symmetry; exact Hm|]. split; [exact Ha|].
    symmetry. apply String.eqb_refl.
  - intros H. apply verify_password_returns in H as (h & stored & Hp & Hs & Ha & Hb).
    exists h. split; [exact Hp|]. unfold matches. rewrite Hs. intros Hm.
    apply Some_inj in Hm. rewrite Hm, String.eqb_refl in Hb. discriminate.
  - intros H. unfold verify_password, passlib.verify. rewrite H. reflexivity.
  - intros e H. unfold verify_password, passlib.verify.
    destruct (passlib.identify hashed); cbn [outcome_bind negb]; [|eauto].
    destruct (passlib.validate_secret plain) as [[]|e1]; cbn [outcome_bind negb]; [|eauto].
    rewrite H. cbn [outcome_bind negb]. eauto.
  - intros h H Hnone. unfold verify_password, passlib.verify.
    destruct (passlib.identify hashed); cbn [outcome_bind negb]; [|eauto].
    destruct (passlib.validate_secret plain) as [[]|e1]; cbn [outcome_bind negb]; [|eauto].
    rewrite H. cbn [outcome_bind negb]. rewrite Hnone. eauto.
Qed.

(** A password the hasher takes, against the hash of another. *)
Lemma verify_against_hash (salt_bits : N) (P P1 : string) :
  accepted P1 ->
  verify_password P1
    (passlib.default_ident ++ passlib.rounds_str passlib.default_rounds
       ++ "$" ++ passlib.salt_str salt_bits ++ checksum_of salt_bits P)
  = Returns (String.eqb (checksum_of salt_bits P1) (checksum_of salt_bits P)).
Proof.
  intros HP1. apply verify_password_returns.
  eexists. eexists. unfold checksum_of at 1.
  split; [apply from_string_hash|].
  split; [reflexivity|]. split; [exact HP1 | reflexivity].
Qed.

(** C4 (as amended). A password verifies against its own hash whenever
    [hash_password] returns one. Against the hash of [P], a password [P1] the
    hasher takes verifies exactly when the bcrypt checksums of the two under
    the salt of the hash are equal; passwords that agree on their first 72
    bytes always do, distinct or not. *)
Theorem hash_then_verify (salt_bits : N) (P h : string) :
  hash_password salt_bits P = Returns h ->
  verify_password P h = Returns true
  /\ (forall P1, accepted P1 ->
        verify_password P1 h
        = Returns (String.eqb (checksum_of salt_bits P1) (checksum_of salt_bits P)))
  /\ (forall P1, accepted P1 ->
        take_bytes passlib.truncate_size P1 = take_bytes passlib.truncate_size P ->
        verify_password P1 h = Returns true).
Proof.
  intros Hh. apply hash_password_returns in Hh as [Hacc ->].
  refine (conj _ (conj _ _)).
  - rewrite (verify_against_hash salt_bits P P Hacc), String.eqb_refl. reflexivity.
  - apply verify_against_hash.
  - intros P1 HP1 Htake. rewrite (verify_against_hash salt_bits P P1 HP1).
    unfold checksum_of. rewrite Htake, String.eqb_refl. reflexivity.
Qed.

(** *** Tokens *)

(** The [exp] claim of a token issued at [T]. *)
Lemma access_token_expiry (T : Z) :
  jwt.numeric_date (T + timedelta_minutes ACCESS_TOKEN_EXPIRE_MINUTES) = VInt (expiry T).
Proof.
  unfold jwt.numeric_date, timedelta_minutes, ACCESS_TOKEN_EXPIRE_MINUTES, expiry.
  f_equal. replace (60 * 24 * 7 * 60 * 1000000) with (7 * 86400 * 1000000) by reflexivity.
  apply Z.div_add. discriminate.
Qed.

(** The expiry falls in the last second of the 7 days that follow the
    issue. *)
Lemma expiry_bounds (T : Z) :
  T + 7 * 86400 * 1000000 - 1000000 < expiry T * 1000000 <= T + 7 * 86400 * 1000000.
Proof.
  unfold expiry.
  pose proof (Z.div_mod T 1000000 ltac:(discriminate)) as Hdiv.
  pose proof (Z.mod_pos_bound T 1000000 ltac:(reflexivity)) as Hmod.
  lia.
Qed.

Lemma no_registered_claim_lookup (C : gmap string value) :
  no_registered_claim C ->
  C !! "exp" = None /\ C !! "iat" = None /\ C !! "nbf" = None
  /\ C !! "iss" = None /\ C !! "aud" = None /\ C !! "sub" = None
  /\ C !! "jti" = None.
Proof.
  unfold no_registered_claim. intros H.
  repeat (apply List.Forall_cons_iff in H as [? H]). auto 10.
Qed.

(** Decoding a token the server issued for claims that name no registered
    claim, before and after its expiry. *)
Lemma decode_access_token (data : gmap string value) (T now : Z) :
  no_registered_claim data ->
  jwt.decode sign int_of_str (create_access_token data T) SECRET_KEY [ALGORITHM] now
  = if expiry T * 1000000 <=? now then Raises ExpiredSignatureError
    else Returns (<["exp" := VInt (expiry T)]> data).
Proof.
  intros Hdata.
  apply no_registered_claim_lookup in Hdata
    as (_ & Hiat & Hnbf & _ & Haud & Hsub & Hjti).
  unfold create_access_token, jwt.encode, jwt.decode.
  rewrite access_token_expiry.
  replace (existsb (String.eqb ALGORITHM) [ALGORITHM]) with true by reflexivity.
  rewrite String.eqb_refl. cbn [negb].
  unfold jwt.validate_claims, jwt.validate_iat, jwt.validate_nbf, jwt.validate_exp,
    jwt.validate_aud, jwt.validate_sub, jwt.validate_jti.
  rewrite (lookup_insert_ne data "exp" "iat") by discriminate.
  rewrite (lookup_insert_ne data "exp" "nbf") by discriminate.
  rewrite (lookup_insert_ne data "exp" "aud") by discriminate.
  rewrite (lookup_insert_ne data "exp" "sub") by discriminate.
  rewrite (lookup_insert_ne data "exp" "jti") by discriminate.
  rewrite lookup_insert_eq, Hiat, Hnbf, Haud, Hsub, Hjti.
  cbn [outcome_bind jwt.int_of].
  destruct (expiry T * 1000000 <=? now); reflexivity.
Qed.

Lemma user_id_only (v : value) : no_registered_claim {[ "user_id" := v ]}.
Proof.
  unfold no_registered_claim.
  repeat (constructor; [apply lookup_singleton_ne; discriminate|]). constructor.
Qed.

(** C3 (as amended). A token issued at [T] for claims [C] that name none of
    the registered claims embeds as its expiry [T] cut to the whole second
    plus 7 days, an instant of the last second of the 7 days that follow [T].
    Decoded before that expiry it yields [C] with the expiry beside it;
    decoded at the expiry or later, so at any instant from [T] plus 7 days
    on, it fails with [ExpiredSignatureError], which [get_current_user]
    reports as an expired token. *)
Theorem token_valid_for_seven_days (C : gmap string value) (T now : Z) :
  no_registered_claim C ->
  create_access_token C T
  = jwt.encode sign (<["exp" := VInt (expiry T)]> C) SECRET_KEY ALGORITHM
  /\ T + 7 * 86400 * 1000000 - 1000000 < expiry T * 1000000 <= T + 7 * 86400 * 1000000
  /\ (now < expiry T * 1000000 ->
      exists payload,
        jwt.decode sign int_of_str (create_access_token C T) SECRET_KEY [ALGORITHM] now
        = Returns payload
        /\ payload !! "exp" = Some (VInt (expiry T))
        /\ delete "exp" payload = C
        /\ dict_get payload "user_id" = dict_get C "user_id")
  /\ (expiry T * 1000000 <= now ->
      jwt.decode sign int_of_str (create_access_token C T) SECRET_KEY [ALGORITHM] now
      = Raises ExpiredSignatureError
      /\ forall sch s,
           get_current_user
             {| scheme := sch; credentials := create_access_token C T |} now s
           = (Raises (HTTPException 401 "Token has expired"), s))
  /\ (now <= T + 7 * 86400 * 1000000 - 1000000 ->
      jwt.decode sign int_of_str (create_access_token C T) SECRET_KEY [ALGORITHM] now
      = Returns (<["exp" := VInt (expiry T)]> C))
  /\ (T + 7 * 86400 * 1000000 <= now ->
      jwt.decode sign int_of_str (create_access_token C T) SECRET_KEY [ALGORITHM] now
      = Raises ExpiredSignatureError).
Proof.
  intros HC. pose proof (expiry_bounds T) as Hbounds.
  pose proof (decode_access_token C T now HC) as Hdec.
  pose proof (no_registered_claim_lookup C HC) as (Hexp & _).
  assert (Hlate : expiry T * 1000000 <= now ->
            jwt.decode sign int_of_str (create_access_token C T) SECRET_KEY [ALGORITHM] now
            = Raises ExpiredSignatureError).
  { intros Hnow. rewrite Hdec.
    destruct (Z.leb_spec (expiry T * 1000000) now); [reflexivity | lia]. }
  assert (Hearly : now < expiry T * 1000000 ->
            jwt.decode sign int_of_str (create_access_token C T) SECRET_KEY [ALGORITHM] now
            = Returns (<["exp" := VInt (expiry T)]> C)).
  { intros Hnow. rewrite Hdec.
    destruct (Z.leb_spec (expiry T * 1000000) now); [lia | reflexivity]. }
  refine (conj _ (conj Hbounds (conj _ (conj _ (conj _ _))))).
  - unfold create_access_token. rewrite access_token_expiry. reflexivity.
  - intros Hnow. exists (<["exp" := VInt (expiry T)]> C).
    refine (conj (Hearly Hnow) (conj _ (conj _ _))).
    + apply lookup_insert_eq.
    + rewrite delete_insert_eq. apply delete_id. exact Hexp.
    + unfold dict_get. rewrite lookup_insert_ne by discriminate. reflexivity.
  - intros Hnow. split; [exact (Hlate Hnow)|].
    intros sch s. apply resolution_failure_raises. apply TokenExpired.
    unfold decoded. cbn [credentials]. exact (Hlate Hnow).
  - intros Hnow. apply Hearly. lia.
  - intros Hnow. apply Hlate. lia.
Qed.

(** *** Login and registration *)

(** [login] only reads the store. *)
Lemma login_reads (creds : UserLogin) (now : Z) (s : db) :
  snd (login creds now s) = s.
Proof.
  unfold login, bind, find_one_user, lift, raise, ret.
  destruct (List.find _ (users s)) as [u|]; [|reflexivity].
  destruct (verify_password _ _) as [[]|e]; reflexivity.
Qed.

Lemma login_rejected_raises (s : db) (creds : UserLogin) (now : Z) :
  login_rejected s creds ->
  login creds now s = (Raises (HTTPException 401 "Incorrect email or password"), s).
Proof.
  intros [Hnone | u Hsome Hverify];
    unfold login, bind, find_one_user, lift, raise, ret.
  - rewrite Hnone. reflexivity.
  - rewrite Hsome, Hverify. reflexivity.
Qed.

(** A login with an email no user has and a login with the email of a user
    and a password for which [verify_password] returns false are both refused
    with the same HTTPException, 401 "Incorrect email or password", so the two
    answers are equal; and [login], accepted or refused, leaves the store as
    it was. *)
Lemma login_rejections_identical (s : db) (c1 c2 : UserLogin) (now1 now2 : Z) :
  login_rejected s c1 ->
  login_rejected s c2 ->
  login c1 now1 s = (Raises (HTTPException 401 "Incorrect email or password"), s)
  /\ login c2 now2 s = login c1 now1 s
  /\ respond (fst (login c1 now1 s)) = respond (fst (login c2 now2 s))
  /\ (forall c now, snd (login c now s) = s).
Proof.
  intros H1 H2.
  rewrite (login_rejected_raises s c1 now1 H1), (login_rejected_raises s c2 now2 H2).
  repeat split. intros c now. apply login_reads.
Qed.

(** When the email is that of a user and [verify_password] raises on the
    password given, [login] raises the same exception: no [except] clause
    stands between the library and the caller. *)
Lemma login_verify_raises (s : db) (creds : UserLogin) (now : Z) (u : user_doc)
    (e : exn) :
  List.find (fun u => String.eqb (user_email u) (login_email creds)) (users s) = Some u ->
  verify_password (login_password creds) (user_password u) = Raises e ->
  login creds now s = (Raises e, s).
Proof.
  intros Hfind Hverify. unfold login, bind, find_one_user, lift.
  rewrite Hfind, Hverify. reflexivity.
Qed.

Lemma find_none_filter {A} (p : A -> bool) (l : list A) :
  List.find p l = None -> List.filter p l = [].
Proof.
  induction l as [|x l IH]; simpl; [reflexivity|].
  destruct (p x); [discriminate | exact IH].
Qed.

Lemma find_app_new {A} (p : A -> bool) (l : list A) (x : A) :
  p x = true -> exists y, List.find p (l ++ [x])%list = Some y.
Proof.
  intros Hx. induction l as [|z l IH]; simpl.
  - rewrite Hx. eauto.
  - destruct (p z); eauto.
Qed.

(** What a successful [register] did: the email was free, and one document
    carrying it was appended to the users. *)
Lemma register_returns (user_data : UserRegister) (salt_bits : N) (now now' : Z)
    (s s' : db) (r : Token) :
  register user_data salt_bits now now' s = (Returns r, s') ->
  List.find (fun u => String.eqb (user_email u) (register_email user_data)) (users s) = None
  /\ exists hashed,
       hash_password salt_bits (register_password user_data) = Returns hashed
       /\ users s' = (users s ++ [ {| user__id := next_id s;
                                      user_email := register_email user_data;
                                      user_password := hashed;
                                      user_name := register_name user_data;
                                      user_created_at := bson.datetime now |} ])%list
       /\ user r = user_view (next_id s) (register_email user_data)
                     (register_name user_data).
Proof.
  unfold register, bind, find_one_user, lift, raise, ret, insert_one_user.
  destruct (List.find _ (users s)) as [u|]; [discriminate|].
  destruct (hash_password _ _) as [hashed|e]; [|discriminate].
  intros H. injection H as <- <-. split; [reflexivity|].
  exists hashed. repeat split.
Qed.

(** C6. After a [register] that succeeded, a second [register] with the same
    email (compared as stored, byte for byte) fails with HTTPException 400
    "Email already registered" and leaves the store as it was; exactly one
    user document carries that email. *)
Theorem register_same_email_twice (d1 d2 : UserRegister) (salt1 salt2 : N)
    (t1 t1' t2 t2' : Z) (s s1 : db) (r1 : Token) :
  register d1 salt1 t1 t1' s = (Returns r1, s1) ->
  register_email d2 = register_email d1 ->
  register d2 salt2 t2 t2' s1
    = (Raises (HTTPException 400 "Email already registered"), s1)
  /\ count_email (register_email d1) s1 = 1%nat.
Proof.
  intros Hfirst Hsame.
  apply register_returns in Hfirst as (Hfree & hashed & _ & Husers & _).
  split.
  - unfold register, bind, find_one_user, raise. rewrite Hsame, Husers.
    destruct (find_app_new
                (fun u => String.eqb (user_email u) (register_email d1)) (users s)
                {| user__id := next_id s; user_email := register_email d1;
                   user_password := hashed; user_name := register_name d1;
                   user_created_at := bson.datetime t1 |}) as [y Hy].
    { simpl. apply String.eqb_refl. }
    rewrite Hy. reflexivity.
  - unfold count_email. rewrite Husers, List.filter_app.
    rewrite (find_none_filter _ _ Hfree). simpl.
    rewrite String.eqb_refl. reflexivity.
Qed.

(** C8. The [user] entry of every [Token] response of [register] and of
    [login] has exactly the keys [id], [email] and [name], holding the
    identifier, the email and the name of the user; it has no [password]
    entry. *)
Theorem user_view_excludes_password (s : db) (r : Token) (oid : bson.ObjectId)
    (email name : string) :
  issued_for s r oid email name ->
  dom (user r) = {[ "id"; "email"; "name" ]}
  /\ user r !! "password" = None
  /\ user r !! "id" = Some (VStr (bson.str oid))
  /\ user r !! "email" = Some (VStr email)
  /\ user r !! "name" = Some (VStr name).
Proof.
  intros Hissued.
  assert (Hview : user r = user_view oid email name).
  { destruct Hissued as [d salt_bits t t' s' r Hreg | c t s' r u Hlogin Hfind].
    - apply register_returns in Hreg as (_ & hashed & _ & _ & Huser). exact Huser.
    - revert Hlogin. unfold login, bind, find_one_user, lift, raise, ret.
      rewrite Hfind.
      destruct (verify_password _ _) as [[]|e]; cbn [negb]; try discriminate.
      intros H. injection H as <- _. reflexivity. }
  rewrite Hview. unfold user_view.
  refine (conj _ (conj _ (conj _ (conj _ _)))).
  - rewrite !dom_insert_L, dom_empty_L. set_solver.
  - rewrite !lookup_insert_ne by discriminate. apply lookup_empty.
  - apply lookup_insert_eq.
  - rewrite lookup_insert_ne by discriminate. apply lookup_insert_eq.
  - rewrite !lookup_insert_ne by discriminate. apply lookup_insert_eq.
Qed.

(** *** The protected routes *)

(** C7. A route that depends on [get_current_user] runs its function only
    when identity resolution succeeds, and then on the resolved user document,
    a document of the users collection. When resolution fails, whatever the
    failure, the route raises that failure and the store is left as it was: no
    insert and no delete takes place. *)
Theorem protected_routes_short_circuit (req : request) (now : Z) (s : db) :
  match fst (resolve_identity req now s) with
  | Raises e =>
      (forall A (endpoint : user_doc -> M A),
          Depends_current_user req now endpoint s = (Raises e, s))
      /\ (forall recipe_data now',
            post_recipes req recipe_data now now' s = (Raises e, s))
      /\ (forall favorite now',
            post_favorites req favorite now now' s = (Raises e, s))
      /\ (forall rid, delete_favorites req rid now s = (Raises e, s))
      /\ get_favorites_route req now s = (Raises e, s)
  | Returns u =>
      In u (users s)
      /\ (forall A (endpoint : user_doc -> M A),
            Depends_current_user req now endpoint s = endpoint u s)
      /\ (forall recipe_data now',
            post_recipes req recipe_data now now' s = create_recipe recipe_data u now' s)
      /\ (forall favorite now',
            post_favorites req favorite now now' s = add_favorite favorite u now' s)
      /\ (forall rid, delete_favorites req rid now s = remove_favorite rid u s)
      /\ get_favorites_route req now s = get_favorites u s
  end.
Proof.
  unfold post_recipes, post_favorites, delete_favorites, get_favorites_route.
  unfold resolve_identity, Depends_current_user, bind, lift.
  destruct (security req) as [creds|e]; cbn [fst].
  - pose proof (get_current_user_reads creds now s) as Hreads.
    destruct (get_current_user creds now s) as [[u|e] s0] eqn:Hrun;
      cbn [fst snd] in *; subst s0.
    + split; [|repeat split].
      revert Hrun.
      unfold get_current_user, try_except, bind, lift, find_one_user, raise, ret.
      destruct (jwt.decode _ _ _ _ _ _) as [payload|d]; cbn [fst].
      * destruct (dict_get payload "user_id") as [uid|n|]; cbn [bson.ObjectId_of].
        -- destruct (bson.ObjectId_of_str uid) as [oid|d]; [|destruct d; discriminate].
           destruct (List.find _ (users s)) as [u0|] eqn:Hfind; [|discriminate].
           intros H. injection H as <-. apply List.find_some in Hfind. apply Hfind.
        -- discriminate.
        -- discriminate.
      * destruct d; discriminate.
    + repeat split.
  - repeat split.
Qed.

(** *** Favorites and recipes *)

(** The filter of [add_favorite] is the filter that counts the favorites of
    the pair. *)
Lemma count_favorite_filter (u : user_doc) (rid : string) (s : db) :
  count_favorite (bson.str (user__id u)) rid s
  = length (List.filter (favorite_filter u rid) (favorites s)).
Proof. reflexivity. Qed.

Lemma add_favorite_existing (favorite : FavoriteCreate) (u : user_doc) (now : Z)
    (s : db) (f : favorite_doc) :
  List.find (favorite_filter u (recipe_id favorite)) (favorites s) = Some f ->
  add_favorite favorite u now s = (Returns {| message := "Already in favorites" |}, s).
Proof.
  intros Hfind. unfold add_favorite, bind, find_one_favorite, ret.
  rewrite Hfind. reflexivity.
Qed.

(** What [add_favorite] does when the pair has no favorite yet. *)
Lemma add_favorite_new (favorite : FavoriteCreate) (u : user_doc) (now : Z) (s : db) :
  List.find (favorite_filter u (recipe_id favorite)) (favorites s) = None ->
  add_favorite favorite u now s
  = (Returns {| message := "Added to favorites" |},
     {| users := users s;
        recipes := recipes s;
        favorites := (favorites s ++ [ {| favorite__id := next_id s;
                                          favorite_user_id := bson.str (user__id u);
                                          favorite_recipe_id := recipe_id favorite;
                                          favorite_created_at :=
                                            bson.datetime now |} ])%list;
        next_id := N.succ (next_id s) |}).
Proof.
  intros Hfind. unfold add_favorite, bind, find_one_favorite, insert_one_favorite, ret.
  rewrite Hfind. reflexivity.
Qed.

(** C9. When the pair (user, recipe) already has a favorite, [add_favorite]
    returns the message "Already in favorites" and leaves the store as it was.
    A second [add_favorite] for the pair, right after a first, is in that
    case; and a store in which every pair has at most one favorite is still
    such a store after [add_favorite]. *)
Theorem add_favorite_idempotent (favorite : FavoriteCreate) (u : user_doc)
    (now now' : Z) (s s' : db) (o : outcome Message) :
  at_most_one_favorite s ->
  add_favorite favorite u now s = (o, s') ->
  (forall f,
      List.find (favorite_filter u (recipe_id favorite)) (favorites s) = Some f ->
      o = Returns {| message := "Already in favorites" |} /\ s' = s)
  /\ add_favorite favorite u now' s'
     = (Returns {| message := "Already in favorites" |}, s')
  /\ at_most_one_favorite s'.
Proof.
  intros Hinv Hrun.
  destruct (List.find (favorite_filter u (recipe_id favorite)) (favorites s))
    as [f|] eqn:Hfind.
  - rewrite (add_favorite_existing favorite u now s f Hfind) in Hrun.
    injection Hrun as <- <-.
    refine (conj _ (conj _ _)).
    + intros _ _. split; reflexivity.
    + apply (add_favorite_existing favorite u now' s f Hfind).
    + exact Hinv.
  - rewrite (add_favorite_new favorite u now s Hfind) in Hrun.
    injection Hrun as <- <-.
    refine (conj _ (conj _ _)).
    + intros f Hf. discriminate.
    + destruct (find_app_new (favorite_filter u (recipe_id favorite)) (favorites s)
                  {| favorite__id := next_id s;
                     favorite_user_id := bson.str (user__id u);
                     favorite_recipe_id := recipe_id favorite;
                     favorite_created_at := bson.datetime now |}) as [y Hy].
      { unfold favorite_filter. cbn [favorite_user_id favorite_recipe_id].
        rewrite !String.eqb_refl. reflexivity. }
      apply (add_favorite_existing favorite u now' _ y). exact Hy.
    + intros uid rid. unfold count_favorite. cbn [favorites].
      rewrite List.filter_app, List.length_app.
      cbn [List.filter favorite_user_id favorite_recipe_id].
      destruct (String.eqb (bson.str (user__id u)) uid) eqn:Hu; cbn [andb].
      * destruct (String.eqb (recipe_id favorite) rid) eqn:Hr; cbn [length].
        -- apply String.eqb_eq in Hu, Hr. subst uid rid.
           pose proof (find_none_filter _ _ Hfind) as Hnil.
           unfold favorite_filter in Hnil. rewrite Hnil. cbn [length]. lia.
        -- specialize (Hinv uid rid). unfold count_favorite in Hinv. lia.
      * cbn [length]. specialize (Hinv uid rid). unfold count_favorite in Hinv. lia.
Qed.

(** C10. For every string given as the recipe identifier, the text of an
    ObjectId or not, [get_recipe] leaves the store as it is and either
    returns the recipe of the store whose identifier the string writes (the
    first such document, shown with that identifier as its [id]) or raises
    HTTPException 404 "Recipe not found"; the caller is answered 200 or 404.
    It returns when the store has a recipe under the identifier, and a
    recipe stored under an identifier no other recipe has is returned for
    the text of that identifier. A string that is not the text of an
    ObjectId gets the 404. *)
Theorem get_recipe_found_or_404 (rid : string) (s : db) :
  (forall r s', get_recipe rid s = (Returns r, s') ->
     s' = s
     /\ exists doc,
          In doc (recipes s)
          /\ bson.ObjectId_of_str rid = Returns (recipe__id doc)
          /\ List.find (fun x => N.eqb (recipe__id x) (recipe__id doc)) (recipes s)
             = Some doc
          /\ r = Recipe_of_doc doc)
  /\ (forall e s', get_recipe rid s = (Raises e, s') ->
        e = HTTPException 404 "Recipe not found" /\ s' = s
        /\ forall doc, In doc (recipes s) ->
             bson.ObjectId_of_str rid <> Returns (recipe__id doc))
  /\ (status (respond (fst (get_recipe rid s))) = 200
      \/ status (respond (fst (get_recipe rid s))) = 404)
  /\ (forall doc, In doc (recipes s) ->
        List.NoDup (List.map recipe__id (recipes s)) ->
        (recipe__id doc < 2 ^ 96)%N ->
        get_recipe (bson.str (recipe__id doc)) s = (Returns (Recipe_of_doc doc), s))
  /\ (forall e, bson.ObjectId_of_str rid = Raises e ->
        get_recipe rid s = (Raises (HTTPException 404 "Recipe not found"), s)).
Proof.
  refine (conj _ (conj _ (conj _ (conj _ _)))).
  - unfold get_recipe, try_except, bind, lift, find_one_recipe, raise, ret.
    destruct (bson.ObjectId_of_str rid) as [oid|e0]; cbn [fst]; [|discriminate].
    destruct (List.find _ (recipes s)) as [doc|] eqn:Hfind; cbn [fst]; [|discriminate].
    intros r s' H. injection H as <- <-. split; [reflexivity|].
    pose proof (List.find_some _ _ Hfind) as [Hin Heq]. apply N.eqb_eq in Heq.
    exists doc. rewrite Heq. auto.
  - unfold get_recipe, try_except, bind, lift, find_one_recipe, raise, ret.
    destruct (bson.ObjectId_of_str rid) as [oid|e0]; cbn [fst].
    + destruct (List.find _ (recipes s)) as [doc|] eqn:Hfind; cbn [fst]; [discriminate|].
      intros e s' H. injection H as <- <-. split; [reflexivity|]. split; [reflexivity|].
      intros doc Hin Heq. apply Returns_inj in Heq. subst oid.
      pose proof (find_none_all _ _ doc Hfind Hin) as Hno. cbn beta in Hno.
      rewrite N.eqb_refl in Hno. discriminate.
    + intros e s' H. injection H as <- <-. split; [reflexivity|]. split; [reflexivity|].
      intros doc _. discriminate.
  - unfold get_recipe, try_except, bind, lift, find_one_recipe, raise, ret.
    destruct (bson.ObjectId_of_str rid) as [oid|e0]; cbn [fst]; [|right; reflexivity].
    destruct (List.find _ (recipes s)); [left | right]; reflexivity.
  - intros doc Hin Hnodup Hbound.
    unfold get_recipe, try_except, bind, lift, find_one_recipe, raise, ret.
    rewrite (ObjectId_of_str_str _ Hbound).
    rewrite (find_unique recipe__id (recipes s) doc Hnodup Hin). reflexivity.
  - intros e He.
    unfold get_recipe, try_except, bind, lift, find_one_recipe, raise, ret.
    rewrite He. reflexivity.
Qed.

(** ** Further properties of the handlers *)

(** *** What each handler does to the store *)

Lemma fresh_not_in {A} (key : A -> N) (l : list A) (n : N) :
  Forall (fun x => (key x < n)%N) l -> ~ In n (List.map key l).
Proof.
  intros Hall Hin. apply List.in_map_iff in Hin as (x & Hx & Hin).
  rewrite List.Forall_forall in Hall. specialize (Hall x Hin). lia.
Qed.

Lemma Forall_below_succ {A} (key : A -> N) (l : list A) (n : N) :
  Forall (fun x => (key x < n)%N) l -> Forall (fun x => (key x < N.succ n)%N) l.
Proof. apply List.Forall_impl. intros x Hx. lia. Qed.

Lemma NoDup_map_snoc {A B} (f : A -> B) (l : list A) (x : A) :
  List.NoDup (List.map f l) -> ~ In (f x) (List.map f l) ->
  List.NoDup (List.map f (l ++ [x])%list).
Proof.
  intros Hnd Hnotin. rewrite List.map_app. simpl.
  apply List.NoDup_app; [exact Hnd | |].
  - constructor; [intros [] | constructor].
  - intros y Hy [<- | []]. exact (Hnotin Hy).
Qed.

Lemma remove_first_incl {A} (p : A -> bool) (l : list A) (x : A) :
  In x (fst (remove_first p l)) -> In x l.
Proof.
  induction l as [|z l IH]; simpl; [auto|].
  destruct (p z); [auto|].
  destruct (remove_first p l) as [r n]. simpl in *. intros [->|H]; auto.
Qed.

Lemma remove_first_NoDup {A B} (f : A -> B) (p : A -> bool) (l : list A) :
  List.NoDup (List.map f l) -> List.NoDup (List.map f (fst (remove_first p l))).
Proof.
  induction l as [|z l IH]; simpl; [auto|].
  intros Hnd. inversion Hnd as [|? ? Hnotin Hnd']; subst.
  destruct (p z); [exact Hnd'|].
  pose proof (remove_first_incl p l) as Hincl.
  destruct (remove_first p l) as [r n]. simpl in *.
  constructor; [|auto].
  intros Hin. apply Hnotin. apply List.in_map_iff in Hin as (y & Hy & Hin).
  rewrite <- Hy. apply List.in_map. auto.
Qed.

(** The store after a user, a recipe or a favorite is appended under
    [next_id], and after a favorite is removed. *)
Lemma store_ok_add_user (s : db) (u : user_doc) :
  store_ok s ->
  user__id u = next_id s ->
  ~ In (user_email u) (List.map user_email (users s)) ->
  store_ok {| users := users s ++ [u]; recipes := recipes s;
              favorites := favorites s; next_id := N.succ (next_id s) |}.
Proof.
  intros ((Hu & Hr & Hf) & (Du & Dr & Df) & He) Hid Hemail.
  unfold store_ok, ids_fresh, ids_distinct, emails_unique. cbn [users recipes favorites next_id].
  repeat split; auto using Forall_below_succ.
  - apply List.Forall_app. split; [auto using Forall_below_succ|].
    constructor; [lia | constructor].
  - apply NoDup_map_snoc; [exact Du|]. rewrite Hid. apply fresh_not_in. exact Hu.
  - apply NoDup_map_snoc; assumption.
Qed.

Lemma store_ok_add_recipe (s : db) (r : recipe_doc) :
  store_ok s ->
  recipe__id r = next_id s ->
  store_ok {| users := users s; recipes := recipes s ++ [r];
              favorites := favorites s; next_id := N.succ (next_id s) |}.
Proof.
  intros ((Hu & Hr & Hf) & (Du & Dr & Df) & He) Hid.
  unfold store_ok, ids_fresh, ids_distinct, emails_unique. cbn [users recipes favorites next_id].
  repeat split; auto using Forall_below_succ.
  - apply List.Forall_app. split; [auto using Forall_below_succ|].
    constructor; [lia | constructor].
  - apply NoDup_map_snoc; [exact Dr|]. rewrite Hid. apply fresh_not_in. exact Hr.
Qed.

Lemma store_ok_add_favorite (s : db) (f : favorite_doc) :
  store_ok s ->
  favorite__id f = next_id s ->
  store_ok {| users := users s; recipes := recipes s;
              favorites := favorites s ++ [f]; next_id := N.succ (next_id s) |}.
Proof.
  intros ((Hu & Hr & Hf) & (Du & Dr & Df) & He) Hid.
  unfold store_ok, ids_fresh, ids_distinct, emails_unique. cbn [users recipes favorites next_id].
  repeat split; auto using Forall_below_succ.
  - apply List.Forall_app. split; [auto using Forall_below_succ|].
    constructor; [lia | constructor].
  - apply NoDup_map_snoc; [exact Df|]. rewrite Hid. apply fresh_not_in. exact Hf.
Qed.

Lemma store_ok_remove_favorite (s : db) (p : favorite_doc -> bool) :
  store_ok s ->
  store_ok {| users := users s; recipes := recipes s;
              favorites := fst (remove_first p (favorites s)); next_id := next_id s |}.
Proof.
  intros ((Hu & Hr & Hf) & (Du & Dr & Df) & He).
  unfold store_ok, ids_fresh, ids_distinct, emails_unique. cbn [users recipes favorites next_id].
  repeat split; auto using remove_first_NoDup.
  rewrite List.Forall_forall in *. intros f Hin. apply Hf.
  apply (remove_first_incl p). exact Hin.
Qed.

(** [register] either raises and leaves the store as it was, or returns
    after appending one user: the email was free, the password is stored as
    the hash [hash_password] returned, and the response carries a token for
    the new identifier. *)
Lemma register_cases (d : UserRegister) (salt_bits : N) (t t' : Z) (s : db) :
  (exists e, register d salt_bits t t' s = (Raises e, s))
  \/ exists hashed,
       List.find (fun u => String.eqb (user_email u) (register_email d)) (users s) = None
       /\ hash_password salt_bits (register_password d) = Returns hashed
       /\ register d salt_bits t t' s
          = (Returns {| access_token :=
                          create_access_token
                            {[ "user_id" := VStr (bson.str (next_id s)) ]} t';
                        token_type := "bearer";
                        user := user_view (next_id s) (register_email d)
                                  (register_name d) |},
             {| users := users s ++ [ {| user__id := next_id s;
                                         user_email := register_email d;
                                         user_password := hashed;
                                         user_name := register_name d;
                                         user_created_at := bson.datetime t |} ];
                recipes := recipes s;
                favorites := favorites s;
                next_id := N.succ (next_id s) |}).
Proof.
  unfold register, bind, find_one_user, lift, raise, ret, insert_one_user.
  destruct (List.find _ (users s)) as [u|]; [left; eauto|].
  destruct (hash_password _ _) as [hashed|e]; [|left; eauto].
  right. exists hashed. repeat split.
Qed.

(** A route behind [Depends(get_current_user)] either raises with the store
    as it was, or is the route's function on a user of the store. *)
Lemma Depends_current_user_cases {A} (req : request) (now : Z)
    (endpoint : user_doc -> M A) (s : db) :
  (exists e, Depends_current_user req now endpoint s = (Raises e, s))
  \/ exists u, In u (users s)
               /\ resolve_identity req now s = (Returns u, s)
               /\ Depends_current_user req now endpoint s = endpoint u s.
Proof.
  unfold Depends_current_user, resolve_identity, bind, lift.
  destruct (security req) as [creds|e]; [|left; eauto].
  pose proof (get_current_user_reads creds now s) as Hreads.
  destruct (get_current_user creds now s) as [[u|e] s0] eqn:Hrun;
    cbn [snd] in Hreads; subst s0; [|left; eauto].
  right. exists u. split; [|split; reflexivity].
  revert Hrun.
  unfold get_current_user, try_except, bind, lift, find_one_user, raise, ret.
  destruct (jwt.decode _ _ _ _ _ _) as [payload|d]; [|destruct d; discriminate].
  destruct (dict_get payload "user_id") as [uid|n|]; cbn [bson.ObjectId_of];
    try discriminate.
  destruct (bson.ObjectId_of_str uid) as [oid|d]; [|destruct d; discriminate].
  destruct (List.find _ (users s)) as [u0|] eqn:Hfind; [|discriminate].
  intros H. injection H as <-. apply List.find_some in Hfind. apply Hfind.
Qed.

(** A property of the store before and after that holds when nothing is
    written and holds of a route's function, holds of the route behind
    [Depends(get_current_user)]. *)
Lemma Depends_current_user_rel {A} (R : db -> db -> Prop) (req : request) (now : Z)
    (endpoint : user_doc -> M A) (s : db) :
  R s s ->
  (forall u, In u (users s) -> R s (snd (endpoint u s))) ->
  R s (snd (Depends_current_user req now endpoint s)).
Proof.
  intros Hrefl Hend.
  destruct (Depends_current_user_cases req now endpoint s)
    as [[e ->] | (u & Hin & _ & ->)]; auto.
Qed.

Lemma get_recipe_reads (rid : string) (s : db) : snd (get_recipe rid s) = s.
Proof.
  unfold get_recipe, try_except, bind, lift, find_one_recipe, raise, ret.
  destruct (bson.ObjectId_of_str rid); [|reflexivity].
  destruct (List.find _ (recipes s)); reflexivity.
Qed.

Lemma get_recipes_reads (category : option string) (s : db) :
  snd (get_recipes category s) = s.
Proof. reflexivity. Qed.

Lemma get_favorites_reads (u : user_doc) (s : db) : snd (get_favorites u s) = s.
Proof. unfold get_favorites. destruct (recipe_ids_of _); reflexivity. Qed.

Lemma remove_favorite_store (rid : string) (u : user_doc) (s : db) :
  snd (remove_favorite rid u s)
  = {| users := users s; recipes := recipes s;
       favorites := fst (remove_first (favorite_filter u rid) (favorites s));
       next_id := next_id s |}.
Proof.
  unfold remove_favorite, bind, delete_one_favorite, raise, ret.
  destruct (remove_first _ (favorites s)) as [favs n]. cbn [fst].
  destruct (n =? 0); reflexivity.
Qed.

Lemma add_favorite_store (favorite : FavoriteCreate) (u : user_doc) (now : Z) (s : db) :
  snd (add_favorite favorite u now s) = s
  \/ snd (add_favorite favorite u now s)
     = {| users := users s; recipes := recipes s;
          favorites := (favorites s ++ [ {| favorite__id := next_id s;
                                            favorite_user_id := bson.str (user__id u);
                                            favorite_recipe_id := recipe_id favorite;
                                            favorite_created_at :=
                                              bson.datetime now |} ])%list;
          next_id := N.succ (next_id s) |}.
Proof.
  destruct (List.find (favorite_filter u (recipe_id favorite)) (favorites s))
    as [f|] eqn:Hfind.
  - left. rewrite (add_favorite_existing favorite u now s f Hfind). reflexivity.
  - right. rewrite (add_favorite_new favorite u now s Hfind). reflexivity.
Qed.

(** [insert_many] appends one recipe for each of its documents and writes
    nothing else. *)
Lemma insert_many_recipes_store (docs : list (bson.ObjectId -> recipe_doc)) (s : db) :
  exists added,
    length added = length docs
    /\ insert_many_recipes docs s
       = (Returns tt,
          {| users := users s;
             recipes := (recipes s ++ added)%list;
             favorites := favorites s;
             next_id := (next_id s + N.of_nat (length docs))%N |}).
Proof.
  revert s. induction docs as [|doc docs IH]; intros s.
  - exists []. split; [reflexivity|]. cbn. rewrite List.app_nil_r, N.add_0_r.
    destruct s; reflexivity.
  - cbn [insert_many_recipes]. unfold bind, insert_one_recipe.
    destruct (IH {| users := users s;
                    recipes := (recipes s ++ [stored_recipe (doc (next_id s))])%list;
                    favorites := favorites s; next_id := N.succ (next_id s) |})
      as (added & Hlen & ->).
    exists (stored_recipe (doc (next_id s)) :: added). split; [cbn; lia|].
    cbn [users recipes favorites next_id length].
    rewrite <- List.app_assoc. cbn [app]. do 2 f_equal. lia.
Qed.

Lemma store_ok_insert_many (docs : list (bson.ObjectId -> recipe_doc)) (s : db) :
  Forall (fun doc => forall oid, recipe__id (doc oid) = oid) docs ->
  store_ok s ->
  store_ok (snd (insert_many_recipes docs s)).
Proof.
  revert s. induction docs as [|doc docs IH]; intros s Hdocs Hok; [exact Hok|].
  inversion Hdocs as [|? ? Hdoc Hdocs']; subst.
  cbn [insert_many_recipes]. unfold bind, insert_one_recipe.
  apply IH; [exact Hdocs'|]. apply store_ok_add_recipe; [exact Hok | apply Hdoc].
Qed.

Lemma sample_recipes_ids (clock : nat -> Z) :
  Forall (fun doc => forall oid, recipe__id (doc oid) = oid) (sample_recipes clock).
Proof. unfold sample_recipes. repeat constructor. Qed.

(** Each step keeps the store well formed. *)
Lemma step_store_ok (s s' : db) : step s s' -> store_ok s -> store_ok s'.
Proof.
  intros Hstep Hok. destruct Hstep.
  - unfold startup_db, bind, count_documents_recipes, ret.
    destruct (Nat.eqb _ _); [|exact Hok].
    apply store_ok_insert_many; [apply sample_recipes_ids | exact Hok].
  - destruct (register_cases d salt_bits t t' s) as [[e ->] | (hashed & Hfree & _ & ->)];
      [exact Hok|].
    apply store_ok_add_user; [exact Hok | reflexivity |].
    cbn [user_email]. intros Hin. apply List.in_map_iff in Hin as (x & Hx & Hin).
    pose proof (find_none_all _ _ x Hfree Hin) as H. cbn in H.
    rewrite Hx, String.eqb_refl in H. discriminate.
  - rewrite login_reads. exact Hok.
  - exact Hok.
  - rewrite get_recipe_reads. exact Hok.
  - unfold post_recipes.
    apply (Depends_current_user_rel (fun _ s' => store_ok s')); [exact Hok|].
    intros u _. apply store_ok_add_recipe; [exact Hok | reflexivity].
  - unfold get_favorites_route.
    apply (Depends_current_user_rel (fun _ s' => store_ok s')); [exact Hok|].
    intros u _. rewrite get_favorites_reads. exact Hok.
  - unfold post_favorites.
    apply (Depends_current_user_rel (fun _ s' => store_ok s')); [exact Hok|].
    intros u _. destruct (add_favorite_store favorite u t' s) as [-> | ->]; [exact Hok|].
    apply store_ok_add_favorite; [exact Hok | reflexivity].
  - unfold delete_favorites.
    apply (Depends_current_user_rel (fun _ s' => store_ok s')); [exact Hok|].
    intros u _. rewrite remove_favorite_store. apply store_ok_remove_favorite. exact Hok.
Qed.

(** X1. When the requests are served one after another, each from its
    start to its answer, no two users share an email: so it is in every store
    reached from an empty database by the startup hook and the handlers run
    that way. *)
Theorem sequential_requests_keep_emails_unique (s : db) :
  reachable s -> emails_unique s.
Proof.
  intros Hreach.
  assert (Hok : store_ok s).
  { induction Hreach as [first_id | s s' _ IH Hstep].
    - unfold store_ok, ids_fresh, ids_distinct, emails_unique, empty_db.
      cbn. repeat split; constructor.
    - exact (step_store_ok s s' Hstep IH). }
  destruct Hok as (_ & _ & He). exact He.
Qed.

(** X2. Users are never updated or deleted, and only [register] adds one.
    The startup hook, [login], the recipe routes and the favorites routes
    leave the users as they were, whatever they return or raise. [register]
    leaves them as they were when it raises, and when it returns has appended
    one user, with the email and the name given, under the next
    identifier. *)
Theorem users_only_grow_by_register (s : db) :
  (forall clock, users (snd (startup_db clock s)) = users s)
  /\ (forall c t, users (snd (login c t s)) = users s)
  /\ (forall category, users (snd (get_recipes category s)) = users s)
  /\ (forall rid, users (snd (get_recipe rid s)) = users s)
  /\ (forall req recipe_data t t',
        users (snd (post_recipes req recipe_data t t' s)) = users s)
  /\ (forall req t, users (snd (get_favorites_route req t s)) = users s)
  /\ (forall req favorite t t',
        users (snd (post_favorites req favorite t t' s)) = users s)
  /\ (forall req rid t, users (snd (delete_favorites req rid t s)) = users s)
  /\ (forall d salt_bits t t',
        match register d salt_bits t t' s with
        | (Raises _, s') => users s' = users s
        | (Returns _, s') =>
            exists u, users s' = (users s ++ [u])%list
                      /\ user__id u = next_id s
                      /\ user_email u = register_email d
                      /\ user_name u = register_name d
        end).
Proof.
  refine (conj _ (conj _ (conj _ (conj _ (conj _ (conj _ (conj _ (conj _ _)))))))).
  - intros clock. unfold startup_db, bind, count_documents_recipes, ret.
    destruct (Nat.eqb _ _); [|reflexivity].
    destruct (insert_many_recipes_store (sample_recipes clock) s) as (added & _ & ->).
    reflexivity.
  - intros c t. rewrite login_reads. reflexivity.
  - intros category. reflexivity.
  - intros rid. rewrite get_recipe_reads. reflexivity.
  - intros req recipe_data t t'. unfold post_recipes.
    apply (Depends_current_user_rel (fun s s' => users s' = users s)); reflexivity.
  - intros req t. unfold get_favorites_route.
    apply (Depends_current_user_rel (fun s s' => users s' = users s)); [reflexivity|].
    intros u _. rewrite get_favorites_reads. reflexivity.
  - intros req favorite t t'. unfold post_favorites.
    apply (Depends_current_user_rel (fun s s' => users s' = users s)); [reflexivity|].
    intros u _. destruct (add_favorite_store favorite u t' s) as [-> | ->]; reflexivity.
  - intros req rid t. unfold delete_favorites.
    apply (Depends_current_user_rel (fun s s' => users s' = users s)); [reflexivity|].
    intros u _. rewrite remove_favorite_store. reflexivity.
  - intros d salt_bits t t'.
    destruct (register_cases d salt_bits t t' s) as [[e ->] | (hashed & Hfree & _ & ->)];
      [reflexivity|].
    eexists. cbn [users]. repeat split.
Qed.

(** *** Registration, login and the tokens they issue *)

(** A password verifies against the hash [hash_password] made of it. *)
Lemma verify_own_hash (salt_bits : N) (password h : string) :
  hash_password salt_bits password = Returns h ->
  verify_password password h = Returns true.
Proof.
  intros Hh. apply hash_password_returns in Hh as [Hacc ->].
  rewrite (verify_against_hash salt_bits password password Hacc), String.eqb_refl.
  reflexivity.
Qed.

(** What [get_current_user] returns for a token the server issued for an
    identifier, before the token's expiry. *)
Lemma issued_token_resolves (sch : string) (oid : bson.ObjectId) (T now : Z)
    (s : db) (u : user_doc) :
  (oid < 2 ^ 96)%N ->
  now < expiry T * 1000000 ->
  List.find (fun x => N.eqb (user__id x) oid) (users s) = Some u ->
  get_current_user
    {| scheme := sch;
       credentials := create_access_token {[ "user_id" := VStr (bson.str oid) ]} T |}
    now s
  = (Returns u, s).
Proof.
  intros Hoid Hnow Hfind.
  unfold get_current_user, try_except, bind, lift, find_one_user, raise, ret.
  cbn [credentials]. rewrite decode_access_token by apply user_id_only.
  destruct (Z.leb_spec (expiry T * 1000000) now); [lia|].
  unfold dict_get. rewrite lookup_insert_ne by discriminate.
  rewrite lookup_singleton_eq. cbn [bson.ObjectId_of].
  rewrite (ObjectId_of_str_str oid Hoid). rewrite Hfind. reflexivity.
Qed.

(** And from its expiry on. *)
Lemma issued_token_expires (sch : string) (v : value) (T now : Z) (s : db) :
  expiry T * 1000000 <= now ->
  get_current_user
    {| scheme := sch; credentials := create_access_token {[ "user_id" := v ]} T |}
    now s
  = (Raises (HTTPException 401 "Token has expired"), s).
Proof.
  intros Hnow. apply resolution_failure_raises. apply TokenExpired.
  unfold decoded. cbn [credentials].
  rewrite decode_access_token by apply user_id_only.
  destruct (Z.leb_spec (expiry T * 1000000) now); [reflexivity | lia].
Qed.

(** X3. After a [register] that returned, a [login] with the same email and
    password returns: it leaves the store as it is and answers with the same
    public view of the user and a token for the same identifier. *)
Theorem register_then_login (d : UserRegister) (salt_bits : N) (t t' now : Z)
    (s s1 : db) (r : Token) :
  register d salt_bits t t' s = (Returns r, s1) ->
  login {| login_email := register_email d; login_password := register_password d |}
    now s1
  = (Returns {| access_token :=
                  create_access_token {[ "user_id" := VStr (bson.str (next_id s)) ]} now;
                token_type := "bearer";
                user := user r |},
     s1).
Proof.
  intros Hreg.
  destruct (register_cases d salt_bits t t' s) as [[e He] | (hashed & Hfree & Hhash & He)];
    rewrite He in Hreg; [discriminate|].
  injection Hreg as <- <-.
  unfold login, bind, find_one_user, lift, raise, ret.
  cbn [users login_email login_password user].
  rewrite (find_app_none _ _ _ Hfree) by (cbn; apply String.eqb_refl).
  cbn [user_password user__id user_email user_name].
  rewrite (verify_own_hash _ _ _ Hhash). reflexivity.
Qed.

(** What a [register] that returned answered, and the user it stored. *)
Lemma register_returned (d : UserRegister) (salt_bits : N) (t t' : Z)
    (s s1 : db) (r : Token) :
  register d salt_bits t t' s = (Returns r, s1) ->
  ids_fresh s ->
  exists u,
    access_token r
    = create_access_token {[ "user_id" := VStr (bson.str (next_id s)) ]} t'
    /\ List.find (fun x => N.eqb (user__id x) (next_id s)) (users s1) = Some u
    /\ (In u (users s1)
        /\ user__id u = next_id s
        /\ user_email u = register_email d
        /\ user_name u = register_name d)
    /\ user r !! "id" = Some (VStr (bson.str (user__id u))).
Proof.
  intros Hreg (Hfresh & _).
  destruct (register_cases d salt_bits t t' s) as [[e He] | (hashed & Hfree & Hhash & He)];
    rewrite He in Hreg; [discriminate|].
  injection Hreg as <- <-.
  exists {| user__id := next_id s; user_email := register_email d;
            user_password := hashed; user_name := register_name d;
            user_created_at := bson.datetime t |}.
  refine (conj eq_refl (conj _ (conj (conj _ (conj eq_refl (conj eq_refl eq_refl))) _))).
  - cbn [users]. apply find_app_none; [|cbn [user__id]; apply N.eqb_refl].
    destruct (List.find (fun x => N.eqb (user__id x) (next_id s)) (users s))
      as [x|] eqn:Hfind; [|reflexivity].
    apply List.find_some in Hfind as [Hin Heq]. apply N.eqb_eq in Heq.
    rewrite List.Forall_forall in Hfresh. specialize (Hfresh x Hin).
    clear - Hfresh Heq. lia.
  - cbn [users]. apply List.in_or_app. right. left. reflexivity.
  - cbn [user user__id]. unfold user_view. apply lookup_insert_eq.
Qed.

(** The token of a [register] that returned, resolved on the store
    [register] left. *)
Lemma register_token_resolves_aux (d : UserRegister) (salt_bits : N) (t t' now : Z)
    (s s1 : db) (r : Token) (sch : string) :
  register d salt_bits t t' s = (Returns r, s1) ->
  ids_fresh s ->
  (next_id s < 2 ^ 96)%N ->
  now < expiry t' * 1000000 ->
  exists u,
    get_current_user {| scheme := sch; credentials := access_token r |} now s1
    = (Returns u, s1)
    /\ (In u (users s1)
        /\ user__id u = next_id s
        /\ user_email u = register_email d
        /\ user_name u = register_name d)
    /\ user r !! "id" = Some (VStr (bson.str (user__id u))).
Proof.
  intros Hreg Hfresh Hbound Hnow.
  destruct (register_returned d salt_bits t t' s s1 r Hreg Hfresh)
    as (u & Htok & Hfind & Hu & Hview).
  exists u. refine (conj _ (conj Hu Hview)).
  rewrite Htok. apply issued_token_resolves; assumption.
Qed.

(** X4. The token [register] returns resolves to the user [register]
    created from its issue until its expiry, and is refused as expired from
    the expiry on, provided the identifiers of the store are fresh and fit an
    ObjectId. The expiry is the issue instant cut to the whole second, plus 7
    days: an instant of the last second of the 7 days that follow the
    issue. *)
Theorem register_token_resolves (d : UserRegister) (salt_bits : N) (t t' now : Z)
    (s s1 : db) (r : Token) (sch : string) :
  register d salt_bits t t' s = (Returns r, s1) ->
  ids_fresh s ->
  (next_id s < 2 ^ 96)%N ->
  (now < expiry t' * 1000000 ->
   exists u,
     get_current_user {| scheme := sch; credentials := access_token r |} now s1
     = (Returns u, s1)
     /\ In u (users s1)
     /\ user__id u = next_id s
     /\ user_email u = register_email d
     /\ user_name u = register_name d
     /\ user r !! "id" = Some (VStr (bson.str (user__id u))))
  /\ (expiry t' * 1000000 <= now ->
      get_current_user {| scheme := sch; credentials := access_token r |} now s1
      = (Raises (HTTPException 401 "Token has expired"), s1))
  /\ t' + 7 * 86400 * 1000000 - 1000000 < expiry t' * 1000000
     <= t' + 7 * 86400 * 1000000.
Proof.
  intros Hreg Hfresh Hbound.
  refine (conj _ (conj _ (expiry_bounds t'))).
  - intros Hnow.
    destruct (register_token_resolves_aux d salt_bits t t' now s s1 r sch
                Hreg Hfresh Hbound Hnow)
      as (u & Hrun & (Hin & Hid & Hemail & Hname) & Hview).
    exists u. auto 10.
  - intros Hnow.
    destruct (register_returned d salt_bits t t' s s1 r Hreg Hfresh) as (u & -> & _).
    apply issued_token_expires. exact Hnow.
Qed.

(** X5. The token [login] returns resolves, from its issue until its
    expiry, to the user whose email and password were given, when no two
    users share an identifier: the public view of the response is that of the
    resolved user. From the expiry on it is refused as expired. The expiry is
    the issue instant cut to the whole second, plus 7 days. *)
Theorem login_token_resolves (c : UserLogin) (t now : Z) (s s' : db) (r : Token)
    (sch : string) :
  login c t s = (Returns r, s') ->
  ids_distinct s ->
  ids_fresh s ->
  (next_id s <= 2 ^ 96)%N ->
  (now < expiry t * 1000000 ->
   exists u,
     get_current_user {| scheme := sch; credentials := access_token r |} now s
     = (Returns u, s)
     /\ s' = s
     /\ user_email u = login_email c
     /\ verify_password (login_password c) (user_password u) = Returns true
     /\ user r = user_view (user__id u) (user_email u) (user_name u))
  /\ (expiry t * 1000000 <= now ->
      get_current_user {| scheme := sch; credentials := access_token r |} now s
      = (Raises (HTTPException 401 "Token has expired"), s)).
Proof.
  intros Hlogin (Hdistinct & _) (Hfresh & _) Hbound.
  revert Hlogin. unfold login, bind, find_one_user, lift, raise, ret.
  destruct (List.find _ (users s)) as [u|] eqn:Hfind; [|discriminate].
  destruct (verify_password _ _) as [[]|e] eqn:Hverify; cbn [negb]; try discriminate.
  intros H. injection H as <- <-.
  apply List.find_some in Hfind as [Hin Hemail]. apply String.eqb_eq in Hemail.
  cbn [access_token]. split.
  - intros Hnow. exists u.
    refine (conj _ (conj eq_refl (conj Hemail (conj Hverify eq_refl)))).
    apply issued_token_resolves; [|exact Hnow|].
    + rewrite List.Forall_forall in Hfresh. specialize (Hfresh u Hin).
      apply (N.lt_le_trans _ _ _ Hfresh Hbound).
    + apply find_unique; assumption.
  - intros Hnow. apply issued_token_expires. exact Hnow.
Qed.

(** *** Recipes *)

(** X6. [create_recipe] returns for every input: it appends one recipe and
    writes nothing else, and the recipe it returns is owned by the current
    user and dated with the clock reading. The store keeps that date in whole
    milliseconds, so [get_recipe] on the identifier returned gives the recipe
    back with its date cut to the millisecond, and the very same recipe
    exactly when the reading had no microseconds beyond them; this when the
    identifiers of the store are fresh and fit an ObjectId. *)
Theorem create_recipe_then_get_recipe (recipe_data : RecipeCreate) (u : user_doc)
    (now : Z) (s : db) :
  ids_fresh s ->
  (next_id s < 2 ^ 96)%N ->
  exists recipe s',
    create_recipe recipe_data u now s = (Returns recipe, s')
    /\ id recipe = Some (bson.str (next_id s))
    /\ created_by recipe = Some (bson.str (user__id u))
    /\ created_at recipe = Some now
    /\ users s' = users s /\ favorites s' = favorites s
    /\ length (recipes s') = S (length (recipes s))
    /\ get_recipe (bson.str (next_id s)) s'
       = (Returns {| id := id recipe;
                     name := name recipe;
                     category := category recipe;
                     ingredients := ingredients recipe;
                     steps := steps recipe;
                     cooking_time := cooking_time recipe;
                     difficulty := difficulty recipe;
                     image := image recipe;
                     created_by := created_by recipe;
                     created_at := Some (now / 1000 * 1000) |},
          s')
    /\ (get_recipe (bson.str (next_id s)) s' = (Returns recipe, s')
        <-> now mod 1000 = 0).
Proof.
  intros (_ & Hfresh & _) Hbound.
  unfold create_recipe, bind, insert_one_recipe, ret.
  eexists. eexists.
  assert (Hget : get_recipe (bson.str (next_id s))
            {| users := users s;
               recipes := recipes s ++ [ stored_recipe
                 {| recipe__id := next_id s;
                    recipe_name := create_name recipe_data;
                    recipe_category := create_category recipe_data;
                    recipe_ingredients := create_ingredients recipe_data;
                    recipe_steps := create_steps recipe_data;
                    recipe_cooking_time := create_cooking_time recipe_data;
                    recipe_difficulty := create_difficulty recipe_data;
                    recipe_image := create_image recipe_data;
                    recipe_created_by := Some (bson.str (user__id u));
                    recipe_created_at := Some now |} ];
               favorites := favorites s;
               next_id := N.succ (next_id s) |}
          = (Returns {| id := Some (bson.str (next_id s));
                        name := create_name recipe_data;
                        category := create_category recipe_data;
                        ingredients := create_ingredients recipe_data;
                        steps := create_steps recipe_data;
                        cooking_time := create_cooking_time recipe_data;
                        difficulty := create_difficulty recipe_data;
                        image := create_image recipe_data;
                        created_by := Some (bson.str (user__id u));
                        created_at := Some (now / 1000 * 1000) |},
             {| users := users s;
               recipes := recipes s ++ [ stored_recipe
                 {| recipe__id := next_id s;
                    recipe_name := create_name recipe_data;
                    recipe_category := create_category recipe_data;
                    recipe_ingredients := create_ingredients recipe_data;
                    recipe_steps := create_steps recipe_data;
                    recipe_cooking_time := create_cooking_time recipe_data;
                    recipe_difficulty := create_difficulty recipe_data;
                    recipe_image := create_image recipe_data;
                    recipe_created_by := Some (bson.str (user__id u));
                    recipe_created_at := Some now |} ];
               favorites := favorites s;
               next_id := N.succ (next_id s) |})).
  { unfold get_recipe, try_except, bind, lift, find_one_recipe, raise, ret.
    rewrite (ObjectId_of_str_str _ Hbound). cbn [recipes].
    erewrite find_app_none.
    - reflexivity.
    - destruct (List.find (fun r => N.eqb (recipe__id r) (next_id s)) (recipes s))
        as [x|] eqn:Hfind; [|reflexivity].
      apply List.find_some in Hfind as [Hin Heq]. apply N.eqb_eq in Heq.
      rewrite List.Forall_forall in Hfresh. specialize (Hfresh x Hin).
      clear - Hfresh Heq. lia.
    - cbn [recipe__id stored_recipe]. apply N.eqb_refl. }
  refine (conj eq_refl (conj eq_refl (conj eq_refl (conj eq_refl
            (conj eq_refl (conj eq_refl (conj _ (conj _ _)))))))).
  - cbn [recipes]. rewrite List.length_app. cbn [length]. lia.
  - exact Hget.
  - rewrite Hget. cbn [id name category ingredients steps cooking_time difficulty image
                       created_by created_at].
    pose proof (Z.div_mod now 1000 ltac:(discriminate)) as Hdiv.
    split.
    + intros H. injection H as H. lia.
    + intros H. assert (Hcut : now / 1000 * 1000 = now) by lia.
      rewrite Hcut. reflexivity.
Qed.

(** X7. From registration to a first recipe: when the bearer scheme
    extracts the token [register] returned, [POST /recipes] before the expiry
    of the token (its issue instant cut to the whole second, plus 7 days)
    stores a recipe whose [created_by] is the identifier in the public view
    of the registered user; from the expiry on it is refused as expired and
    stores nothing. *)
Theorem register_then_post_recipes (d : UserRegister) (salt_bits : N)
    (t t' now now' : Z) (s s1 : db) (r : Token) (req : request) (sch : string)
    (recipe_data : RecipeCreate) :
  register d salt_bits t t' s = (Returns r, s1) ->
  security req = Returns {| scheme := sch; credentials := access_token r |} ->
  ids_fresh s ->
  (next_id s < 2 ^ 96)%N ->
  (now < expiry t' * 1000000 ->
   exists recipe s2 uid,
     post_recipes req recipe_data now now' s1 = (Returns recipe, s2)
     /\ user r !! "id" = Some (VStr uid)
     /\ created_by recipe = Some uid
     /\ length (recipes s2) = S (length (recipes s1))
     /\ users s2 = users s1)
  /\ (expiry t' * 1000000 <= now ->
      post_recipes req recipe_data now now' s1
      = (Raises (HTTPException 401 "Token has expired"), s1)).
Proof.
  intros Hreg Hsec Hfresh Hbound. split.
  - intros Hnow.
    destruct (register_token_resolves_aux d salt_bits t t' now s s1 r sch
                Hreg Hfresh Hbound Hnow) as (u & Hrun & Hid & Hview).
    unfold post_recipes, Depends_current_user, bind, lift. rewrite Hsec, Hrun.
    unfold create_recipe, bind, insert_one_recipe, ret.
    eexists. eexists. exists (bson.str (user__id u)).
    refine (conj eq_refl (conj Hview (conj eq_refl (conj _ eq_refl)))).
    cbn [recipes]. rewrite List.length_app. cbn [length]. lia.
  - intros Hnow.
    destruct (register_returned d salt_bits t t' s s1 r Hreg Hfresh) as (u & Htok & _).
    unfold post_recipes, Depends_current_user, bind, lift. rewrite Hsec, Htok.
    rewrite (issued_token_expires sch _ t' now s1 Hnow). reflexivity.
Qed.

(** *** Favorites *)

Lemma remove_first_none {A} (p : A -> bool) (l : list A) :
  List.find p l = None -> remove_first p l = (l, 0).
Proof.
  induction l as [|z l IH]; simpl; [reflexivity|].
  destruct (p z); [discriminate|]. intros H. rewrite (IH H). reflexivity.
Qed.

Lemma remove_first_snoc {A} (p : A -> bool) (l : list A) (x : A) :
  List.find p l = None -> p x = true -> remove_first p (l ++ [x])%list = (l, 1).
Proof.
  intros Hnone Hx. induction l as [|z l IH]; simpl in *.
  - rewrite Hx. reflexivity.
  - destruct (p z); [discriminate|]. rewrite (IH Hnone). reflexivity.
Qed.

(** Removing the first element that satisfies [p] takes one away from the
    elements that satisfy [q] when that element satisfies [q], and none
    otherwise. *)
Lemma remove_first_count {A} (p q : A -> bool) (l : list A) (x : A) :
  List.find p l = Some x ->
  snd (remove_first p l) = 1
  /\ (length (List.filter q (fst (remove_first p l))) + (if q x then 1 else 0)
      = length (List.filter q l))%nat.
Proof.
  induction l as [|z l IH]; simpl; [discriminate|].
  destruct (p z) eqn:Hp.
  - intros [= ->]. split; [reflexivity|]. cbn [fst]. destruct (q x); simpl; lia.
  - intros Hfind. destruct (IH Hfind) as [Hn Hcount].
    destruct (remove_first p l) as [r n]. cbn [fst snd] in *. split; [exact Hn|].
    simpl. destruct (q z); simpl; lia.
Qed.

(** X8. Adding a favorite the pair did not have and removing it again
    restores the collections: only the counter of identifiers has moved. *)
Theorem add_then_remove_favorite (rid : string) (u : user_doc) (now : Z) (s : db) :
  List.find (favorite_filter u rid) (favorites s) = None ->
  exists s1,
    add_favorite {| recipe_id := rid |} u now s
    = (Returns {| message := "Added to favorites" |}, s1)
    /\ remove_favorite rid u s1
       = (Returns {| message := "Removed from favorites" |},
          {| users := users s; recipes := recipes s; favorites := favorites s;
             next_id := N.succ (next_id s) |}).
Proof.
  intros Hfind. eexists. split.
  - apply (add_favorite_new {| recipe_id := rid |} u now s). exact Hfind.
  - unfold remove_favorite, bind, delete_one_favorite, raise, ret.
    cbn [favorites recipe_id users recipes next_id].
    rewrite (remove_first_snoc _ _ _ Hfind); [reflexivity|].
    unfold favorite_filter. cbn [favorite_user_id favorite_recipe_id].
    rewrite !String.eqb_refl. reflexivity.
Qed.

(** X9. [remove_favorite] with no favorite for the pair raises 404
    "Favorite not found" and leaves the store as it was. With one, it returns
    "Removed from favorites", takes exactly one favorite of that pair away and
    leaves the favorites of every other pair, the users and the recipes as
    they were. *)
Theorem remove_favorite_effect (rid : string) (u : user_doc) (s : db) :
  match List.find (favorite_filter u rid) (favorites s) with
  | None =>
      remove_favorite rid u s = (Raises (HTTPException 404 "Favorite not found"), s)
  | Some _ =>
      exists s',
        remove_favorite rid u s = (Returns {| message := "Removed from favorites" |}, s')
        /\ users s' = users s /\ recipes s' = recipes s /\ next_id s' = next_id s
        /\ (count_favorite (bson.str (user__id u)) rid s' + 1
            = count_favorite (bson.str (user__id u)) rid s)%nat
        /\ forall uid' rid',
             String.eqb uid' (bson.str (user__id u)) && String.eqb rid' rid = false ->
             count_favorite uid' rid' s' = count_favorite uid' rid' s
  end.
Proof.
  destruct (List.find (favorite_filter u rid) (favorites s)) as [f|] eqn:Hfind.
  - apply List.find_some in Hfind as Hf. destruct Hf as [_ Hf].
    unfold remove_favorite, bind, delete_one_favorite, raise, ret.
    pose proof (fun q => remove_first_count (favorite_filter u rid) q _ _ Hfind) as Hcount.
    destruct (remove_first (favorite_filter u rid) (favorites s)) as [favs n].
    cbn [fst snd] in Hcount. destruct (Hcount (fun _ => true)) as [-> _].
    cbn [Z.eqb]. eexists.
    refine (conj eq_refl (conj eq_refl (conj eq_refl (conj eq_refl (conj _ _))))).
    + unfold count_favorite. cbn [favorites].
      destruct (Hcount (favorite_filter u rid)) as [_ H].
      unfold favorite_filter in H, Hf. rewrite Hf in H. exact H.
    + intros uid' rid' Hother. unfold count_favorite. cbn [favorites].
      destruct (Hcount (fun f => String.eqb (favorite_user_id f) uid'
                                 && String.eqb (favorite_recipe_id f) rid')) as [_ H].
      cbn beta in H.
      destruct (String.eqb (favorite_user_id f) uid'
                && String.eqb (favorite_recipe_id f) rid') eqn:Hq; [|lia].
      exfalso. unfold favorite_filter in Hf.
      apply andb_prop in Hf as [H1 H2]. apply andb_prop in Hq as [H3 H4].
      apply String.eqb_eq in H1, H2, H3, H4.
      rewrite <- H3, <- H4, H1, H2, !String.eqb_refl in Hother. discriminate.
  - unfold remove_favorite, bind, delete_one_favorite, raise, ret.
    rewrite (remove_first_none _ _ Hfind). cbn [Z.eqb]. destruct s; reflexivity.
Qed.

(** X10. [add_favorite] writes for the current user only: the favorite it
    stores, when it stores one, carries the identifier of the current user and
    the recipe identifier given, so the pair goes from no favorite to one and
    the count of every other pair is as before. *)
Theorem add_favorite_counts (favorite : FavoriteCreate) (u : user_doc) (now : Z)
    (s : db) (uid' rid' : string) :
  count_favorite uid' rid' (snd (add_favorite favorite u now s))
  = if String.eqb (bson.str (user__id u)) uid'
       && String.eqb (recipe_id favorite) rid'
       && Nat.eqb (count_favorite uid' rid' s) 0
    then 1%nat
    else count_favorite uid' rid' s.
Proof.
  destruct (List.find (favorite_filter u (recipe_id favorite)) (favorites s))
    as [f|] eqn:Hfind.
  - rewrite (add_favorite_existing favorite u now s f Hfind). cbn [snd].
    destruct (String.eqb (bson.str (user__id u)) uid') eqn:Hu; [|reflexivity].
    destruct (String.eqb (recipe_id favorite) rid') eqn:Hr; [|reflexivity].
    apply String.eqb_eq in Hu, Hr. subst uid' rid'. cbn [andb].
    apply List.find_some in Hfind as [Hin Hf].
    assert (Hpos : (0 < count_favorite (bson.str (user__id u)) (recipe_id favorite) s)%nat).
    { unfold count_favorite.
      assert (Hin' : In f (List.filter (favorite_filter u (recipe_id favorite))
                             (favorites s))) by (apply List.filter_In; auto).
      unfold favorite_filter in Hin'.
      destruct (List.filter _ (favorites s)); [contradiction | simpl; lia]. }
    destruct (Nat.eqb_spec (count_favorite (bson.str (user__id u)) (recipe_id favorite) s) 0);
      [lia | reflexivity].
  - rewrite (add_favorite_new favorite u now s Hfind). cbn [snd].
    unfold count_favorite at 1. cbn [favorites].
    rewrite List.filter_app, List.length_app.
    cbn [List.filter favorite_user_id favorite_recipe_id].
    fold (count_favorite uid' rid' s).
    destruct (String.eqb (bson.str (user__id u)) uid') eqn:Hu; cbn [andb length];
      [|lia].
    destruct (String.eqb (recipe_id favorite) rid') eqn:Hr; cbn [andb length]; [|lia].
    apply String.eqb_eq in Hu, Hr. subst uid' rid'.
    pose proof (find_none_filter _ _ Hfind) as Hnil.
    unfold count_favorite. unfold favorite_filter in Hnil. rewrite Hnil. reflexivity.
Qed.

Lemma firstn_incl {A} (n : nat) (l : list A) (x : A) : In x (firstn n l) -> In x l.
Proof.
  revert l. induction n as [|n IH]; intros l; [intros []|].
  destruct l as [|z l]; [intros []|]. cbn [firstn]. intros [->|H]; [left|right]; auto.
Qed.

(** One favorite whose recipe identifier is not the text of an ObjectId
    makes the whole conversion raise. *)
Lemma recipe_ids_of_raises (favs : list favorite_doc) (f : favorite_doc) (e : exn) :
  In f favs ->
  bson.ObjectId_of_str (favorite_recipe_id f) = Raises e ->
  recipe_ids_of favs = Raises InvalidId.
Proof.
  intros Hin Hbad. induction favs as [|g favs IH]; [contradiction|].
  cbn [recipe_ids_of].
  destruct (bson.ObjectId_of_str (favorite_recipe_id g)) as [oid|e'] eqn:Hg;
    cbn [outcome_bind].
  - destruct Hin as [-> | Hin]; [congruence|]. rewrite (IH Hin). reflexivity.
  - apply ObjectId_of_str_raises in Hg. subst e'. reflexivity.
Qed.

Lemma recipe_ids_of_returns (favs : list favorite_doc) (oids : list bson.ObjectId) :
  recipe_ids_of favs = Returns oids ->
  forall oid, In oid oids ->
    exists f, In f favs /\ bson.ObjectId_of_str (favorite_recipe_id f) = Returns oid.
Proof.
  revert oids. induction favs as [|g favs IH]; intros oids; cbn [recipe_ids_of].
  - intros [= <-] oid [].
  - destruct (bson.ObjectId_of_str (favorite_recipe_id g)) as [o|e] eqn:Hg;
      cbn [outcome_bind]; [|discriminate].
    destruct (recipe_ids_of favs) as [os|e]; cbn [outcome_bind]; [|discriminate].
    intros [= <-] oid [<- | Hin].
    + exists g. split; [left; reflexivity | exact Hg].
    + destruct (IH os eq_refl oid Hin) as (f & Hf & Hoid).
      exists f. split; [right; exact Hf | exact Hoid].
Qed.

(** X11. [add_favorite] takes any string as a recipe identifier. Once a user
    has added one that is not the text of an ObjectId (and has fewer than 1000
    favorites), [get_favorites] for that user raises [InvalidId], which the
    caller sees as a 500, and it does so until the favorite is removed. *)
Theorem malformed_favorite_breaks_listing (rid : string) (u : user_doc) (now : Z)
    (s : db) (e : exn) :
  bson.ObjectId_of_str rid = Raises e ->
  List.find (favorite_filter u rid) (favorites s) = None ->
  (length (favorites_of u s) < 1000)%nat ->
  exists s1,
    add_favorite {| recipe_id := rid |} u now s
    = (Returns {| message := "Added to favorites" |}, s1)
    /\ get_favorites u s1 = (Raises InvalidId, s1)
    /\ respond (fst (get_favorites u s1))
       = {| status := 500; error_detail := Some "Internal Server Error" |}.
Proof.
  intros Hbad Hfind Hfew. eexists. split.
  - apply (add_favorite_new {| recipe_id := rid |} u now s). exact Hfind.
  - assert (Hrun : forall s1, favorites s1
                = (favorites s ++ [ {| favorite__id := next_id s;
                                       favorite_user_id := bson.str (user__id u);
                                       favorite_recipe_id := rid;
                                       favorite_created_at :=
                                         bson.datetime now |} ])%list ->
              get_favorites u s1 = (Raises InvalidId, s1)).
    { intros s1 Hfavs. unfold get_favorites. rewrite Hfavs, List.filter_app.
      cbn [List.filter favorite_user_id]. rewrite String.eqb_refl.
      rewrite List.firstn_all2.
      2:{ rewrite List.length_app. cbn [length]. unfold favorites_of in Hfew. lia. }
      rewrite (recipe_ids_of_raises _
                 {| favorite__id := next_id s;
                    favorite_user_id := bson.str (user__id u);
                    favorite_recipe_id := rid;
                    favorite_created_at := bson.datetime now |} e);
        [reflexivity | | exact Hbad].
      apply List.in_or_app. right. left. reflexivity. }
    cbn [recipe_id]. rewrite Hrun by reflexivity. split; reflexivity.
Qed.

(** X12. [get_favorites] only reads. When it returns, it returns at most
    1000 recipes, and each of them is a recipe of the store whose identifier
    is written in a favorite of the current user: the favorites of other users
    give nothing. *)
Theorem get_favorites_sound (u : user_doc) (s s' : db) (rs : list Recipe) :
  get_favorites u s = (Returns rs, s') ->
  s' = s
  /\ (length rs <= 1000)%nat
  /\ Forall
       (fun r =>
          exists doc f,
            In doc (recipes s) /\ r = Recipe_of_doc doc
            /\ In f (favorites s)
            /\ favorite_user_id f = bson.str (user__id u)
            /\ bson.ObjectId_of_str (favorite_recipe_id f) = Returns (recipe__id doc))
       rs.
Proof.
  unfold get_favorites.
  destruct (recipe_ids_of _) as [oids|e] eqn:Hids; [|discriminate].
  intros [= <- <-]. split; [reflexivity|]. split.
  - rewrite List.length_map. apply List.firstn_le_length.
  - apply List.Forall_forall. intros r Hr.
    apply List.in_map_iff in Hr as (doc & <- & Hdoc).
    apply firstn_incl in Hdoc. apply List.filter_In in Hdoc as [Hdoc Hex].
    apply List.existsb_exists in Hex as (oid & Hoid & Heq).
    apply N.eqb_eq in Heq. subst oid.
    destruct (recipe_ids_of_returns _ _ Hids _ Hoid) as (f & Hf & Hparse).
    apply firstn_incl in Hf. apply List.filter_In in Hf as [Hf Hown].
    apply String.eqb_eq in Hown.
    exists doc, f. auto.
Qed.

(** *** The public listing and the seeding *)

(** X13. [get_recipes] only reads and returns at most 1000 recipes. With no
    category, or with the empty string as category, it lists the recipes of
    the store in order; with any other category it lists, in order, exactly
    the recipes stored under that category. *)
Theorem get_recipes_by_category (category : option string) (s : db) :
  exists rs,
    get_recipes category s = (Returns rs, s)
    /\ (length rs <= 1000)%nat
    /\ rs = List.map Recipe_of_doc
              (firstn 1000
                 (match category with
                  | None => recipes s
                  | Some c =>
                      if String.eqb c ""
                      then recipes s
                      else List.filter (fun r => String.eqb (recipe_category r) c)
                             (recipes s)
                  end)).
Proof.
  assert (Hall : List.filter (query_matches ∅) (recipes s) = recipes s).
  { induction (recipes s) as [|r l IH]; [reflexivity|].
    cbn [List.filter]. unfold query_matches at 1. rewrite lookup_empty.
    rewrite IH. reflexivity. }
  unfold get_recipes, bind, find_recipes, ret.
  eexists. split; [reflexivity|]. split.
  - rewrite List.length_map. apply List.firstn_le_length.
  - destruct category as [c|]; [|rewrite Hall; reflexivity].
    destruct (String.eqb c ""); [rewrite Hall; reflexivity|].
    apply (f_equal (List.map Recipe_of_doc)), (f_equal (firstn 1000)).
    apply List.filter_ext. intros r.
    unfold query_matches. rewrite lookup_insert_eq. reflexivity.
Qed.

(** X14. [startup_db] seeds only an empty recipes collection. On a store
    that has a recipe it writes nothing; on a store that has none it inserts
    the 15 sample recipes and writes nothing else; so running it a second time
    changes nothing. *)
Theorem startup_db_idempotent (clock clock' : nat -> Z) (s : db) :
  snd (startup_db clock' (snd (startup_db clock s))) = snd (startup_db clock s)
  /\ (recipes s <> [] -> startup_db clock s = (Returns tt, s))
  /\ (recipes s = [] ->
      length (recipes (snd (startup_db clock s))) = 15%nat
      /\ users (snd (startup_db clock s)) = users s
      /\ favorites (snd (startup_db clock s)) = favorites s).
Proof.
  assert (Hfull : forall s0, recipes s0 <> [] -> startup_db clock' s0 = (Returns tt, s0)
                             /\ startup_db clock s0 = (Returns tt, s0)).
  { intros s0 Hne. unfold startup_db, bind, count_documents_recipes, ret.
    destruct (recipes s0); [congruence|]. split; reflexivity. }
  assert (Hempty : recipes s = [] ->
            length (recipes (snd (startup_db clock s))) = 15%nat
            /\ users (snd (startup_db clock s)) = users s
            /\ favorites (snd (startup_db clock s)) = favorites s).
  { intros Hnil. unfold startup_db, bind, count_documents_recipes, ret.
    rewrite Hnil. cbn [length Nat.eqb].
    destruct (insert_many_recipes_store (sample_recipes clock) s)
      as (added & Hlen & ->).
    cbn [snd recipes users favorites]. rewrite Hnil, List.app_nil_l, Hlen.
    repeat split. }
  split; [|split].
  - destruct (recipes s) as [|r l] eqn:Hrec.
    + destruct (Hempty eq_refl) as (Hlen & _).
      destruct (Hfull (snd (startup_db clock s))) as [-> _]; [|reflexivity].
      intros Hnil. rewrite Hnil in Hlen. discriminate.
    + assert (Hne : recipes s <> []) by (rewrite Hrec; discriminate).
      destruct (Hfull s Hne) as [_ ->]. cbn [snd].
      destruct (Hfull s Hne) as [-> _]. reflexivity.
  - intros Hne. apply Hfull. exact Hne.
  - exact Hempty.
Qed.

(** X15. [register] writes all or nothing: when it raises the store is as
    it was; when it returns it has appended exactly one user, dated with the
    clock reading cut to the millisecond, and moved the counter of
    identifiers by one. The password field of that user is a 60-byte string
    of bcrypt layout that [verify_password] accepts for the password
    given. *)
Theorem register_all_or_nothing (d : UserRegister) (salt_bits : N) (t t' : Z) (s : db) :
  match register d salt_bits t t' s with
  | (Raises _, s') => s' = s
  | (Returns r, s') =>
      exists u h,
        users s' = (users s ++ [u])%list
        /\ recipes s' = recipes s /\ favorites s' = favorites s
        /\ next_id s' = N.succ (next_id s)
        /\ user_email u = register_email d
        /\ user_name u = register_name d
        /\ user_created_at u = t / 1000 * 1000
        /\ passlib.from_string (user_password u) = Returns h
        /\ String.length (user_password u) = 60%nat
        /\ verify_password (register_password d) (user_password u) = Returns true
  end.
Proof.
  destruct (register_cases d salt_bits t t' s) as [[e ->] | (hashed & Hfree & Hhash & ->)];
    [reflexivity|].
  eexists. eexists.
  refine (conj eq_refl (conj eq_refl (conj eq_refl (conj eq_refl
            (conj eq_refl (conj eq_refl (conj eq_refl _))))))).
  cbn [user_password].
  pose proof (verify_own_hash _ _ _ Hhash) as Hverify.
  apply hash_password_returns in Hhash as [Hacc ->].
  unfold checksum_of.
  split; [apply from_string_hash|]. split; [|exact Hverify].
  unfold passlib.salt_str, passlib.checksum_str.
  rewrite !string_length_app, !b64_length. reflexivity.
Qed.

(** *** What a resolved identity proves *)

(** X16. [get_current_user] returns a user only for a token that parses,
    names the algorithm HS256, carries the signature of its claims under the
    server's secret and, when it has a number as [exp] claim, has not reached
    that second; the
    user returned is a user of the store whose identifier is the one the
    [user_id] claim writes. The store is left as it was. *)
Theorem get_current_user_sound (creds : HTTPAuthorizationCredentials) (now : Z)
    (s s' : db) (u : user_doc) :
  get_current_user creds now s = (Returns u, s') ->
  exists claims uid,
    credentials creds = jwt.Compact ALGORITHM claims (sign ALGORITHM SECRET_KEY claims)
    /\ (forall exp, claims !! "exp" = Some (VInt exp) -> now < exp * 1000000)
    /\ claims !! "user_id" = Some (VStr uid)
    /\ bson.ObjectId_of_str uid = Returns (user__id u)
    /\ In u (users s)
    /\ s' = s.
Proof.
  unfold get_current_user, try_except, bind, lift, find_one_user, raise, ret.
  destruct (jwt.decode sign int_of_str (credentials creds) SECRET_KEY [ALGORITHM] now)
    as [payload|d] eqn:Hd; [|destruct d; discriminate].
  unfold dict_get.
  destruct (payload !! "user_id") as [[uid|n|]|] eqn:Hget; cbn [bson.ObjectId_of];
    try discriminate.
  destruct (bson.ObjectId_of_str uid) as [oid|d] eqn:Hoid; [|destruct d; discriminate].
  destruct (List.find _ (users s)) as [u0|] eqn:Hfind; [|discriminate].
  intros H. injection H as <- <-.
  apply List.find_some in Hfind as [Hin Hid]. apply N.eqb_eq in Hid.
  unfold jwt.decode in Hd.
  destruct (credentials creds) as [raw|alg claims sg]; [discriminate|].
  destruct (existsb (String.eqb alg) [ALGORITHM]) eqn:Halg; cbn [negb] in Hd;
    [|discriminate].
  destruct (String.eqb sg (sign alg SECRET_KEY claims)) eqn:Hsig; cbn [negb] in Hd;
    [|discriminate].
  cbn [existsb] in Halg. rewrite Bool.orb_false_r in Halg.
  apply String.eqb_eq in Halg, Hsig. subst alg sg.
  assert (Hclaims : payload = claims
                    /\ forall exp, claims !! "exp" = Some (VInt exp)
                                   -> now < exp * 1000000).
  { unfold jwt.validate_claims in Hd.
    destruct (jwt.validate_iat int_of_str claims now) as [[]|e1]; cbn [outcome_bind] in Hd;
      [|discriminate].
    destruct (jwt.validate_nbf int_of_str claims now) as [[]|e1]; cbn [outcome_bind] in Hd;
      [|discriminate].
    destruct (jwt.validate_exp int_of_str claims now) as [[]|e1] eqn:Hexp;
      cbn [outcome_bind] in Hd; [|discriminate].
    destruct (jwt.validate_aud claims) as [[]|e1]; cbn [outcome_bind] in Hd;
      [|discriminate].
    destruct (jwt.validate_sub claims) as [[]|e1]; cbn [outcome_bind] in Hd;
      [|discriminate].
    destruct (jwt.validate_jti claims) as [[]|e1]; cbn [outcome_bind] in Hd;
      [|discriminate].
    apply Returns_inj in Hd. split; [symmetry; exact Hd|].
    intros exp Hclaim. unfold jwt.validate_exp in Hexp. rewrite Hclaim in Hexp.
    cbn [jwt.int_of outcome_bind] in Hexp.
    destruct (Z.leb_spec (exp * 1000000) now); [discriminate | assumption]. }
  destruct Hclaims as [-> Hexp].
  exists claims, uid. rewrite <- Hid in Hoid. auto 10.
Qed.

(** X17. [login] returns only when a user of the store has the email given
    and [verify_password] returns true for the password given against that
    user's stored hash; it then answers with that user's identifier, email
    and name, a bearer token for that identifier, and an unchanged store. *)
Theorem login_sound (c : UserLogin) (t : Z) (s s' : db) (r : Token) :
  login c t s = (Returns r, s') ->
  exists u,
    In u (users s)
    /\ user_email u = login_email c
    /\ verify_password (login_password c) (user_password u) = Returns true
    /\ r = {| access_token :=
                create_access_token {[ "user_id" := VStr (bson.str (user__id u)) ]} t;
              token_type := "bearer";
              user := user_view (user__id u) (user_email u) (user_name u) |}
    /\ s' = s.
Proof.
  unfold login, bind, find_one_user, lift, raise, ret.
  destruct (List.find _ (users s)) as [u|] eqn:Hfind; [|discriminate].
  destruct (verify_password _ _) as [[]|e] eqn:Hverify; cbn [negb]; try discriminate.
  intros H. injection H as <- <-.
  apply List.find_some in Hfind as [Hin Hemail]. apply String.eqb_eq in Hemail.
  exists u. auto.
Qed.

(** *** Requests that overlap *)






End Server.

(** ** The handlers on concrete requests

    Instants are written in microseconds: 1000900000 is 1000.9 seconds after
    the epoch, and a token issued then has 605800 as its [exp]. *)

Example seventy_two_bytes_length : String.length Sample.seventy_two_bytes = 72%nat.
Proof. reflexivity. Qed.

Example register_on_empty_store :
  snd (register Sample.SECRET_KEY Sample.digest Sample.sign Sample.register_alice
         7 1000900000 1000900000 Sample.empty_store) = Sample.store.
Proof. vm_compute. reflexivity. Qed.

(** A validly signed token whose [user_id] is not the text of an ObjectId:
    [ObjectId(user_id)] raises [InvalidId], which no [except] clause of
    [get_current_user] names, and the caller is answered a 500. *)
Example malformed_identifier_is_not_caught :
  get_current_user Sample.SECRET_KEY Sample.sign Sample.int_of_str
    (Sample.bearer (Sample.token_for (VStr "not-an-object-id") 605800))
    1000900000 Sample.store
  = (Raises InvalidId, Sample.store)
  /\ respond (A:=user_doc) (Raises InvalidId)
     = {| status := 500; error_detail := Some "Internal Server Error" |}.
Proof. split; vm_compute; reflexivity. Qed.

(** C1, as stated, fails: three identity-resolution failures (an expired
    token, a string that is no token, a token of a user that is not in the
    store) are answered 401 with three different messages, each naming its
    reason. *)
Lemma identity_failure_messages_differ :
  respond (fst (get_current_user Sample.SECRET_KEY Sample.sign Sample.int_of_str
                  (Sample.bearer (Sample.token_for (VStr Sample.alice_id) 605800))
                  700000000000 Sample.store))
  = {| status := 401; error_detail := Some "Token has expired" |}
  /\ respond (fst (get_current_user Sample.SECRET_KEY Sample.sign Sample.int_of_str
                     (Sample.bearer (jwt.Garbage "abc")) 700000000000 Sample.store))
     = {| status := 401; error_detail := Some "Could not validate credentials" |}
  /\ respond (fst (get_current_user Sample.SECRET_KEY Sample.sign Sample.int_of_str
                     (Sample.bearer
                        (Sample.token_for (VStr "000000000000000000000009") 605800))
                     1000900000 Sample.store))
     = {| status := 401; error_detail := Some "User not found" |}.
Proof. repeat split; vm_compute; reflexivity. Qed.

Lemma identity_failures_are_401_witness :
  exists detail,
    resolution_failure Sample.SECRET_KEY Sample.sign Sample.int_of_str
      (Sample.bearer (Sample.token_for (VStr "000000000000000000000009") 605800))
      1000900000 Sample.store detail
    /\ HTTPException 401 "User not found" = HTTPException 401 detail
    /\ Sample.store = Sample.store
    /\ respond (A:=user_doc) (Raises (HTTPException 401 "User not found"))
       = {| status := 401; error_detail := Some detail |}.
Proof.
  refine (proj1 (identity_failures_are_401 Sample.SECRET_KEY Sample.sign
                   Sample.int_of_str
                   (Sample.bearer (Sample.token_for (VStr "000000000000000000000009") 605800))
                   1000900000 Sample.store Sample.store
                   (HTTPException 401 "User not found") _ _) _).
  - intros payload Hd. vm_compute in Hd. apply Returns_inj in Hd. subst payload.
    right. exists "000000000000000000000009", 9%N.
    split; [|split]; vm_compute; reflexivity.
  - unfold dates_not_null. cbn [Sample.bearer credentials Sample.token_for jwt.encode].
    repeat (constructor; [intros H; vm_compute in H; discriminate H|]). constructor.
  - vm_compute. reflexivity.
Defined.

(** C2, as stated, fails: on a string that is not a hash [verify_password]
    raises instead of returning false. *)
Lemma verify_password_raises_on_non_hash :
  verify_password Sample.digest "pw123" "not-a-hash" = Raises UnknownHashError.
Proof. vm_compute. reflexivity. Qed.

Lemma verify_password_on_strings_witness :
  passlib.identify "plaintext-left-in-the-store" = false
  /\ verify_password Sample.digest "pw123" "plaintext-left-in-the-store"
     = Raises UnknownHashError.
Proof.
  assert (H : passlib.identify "plaintext-left-in-the-store" = false)
    by (vm_compute; reflexivity).
  split; [exact H|].
  exact (proj1 (proj2 (proj2
           (verify_password_on_strings Sample.digest "pw123"
              "plaintext-left-in-the-store"))) H).
Defined.

(** Strings of bcrypt layout that are no hash: a checksum written outside the
    alphabet, a cost of 99, and a hash cut after its salt. On each
    [verify_password] raises. *)
Example verify_password_on_malformed_hashes :
  verify_password Sample.digest "pw123"
    "$2b$12$......................!!!!!!!!!!!!!!!!!!!!!!!!!!!!!!!"
  = Raises MalformedHashError
  /\ verify_password Sample.digest "pw123"
       "$2b$99$.......................rrrrrrrrrrrrrrrrrrrrrrrrrrrrrr"
     = Raises MalformedHashError
  /\ verify_password Sample.digest "pw123" "$2b$12$......................"
     = Raises MissingDigestError.
Proof. repeat split; vm_compute; reflexivity. Qed.

(** C3, as stated, fails. A token issued at 1000.9 seconds embeds the expiry
    605800, not 605800.9, and is refused at 605800 seconds, less than 7 days
    after its issue. A token issued for claims that name a date before which
    it is not valid is refused before that date, and a token that decodes
    yields the claims together with the expiry, not the claims alone. *)
Lemma token_refused_before_seven_days :
  jwt.decode Sample.sign Sample.int_of_str
    (create_access_token Sample.SECRET_KEY Sample.sign
       {[ "user_id" := VStr Sample.alice_id ]} 1000900000)
    Sample.SECRET_KEY [ALGORITHM] 605800000000
  = Raises ExpiredSignatureError
  /\ (605800000000 - 1000900000 <? 7 * 86400 * 1000000) = true
  /\ create_access_token Sample.SECRET_KEY Sample.sign
       {[ "user_id" := VStr Sample.alice_id ]} 1000900000
     = Sample.token_for (VStr Sample.alice_id) 605800
  /\ (605800 * 1000000 =? 1000900000 + 7 * 86400 * 1000000) = false
  /\ jwt.decode Sample.sign Sample.int_of_str
       (create_access_token Sample.SECRET_KEY Sample.sign
          (Sample.not_before 2000) 1000900000)
       Sample.SECRET_KEY [ALGORITHM] 1000900001
     = Raises ImmatureSignatureError
  /\ (exists payload,
        jwt.decode Sample.sign Sample.int_of_str
          (create_access_token Sample.SECRET_KEY Sample.sign
             {[ "user_id" := VStr Sample.alice_id ]} 1000900000)
          Sample.SECRET_KEY [ALGORITHM] 1000900001
        = Returns payload
        /\ payload !! "exp" = Some (VInt 605800)
        /\ ({[ "user_id" := VStr Sample.alice_id ]} : gmap string value) !! "exp" = None).
Proof.
  refine (conj _ (conj _ (conj _ (conj _ (conj _ _))))); try (vm_compute; reflexivity).
  eexists. split; [vm_compute; reflexivity|]. split; vm_compute; reflexivity.
Qed.

Lemma token_valid_for_seven_days_witness :
  exists payload,
    jwt.decode Sample.sign Sample.int_of_str
      (create_access_token Sample.SECRET_KEY Sample.sign
         {[ "user_id" := VStr Sample.alice_id ]} 1000900000)
      Sample.SECRET_KEY [ALGORITHM] 2000000000 = Returns payload
    /\ payload !! "exp" = Some (VInt (expiry 1000900000))
    /\ delete "exp" payload = {[ "user_id" := VStr Sample.alice_id ]}
    /\ dict_get payload "user_id" = dict_get {[ "user_id" := VStr Sample.alice_id ]} "user_id".
Proof.
  assert (HC : no_registered_claim {[ "user_id" := VStr Sample.alice_id ]}).
  { unfold no_registered_claim.
    repeat (constructor; [apply lookup_singleton_ne; discriminate|]). constructor. }
  assert (Hnow : 2000000000 < expiry 1000900000 * 1000000) by reflexivity.
  exact (proj1 (proj2 (proj2
           (token_valid_for_seven_days Sample.SECRET_KEY Sample.sign Sample.int_of_str
              {[ "user_id" := VStr Sample.alice_id ]} 1000900000 2000000000 HC)))
           Hnow).
Defined.

(** C4, as stated, fails: two distinct passwords that agree on their first 72
    bytes verify against each other's hash. *)
Lemma distinct_passwords_verify :
  String.eqb Sample.long_x Sample.long_y = false
  /\ hash_password Sample.digest 7 Sample.long_y
     = Returns (Sample.hash_of 7 Sample.long_y)
  /\ verify_password Sample.digest Sample.long_x (Sample.hash_of 7 Sample.long_y)
     = Returns true.
Proof. repeat split; vm_compute; reflexivity. Qed.

Lemma hash_then_verify_witness :
  hash_password Sample.digest 7 "pw123" = Returns (Sample.hash_of 7 "pw123")
  /\ verify_password Sample.digest "pw123" (Sample.hash_of 7 "pw123") = Returns true.
Proof.
  assert (H : hash_password Sample.digest 7 "pw123" = Returns (Sample.hash_of 7 "pw123"))
    by (vm_compute; reflexivity).
  split; [exact H|].
  exact (proj1 (hash_then_verify Sample.digest 7 "pw123" (Sample.hash_of 7 "pw123") H)).
Defined.

Example login_rejections_on_sample_store :
  login Sample.SECRET_KEY Sample.digest Sample.sign Sample.login_unknown 1000900000
    Sample.store
  = (Raises (HTTPException 401 "Incorrect email or password"), Sample.store)
  /\ login Sample.SECRET_KEY Sample.digest Sample.sign Sample.login_wrong 2000000000
       Sample.store
     = login Sample.SECRET_KEY Sample.digest Sample.sign Sample.login_unknown 1000900000
         Sample.store.
Proof.
  assert (H1 : login_rejected Sample.digest Sample.store Sample.login_unknown).
  { apply NoSuchEmail. vm_compute. reflexivity. }
  assert (H2 : login_rejected Sample.digest Sample.store Sample.login_wrong).
  { apply (WrongPassword _ _ _ Sample.alice); vm_compute; reflexivity. }
  destruct (login_rejections_identical Sample.SECRET_KEY Sample.digest Sample.sign
              Sample.store Sample.login_unknown Sample.login_wrong 1000900000 2000000000
              H1 H2)
    as (Ha & Hb & _).
  split; [exact Ha | exact Hb].
Qed.

Lemma register_same_email_twice_witness :
  register Sample.SECRET_KEY Sample.digest Sample.sign Sample.register_again
    8 2000000000 2000000000 Sample.store
  = (Raises (HTTPException 400 "Email already registered"), Sample.store)
  /\ count_email "a@x.com" Sample.store = 1%nat.
Proof.
  eapply (register_same_email_twice Sample.SECRET_KEY Sample.digest Sample.sign
            Sample.register_alice Sample.register_again 7 8 1000900000 1000900000
            2000000000 2000000000 Sample.empty_store Sample.store).
  - vm_compute. reflexivity.
  - reflexivity.
Defined.

Lemma user_view_excludes_password_witness :
  exists r,
    fst (register Sample.SECRET_KEY Sample.digest Sample.sign Sample.register_alice
           7 1000900000 1000900000 Sample.empty_store) = Returns r
    /\ dom (user r) = {[ "id"; "email"; "name" ]}
    /\ user r !! "password" = None
    /\ user r !! "email" = Some (VStr "a@x.com").
Proof.
  destruct (register Sample.SECRET_KEY Sample.digest Sample.sign Sample.register_alice
              7 1000900000 1000900000 Sample.empty_store) as [[r|e] s'] eqn:Hrun.
  - exists r. split; [reflexivity|].
    destruct (user_view_excludes_password Sample.SECRET_KEY Sample.digest Sample.sign
                Sample.empty_store r _ _ _
                (IssuedByRegister Sample.SECRET_KEY Sample.digest Sample.sign
                   Sample.empty_store Sample.register_alice 7 1000900000 1000900000
                   s' r Hrun))
      as (Hdom & Hpw & _ & Hemail & _).
    auto.
  - exfalso. vm_compute in Hrun. discriminate Hrun.
Defined.

Lemma add_favorite_idempotent_witness :
  add_favorite {| recipe_id := "000000000000000000000005" |} Sample.alice 2000000000
    (snd (add_favorite {| recipe_id := "000000000000000000000005" |} Sample.alice
            1000900000 Sample.store))
  = (Returns {| message := "Already in favorites" |},
     snd (add_favorite {| recipe_id := "000000000000000000000005" |} Sample.alice
            1000900000 Sample.store))
  /\ at_most_one_favorite
       (snd (add_favorite {| recipe_id := "000000000000000000000005" |} Sample.alice
               1000900000 Sample.store)).
Proof.
  assert (Hinv : at_most_one_favorite Sample.store).
  { intros uid rid. unfold count_favorite. simpl. lia. }
  destruct (add_favorite_idempotent {| recipe_id := "000000000000000000000005" |}
              Sample.alice 1000900000 2000000000 Sample.store _ _ Hinv
              (surjective_pairing
                 (add_favorite {| recipe_id := "000000000000000000000005" |}
                    Sample.alice 1000900000 Sample.store)))
    as (_ & Hagain & Hinv').
  split; [exact Hagain | exact Hinv'].
Defined.

(** A protected route called with no Authorization header, under the sample
    bearer scheme: the scheme's exception is the answer and nothing is
    written. *)
Example post_recipes_without_header :
  post_recipes Sample.SECRET_KEY Sample.sign Sample.int_of_str Sample.security
    Sample.no_header Sample.pasta 1000900000 1000900000 Sample.store
  = (Raises (HTTPException 403 "Not authenticated"), Sample.store).
Proof. vm_compute. reflexivity. Qed.

(** The same route with a token of [alice]: the recipe is stored with
    [created_by] set to her identifier, and returned with the reading of the
    clock as its date. *)
Example post_recipes_with_token :
  fst (post_recipes Sample.SECRET_KEY Sample.sign Sample.int_of_str Sample.security
         {| authorization := Some "Bearer alice-token" |} Sample.pasta
         1000900000 1000900123 Sample.store)
  = Returns {| id := Some "000000000000000000000002";
               name := "Pasta";
               category := "veg";
               ingredients := ["Pasta"; "Salt"];
               steps := ["Boil"];
               cooking_time := "10 minutes";
               difficulty := "easy";
               image := "pasta.png";
               created_by := Some Sample.alice_id;
               created_at := Some 1000900123 |}.
Proof. vm_compute. reflexivity. Qed.

Lemma get_recipe_found_or_404_witness :
  get_recipe "000000000000000000000002" Sample.kitchen
  = (Returns (Recipe_of_doc Sample.pasta_doc), Sample.kitchen)
  /\ bson.ObjectId_of_str "not-an-object-id" = Raises InvalidId
  /\ get_recipe "not-an-object-id" Sample.kitchen
     = (Raises (HTTPException 404 "Recipe not found"), Sample.kitchen).
Proof.
  assert (Hin : In Sample.pasta_doc (recipes Sample.kitchen)) by (left; reflexivity).
  assert (Hnodup : List.NoDup (List.map recipe__id (recipes Sample.kitchen)))
    by (repeat constructor; intros []).
  assert (Hbound : (recipe__id Sample.pasta_doc < 2 ^ 96)%N) by reflexivity.
  assert (H : bson.ObjectId_of_str "not-an-object-id" = Raises InvalidId)
    by (vm_compute; reflexivity).
  split; [|split; [exact H|]].
  - exact (proj1 (proj2 (proj2 (proj2
             (get_recipe_found_or_404 "000000000000000000000002" Sample.kitchen))))
             Sample.pasta_doc Hin Hnodup Hbound).
  - exact (proj2 (proj2 (proj2 (proj2
             (get_recipe_found_or_404 "not-an-object-id" Sample.kitchen))))
             InvalidId H).
Defined.

(** C5, on the code, fails for a password [verify_password] does not take.
    With the email of a user and a password that holds a NUL byte,
    [pwd_context.verify] raises, [login] lets the exception through and the
    caller is answered a 500; with an email no user has, the same password is
    answered the 401. The two answers tell whether the email is registered. *)
Lemma login_nul_password_is_a_500 :
  login Sample.SECRET_KEY Sample.digest Sample.sign Sample.login_nul 1000900000
    Sample.store
  = (Raises PasswordValueError, Sample.store)
  /\ respond (fst (login Sample.SECRET_KEY Sample.digest Sample.sign Sample.login_nul
                     1000900000 Sample.store))
     = {| status := 500; error_detail := Some "Internal Server Error" |}
  /\ respond (fst (login Sample.SECRET_KEY Sample.digest Sample.sign
                     Sample.login_unknown_nul 1000900000 Sample.store))
     = {| status := 401; error_detail := Some "Incorrect email or password" |}.
Proof. repeat split; vm_compute; reflexivity. Qed.

(** ** The further properties on concrete requests *)

Example register_alice_response :
  register Sample.SECRET_KEY Sample.digest Sample.sign Sample.register_alice
    7 1000900000 1000900000 Sample.empty_store
  = (Returns Sample.alice_response, Sample.store).
Proof. vm_compute. reflexivity. Qed.

Example login_alice_response :
  login Sample.SECRET_KEY Sample.digest Sample.sign Sample.login_alice 1000900000
    Sample.store
  = (Returns Sample.alice_response, Sample.store).
Proof. vm_compute. reflexivity. Qed.

Example ids_fresh_sample_store : ids_fresh Sample.store.
Proof. unfold ids_fresh. repeat split; repeat constructor. Qed.

Example ids_fresh_empty_store : ids_fresh Sample.empty_store.
Proof. unfold ids_fresh. repeat split; constructor. Qed.

(** The text of an ObjectId with white space among its digits is read as an
    ObjectId of fewer bytes, the identifier of no stored document. *)
Example ObjectId_of_spaced_text :
  bson.ObjectId_of_str "00 00 00 00 00 00 00 00 " = Returns (bson.short 8 0)
  /\ bson.ObjectId_of_str "0 0000000000000000000002" = Raises InvalidId.
Proof. split; vm_compute; reflexivity. Qed.

Lemma sequential_requests_keep_emails_unique_witness :
  emails_unique Sample.store.
Proof.
  apply (sequential_requests_keep_emails_unique Sample.SECRET_KEY Sample.digest
           Sample.sign Sample.int_of_str Sample.security).
  apply (reachable_step _ _ _ _ _ (empty_db 1%N)); [apply reachable_empty|].
  rewrite <- register_on_empty_store. apply step_register.
Defined.

Lemma register_then_login_witness :
  login Sample.SECRET_KEY Sample.digest Sample.sign Sample.login_alice 5000000000
    Sample.store
  = (Returns {| access_token :=
                  create_access_token Sample.SECRET_KEY Sample.sign
                    {[ "user_id" := VStr (bson.str (next_id Sample.empty_store)) ]}
                    5000000000;
                token_type := "bearer";
                user := user Sample.alice_response |},
     Sample.store).
Proof.
  exact (register_then_login Sample.SECRET_KEY Sample.digest Sample.sign
           Sample.register_alice 7 1000900000 1000900000 5000000000
           Sample.empty_store Sample.store
           Sample.alice_response register_alice_response).
Defined.

(** The token of [alice], issued at 1000.9 seconds: accepted one microsecond
    before 605800 seconds, refused at 605800 seconds. *)
Lemma register_token_resolves_witness :
  (exists u,
     get_current_user Sample.SECRET_KEY Sample.sign Sample.int_of_str
       (Sample.bearer (access_token Sample.alice_response)) 605799999999 Sample.store
     = (Returns u, Sample.store)
     /\ user__id u = 1%N /\ user_email u = "a@x.com")
  /\ get_current_user Sample.SECRET_KEY Sample.sign Sample.int_of_str
       (Sample.bearer (access_token Sample.alice_response)) 605800000000 Sample.store
     = (Raises (HTTPException 401 "Token has expired"), Sample.store).
Proof.
  assert (Hbound : (next_id Sample.empty_store < 2 ^ 96)%N) by reflexivity.
  assert (Hearly : 605799999999 < expiry 1000900000 * 1000000) by reflexivity.
  assert (Hlate : expiry 1000900000 * 1000000 <= 605800000000) by discriminate.
  split.
  - destruct (proj1 (register_token_resolves Sample.SECRET_KEY Sample.digest Sample.sign
                       Sample.int_of_str Sample.register_alice 7 1000900000 1000900000
                       605799999999 Sample.empty_store Sample.store
                       Sample.alice_response "Bearer" register_alice_response
                       ids_fresh_empty_store Hbound) Hearly)
      as (u & Hrun & _ & Hid & Hemail & _).
    exists u. auto.
  - exact (proj1 (proj2 (register_token_resolves Sample.SECRET_KEY Sample.digest
                           Sample.sign Sample.int_of_str Sample.register_alice 7
                           1000900000 1000900000 605800000000 Sample.empty_store
                           Sample.store Sample.alice_response "Bearer"
                           register_alice_response ids_fresh_empty_store Hbound))
             Hlate).
Defined.

Lemma login_token_resolves_witness :
  exists u,
    get_current_user Sample.SECRET_KEY Sample.sign Sample.int_of_str
      (Sample.bearer (access_token Sample.alice_response)) 2000000000 Sample.store
    = (Returns u, Sample.store)
    /\ user_email u = "a@x.com"
    /\ user Sample.alice_response = user_view (user__id u) (user_email u) (user_name u).
Proof.
  assert (Hdistinct : ids_distinct Sample.store).
  { unfold ids_distinct. repeat split; repeat constructor; intros []. }
  assert (Hbound : (next_id Sample.store <= 2 ^ 96)%N) by discriminate.
  assert (Hnow : 2000000000 < expiry 1000900000 * 1000000) by reflexivity.
  destruct (proj1 (login_token_resolves Sample.SECRET_KEY Sample.digest Sample.sign
                     Sample.int_of_str Sample.login_alice 1000900000 2000000000
                     Sample.store Sample.store Sample.alice_response "Bearer"
                     login_alice_response Hdistinct ids_fresh_sample_store Hbound) Hnow)
    as (u & Hrun & _ & Hemail & _ & Hview).
  exists u. auto.
Defined.

(** A recipe created at 1000.900123 seconds is read back dated 1000.900
    seconds. *)
Lemma create_recipe_then_get_recipe_witness :
  exists recipe s',
    create_recipe Sample.pasta Sample.alice 1000900123 Sample.store = (Returns recipe, s')
    /\ created_by recipe = Some Sample.alice_id
    /\ created_at recipe = Some 1000900123
    /\ fst (get_recipe "000000000000000000000002" s')
       = Returns (Recipe_of_doc Sample.pasta_doc).
Proof.
  assert (Hbound : (next_id Sample.store < 2 ^ 96)%N) by reflexivity.
  destruct (create_recipe_then_get_recipe Sample.pasta Sample.alice 1000900123
              Sample.store ids_fresh_sample_store Hbound)
    as (recipe & s' & Hrun & Hid & Hby & Hat & _ & _ & _ & Hget & _).
  exists recipe, s'. split; [exact Hrun|]. split; [exact Hby|]. split; [exact Hat|].
  change "000000000000000000000002" with (bson.str (next_id Sample.store)).
  rewrite Hget. cbn [fst]. f_equal.
  revert Hrun. unfold create_recipe, bind, insert_one_recipe, ret.
  intros H. injection H as <- _. vm_compute. reflexivity.
Defined.

Lemma register_then_post_recipes_witness :
  (exists recipe s2 uid,
     post_recipes Sample.SECRET_KEY Sample.sign Sample.int_of_str Sample.security
       Sample.with_token Sample.pasta 2000000000 2000000000 Sample.store
     = (Returns recipe, s2)
     /\ user Sample.alice_response !! "id" = Some (VStr uid)
     /\ created_by recipe = Some uid)
  /\ post_recipes Sample.SECRET_KEY Sample.sign Sample.int_of_str Sample.security
       Sample.with_token Sample.pasta 605800000000 605800000000 Sample.store
     = (Raises (HTTPException 401 "Token has expired"), Sample.store).
Proof.
  assert (Hsec : Sample.security Sample.with_token
                 = Returns {| scheme := "Bearer";
                              credentials := access_token Sample.alice_response |})
    by (vm_compute; reflexivity).
  assert (Hbound : (next_id Sample.empty_store < 2 ^ 96)%N) by reflexivity.
  assert (Hearly : 2000000000 < expiry 1000900000 * 1000000) by reflexivity.
  assert (Hlate : expiry 1000900000 * 1000000 <= 605800000000) by discriminate.
  split.
  - destruct (proj1 (register_then_post_recipes Sample.SECRET_KEY Sample.digest
                       Sample.sign Sample.int_of_str Sample.security
                       Sample.register_alice 7 1000900000 1000900000 2000000000
                       2000000000 Sample.empty_store Sample.store Sample.alice_response
                       Sample.with_token "Bearer" Sample.pasta register_alice_response
                       Hsec ids_fresh_empty_store Hbound) Hearly)
      as (recipe & s2 & uid & Hrun & Hview & Hby & _).
    exists recipe, s2, uid. auto.
  - exact (proj2 (register_then_post_recipes Sample.SECRET_KEY Sample.digest
                    Sample.sign Sample.int_of_str Sample.security
                    Sample.register_alice 7 1000900000 1000900000 605800000000
                    605800000000 Sample.empty_store Sample.store Sample.alice_response
                    Sample.with_token "Bearer" Sample.pasta register_alice_response
                    Hsec ids_fresh_empty_store Hbound) Hlate).
Defined.

Lemma add_then_remove_favorite_witness :
  exists s1,
    add_favorite {| recipe_id := "000000000000000000000002" |} Sample.alice 1000900000
      Sample.store
    = (Returns {| message := "Added to favorites" |}, s1)
    /\ remove_favorite "000000000000000000000002" Sample.alice s1
       = (Returns {| message := "Removed from favorites" |},
          {| users := users Sample.store; recipes := recipes Sample.store;
             favorites := favorites Sample.store;
             next_id := N.succ (next_id Sample.store) |}).
Proof.
  apply (add_then_remove_favorite "000000000000000000000002" Sample.alice 1000900000
           Sample.store).
  reflexivity.
Defined.

Lemma malformed_favorite_breaks_listing_witness :
  exists s1,
    add_favorite {| recipe_id := "not-an-object-id" |} Sample.alice 1000900000
      Sample.store
    = (Returns {| message := "Added to favorites" |}, s1)
    /\ get_favorites Sample.alice s1 = (Raises InvalidId, s1)
    /\ respond (fst (get_favorites Sample.alice s1))
       = {| status := 500; error_detail := Some "Internal Server Error" |}.
Proof.
  apply (malformed_favorite_breaks_listing "not-an-object-id" Sample.alice 1000900000
           Sample.store InvalidId).
  - vm_compute. reflexivity.
  - reflexivity.
  - unfold favorites_of. cbn [Sample.store favorites List.filter length]. lia.
Defined.

Lemma get_favorites_sound_witness :
  Sample.kitchen = Sample.kitchen
  /\ (length [Recipe_of_doc Sample.pasta_doc] <= 1000)%nat
  /\ Forall
       (fun r =>
          exists doc f,
            In doc (recipes Sample.kitchen) /\ r = Recipe_of_doc doc
            /\ In f (favorites Sample.kitchen)
            /\ favorite_user_id f = bson.str (user__id Sample.alice)
            /\ bson.ObjectId_of_str (favorite_recipe_id f) = Returns (recipe__id doc))
       [Recipe_of_doc Sample.pasta_doc].
Proof.
  apply (get_favorites_sound Sample.alice Sample.kitchen Sample.kitchen
           [Recipe_of_doc Sample.pasta_doc]).
  vm_compute. reflexivity.
Defined.

Lemma get_current_user_sound_witness :
  exists claims uid,
    credentials (Sample.bearer (access_token Sample.alice_response))
    = jwt.Compact ALGORITHM claims (Sample.sign ALGORITHM Sample.SECRET_KEY claims)
    /\ claims !! "user_id" = Some (VStr uid)
    /\ bson.ObjectId_of_str uid = Returns (user__id Sample.alice).
Proof.
  assert (Hrun : get_current_user Sample.SECRET_KEY Sample.sign Sample.int_of_str
                   (Sample.bearer (access_token Sample.alice_response)) 2000000000
                   Sample.store
                 = (Returns Sample.alice, Sample.store))
    by (vm_compute; reflexivity).
  destruct (get_current_user_sound Sample.SECRET_KEY Sample.sign Sample.int_of_str
              _ _ _ _ _ Hrun)
    as (claims & uid & Htok & _ & Hget & Hoid & _).
  exists claims, uid. auto.
Defined.

Lemma login_sound_witness :
  exists u,
    In u (users Sample.store)
    /\ user_email u = "a@x.com"
    /\ verify_password Sample.digest "pw123" (user_password u) = Returns true.
Proof.
  destruct (login_sound Sample.SECRET_KEY Sample.digest Sample.sign _ _ _ _ _
              login_alice_response)
    as (u & Hin & Hemail & Hverify & _).
  exists u. auto.
Defined.



